(** * Rain predictor (app.py): analogue feature synthesis, prediction,
      interpretation and aggregation.

    A shallow embedding of [src/app.py].  Conventions:

    - a floating-point number is the rational it denotes ([Q]); a null
      cell or a NaN is [None] in an [option Q]; comparisons are then
      exact; the product of line 126 is the rounded product of the two
      floats, the parameter [float_mul]; means and the sums and quotients
      of the monthly report are written with exact arithmetic;
    - a pandas Timestamp at midnight is the proleptic Gregorian ordinal of
      its day ([Fecha] = [Z], day 1 is 0001-01-01, as [date.toordinal]);
      a NaT is [None] in an [option Fecha];
    - a DataFrame is a list of column names together with its rows; a row
      carries its date and a finite map from column name to cell;
    - the one-row DataFrame built for a target date is a finite map from
      feature name to value;
    - the fitted scaler and classifier are parameters; they may raise;
    - printing and the calls to the scaler and the classifier are recorded
      in a trace, exceptions are explicit results. *)

From stdpp Require Import gmap strings list.
From Stdlib Require Import QArith ZArith Lia.

Close Scope Q_scope.

(* ===================================================================== *)
(** ** Calendar: what the code reads off a Timestamp *)
(* ===================================================================== *)

Module Calendario.
Local Open Scope Z_scope.

(** A day, as its proleptic Gregorian ordinal. *)
Definition Fecha : Type := Z.

Definition is_leap (y : Z) : bool :=
  (y mod 4 =? 0) && (negb (y mod 100 =? 0) || (y mod 400 =? 0)).

Definition days_in_month (y m : Z) : Z :=
  if m =? 2 then (if is_leap y then 29 else 28)
  else if (m =? 4) || (m =? 6) || (m =? 9) || (m =? 11) then 30
  else 31.

(** Days of the year before the first of month [m] (non-leap table). *)
Definition days_before_month_tabla (m : Z) : Z :=
  match m with
  | 1 => 0 | 2 => 31 | 3 => 59 | 4 => 90 | 5 => 120 | 6 => 151
  | 7 => 181 | 8 => 212 | 9 => 243 | 10 => 273 | 11 => 304 | 12 => 334
  | _ => 0
  end.

Definition days_before_month (y m : Z) : Z :=
  days_before_month_tabla m + (if (2 <? m) && is_leap y then 1 else 0).

Definition days_before_year (y : Z) : Z :=
  let p := y - 1 in p * 365 + p / 4 - p / 100 + p / 400.

(** [Timestamp(year=y, month=m, day=d)] at midnight, as an ordinal. *)
Definition ymd2ord (y m d : Z) : Fecha :=
  days_before_year y + days_before_month y m + d.

Definition DI400Y : Z := 146097.
Definition DI100Y : Z := 36524.
Definition DI4Y : Z := 1461.

(** Ordinal to (year, month, day). *)
Definition ord2ymd (f : Fecha) : Z * Z * Z :=
  let n := f - 1 in
  let n400 := n / DI400Y in
  let n := n mod DI400Y in
  let n100 := n / DI100Y in
  let n := n mod DI100Y in
  let n4 := n / DI4Y in
  let n := n mod DI4Y in
  let n1 := n / 365 in
  let n := n mod 365 in
  let y := n400 * 400 + 1 + n100 * 100 + n4 * 4 + n1 in
  if (n1 =? 4) || (n100 =? 4) then (y - 1, 12, 31)
  else
    let leapyear := (n1 =? 3) && (negb (n4 =? 24) || (n100 =? 3)) in
    let m := Z.shiftr (n + 50) 5 in
    let preceding :=
      days_before_month_tabla m + (if (2 <? m) && leapyear then 1 else 0) in
    if n <? preceding then
      let m' := m - 1 in
      let preceding' :=
        preceding -
        (if m' =? 2 then (if leapyear then 29 else 28)
         else if (m' =? 4) || (m' =? 6) || (m' =? 9) || (m' =? 11) then 30
         else 31) in
      (y, m', n - preceding' + 1)
    else (y, m, n - preceding + 1).

(** [fecha.year], [fecha.month], [fecha.day]. *)
Definition year (f : Fecha) : Z := fst (fst (ord2ymd f)).
Definition month (f : Fecha) : Z := snd (fst (ord2ymd f)).
Definition day (f : Fecha) : Z := snd (ord2ymd f).

(** [fecha.timetuple().tm_yday]: 1-based day of the year. *)
Definition tm_yday (f : Fecha) : Z := f - ymd2ord (year f) 1 1 + 1.

(** [fecha.weekday()]: 0 is Monday, 6 is Sunday. *)
Definition weekday (f : Fecha) : Z := (f + 6) mod 7.

(** [fecha.strftime('%Y-%m-%d')]. *)
Definition digito (n : Z) : Ascii.ascii :=
  Ascii.ascii_of_N (48 + Z.to_N (n mod 10)).

Definition dos_digitos (n : Z) : string :=
  String (digito (n / 10)) (String (digito n) EmptyString).

Definition cuatro_digitos (n : Z) : string :=
  String (digito (n / 1000)) (String (digito (n / 100)) (dos_digitos n)).

Definition strftime (f : Fecha) : string :=
  cuatro_digitos (year f) +:+ "-" +:+ dos_digitos (month f) +:+ "-"
  +:+ dos_digitos (day f).

(** [pd.date_range(start=a, end=b)] at daily frequency: the days
    [a], [a+1], ..., [b] in increasing order; empty when [b < a]. *)
Definition date_range (a b : Fecha) : list Fecha :=
  map (fun k : nat => a + Z.of_nat k) (seq 0 (Z.to_nat (b - a + 1))).

End Calendario.

Import Calendario.

(* ===================================================================== *)
(** ** Effects: exceptions and a trace of what the program does *)
(* ===================================================================== *)

(** The exceptions the modelled code can meet.  All of them derive from
    Python's [Exception]. *)
Inductive excepcion : Type :=
| FileNotFoundError
| KeyError (clave : string)
| IndexError
| TypeError
| ValueError
| ZeroDivisionError
| OtraExcepcion (detalle : string).

(** One result row of a forecast (the dict appended at lines 155-160). *)
Record Resultado : Type := mkResultado {
  r_fecha : string;
  r_prediccion : string;
  r_probabilidad : option Q;
  r_interpretacion : string
}.

(** What is printed.  A message keeps the values that the format string
    interpolates; the rounding of [:.2f] and [:.1f] is not modelled. *)
Inductive mensaje : Type :=
| MsgAdvertenciaNulos (n : nat)                      (* line 29 *)
| MsgNulosPorColumna (l : list (string * nat))       (* line 30 *)
| MsgQuedanNulos (n : nat)                           (* line 40 *)
| MsgSeEliminaran                                    (* line 41 *)
| MsgDatosListos (filas : nat)                       (* line 44 *)
| MsgArchivoNoEncontrado                             (* line 48 *)
| MsgErrorCarga (e : excepcion)                      (* line 51 *)
| MsgNoHayDatos (fecha : string)                     (* line 70 *)
| MsgFaltan (faltantes : list string)                (* line 115 *)
| MsgErrorPrediccion (e : excepcion)                 (* line 128 *)
| MsgErrorMes                                        (* line 230 *)
| MsgErrorValores                                    (* line 354 *)
| MsgEncabezado                                      (* lines 236-239 *)
| MsgFila (r : Resultado) (p : Q)                    (* line 242 *)
| MsgResumen                                         (* lines 247-248 *)
| MsgDiasLluvia (dias total : nat) (porcentaje : Q)  (* line 249 *)
| MsgProbMedia (p : Q)                               (* line 250 *)
| MsgProbMaxima (p : Q)                              (* line 251 *)
| MsgProbMinima (p : Q).                             (* line 252 *)

(** What the program does to the outside, in order. *)
Inductive evento : Type :=
| Imprime (m : mensaje)
| LlamaTransform (X : list (option Q))   (* escalador.transform(X) *)
| LlamaPredictProba                      (* modelo.predict_proba(X_scaled) *)
| LlamaPredict.                          (* modelo.predict(X_scaled) *)

(** A computation: the events it produced, then the exception it raised
    or the value it returned. *)
Definition Efecto (A : Type) : Type := list evento * (excepcion + A).

Definition traza {A} (m : Efecto A) : list evento := fst m.
Definition salida {A} (m : Efecto A) : excepcion + A := snd m.

#[global] Instance Efecto_ret : MRet Efecto := fun A a => ([], inr a).

#[global] Instance Efecto_bind : MBind Efecto := fun A B k m =>
  match m with
  | (t, inl e) => (t, inl e)
  | (t, inr a) => let '(t', r) := k a in (t ++ t', r)
  end.

Definition raise {A} (e : excepcion) : Efecto A := ([], inl e).

Definition print (m : mensaje) : Efecto unit := ([Imprime m], inr tt).

(** A call to an external collaborator: the call is recorded, then its
    outcome (an exception or a value) is the outcome of the call. *)
Definition llamar {A} (ev : evento) (r : excepcion + A) : Efecto A :=
  ([ev], r).

(** [try: m  except Exception as e: h e]. *)
Definition try_except {A} (m : Efecto A) (h : excepcion -> Efecto A)
  : Efecto A :=
  match m with
  | (t, inl e) => let '(t', r) := h e in (t ++ t', r)
  | (t, inr a) => (t, inr a)
  end.

(* ===================================================================== *)
(** ** Numbers *)
(* ===================================================================== *)

(** [a < b] on numbers. *)
Definition Qltb (a b : Q) : bool := negb (Qle_bool b a).

(** [sum(l)]: Python starts from 0 and adds from the left. *)
Definition Qsum (l : list Q) : Q := foldl Qplus (0%Q) l.

(** [max(l)] and [min(l)] of a non-empty list whose head is [x]: the first
    largest (smallest) element. *)
Definition Qmax_lista (x : Q) (l : list Q) : Q :=
  foldl (fun m y => if Qltb m y then y else m) x l.

Definition Qmin_lista (x : Q) (l : list Q) : Q :=
  foldl (fun m y => if Qltb y m then y else m) x l.

(** The mean of the non-null values of a column ([Series.mean()], which
    skips nulls); null when there is none. *)
Definition media (l : list (option Q)) : option Q :=
  let xs := omap id l in
  match xs with
  | [] => None
  | _ => Some (Qsum xs / inject_Z (Z.of_nat (length xs)))%Q
  end.

(* ===================================================================== *)
(** ** The historical table *)
(* ===================================================================== *)

(** A row: its date (None is NaT) and its numeric cells by column name
    (a cell that is None is null). *)
Record Fila : Type := mkFila {
  date : option Fecha;
  celdas : gmap string (option Q)
}.

(** A DataFrame: its column names (the date column is named "date") and
    its rows. *)
Record DataFrame : Type := mkDataFrame {
  columns : list string;
  filas : list Fila
}.

(** [col in df.columns]. *)
Definition tiene_columna (c : string) (df : DataFrame) : bool :=
  bool_decide (c ∈ columns df).

(** The cell of row [r] in column [c]; a missing cell reads as null. *)
Definition celda (c : string) (r : Fila) : option Q :=
  mjoin (celdas r !! c).

(** [df[c]] as the list of its cells, top to bottom. *)
Definition columna (c : string) (rows : list Fila) : list (option Q) :=
  map (celda c) rows.

Definition es_nulo (x : option Q) : bool :=
  match x with None => true | Some _ => false end.

(** [df[c].isnull().sum()], for the date column and for a numeric one. *)
Definition nulos_fecha (rows : list Fila) : nat :=
  length (filter (fun r => date r = None) rows).

Definition nulos_columna (c : string) (rows : list Fila) : nat :=
  if String.eqb c "date" then nulos_fecha rows
  else length (filter (fun x => es_nulo x = true) (columna c rows)).

(** [df.isnull().sum().sum()]. *)
Definition nulos_totales (df : DataFrame) : nat :=
  foldr Nat.add 0%nat (map (fun c => nulos_columna c (filas df)) (columns df)).

(** [df[c] = valores]: the column is replaced, row by row. *)
Definition asignar_columna (c : string) (valores : list (option Q))
    (rows : list Fila) : list Fila :=
  zip_with (fun r v => mkFila (date r) (<[c := v]> (celdas r))) rows valores.

(** [serie.fillna(v)]: nulls become [v] (a NaN [v] leaves them null). *)
Definition fillna (v : option Q) (l : list (option Q)) : list (option Q) :=
  map (fun x => match x with None => v | Some q => Some q end) l.

(* ===================================================================== *)
(** ** Historical record cleaner: [cargar_datos_historicos] *)
(* ===================================================================== *)

(** The values pandas puts in a gap of [hueco] nulls between the valid
    values [a] and [b]: equally spaced on the segment from [a] to [b]. *)
Definition relleno (a b : Q) (hueco : nat) : list (option Q) :=
  map (fun i : nat =>
         Some (a + (b - a) * (inject_Z (Z.of_nat i)
                              / inject_Z (Z.of_nat (S hueco))))%Q)
      (seq 1 hueco).

(** After the valid value [a] and [hueco] nulls already passed. *)
Fixpoint interpolate_desde (a : Q) (hueco : nat) (l : list (option Q))
  : list (option Q) :=
  match l with
  | [] => repeat (Some a) hueco
  | Some b :: l' => relleno a b hueco ++ Some b :: interpolate_desde b 0 l'
  | None :: l' => interpolate_desde a (S hueco) l'
  end.

(** [serie.interpolate(method='linear')]: nulls between two valid values
    are interpolated, nulls after the last valid value take that value,
    nulls before the first valid value stay. *)
Fixpoint interpolate (l : list (option Q)) : list (option Q) :=
  match l with
  | [] => []
  | None :: l' => None :: interpolate l'
  | Some a :: l' => Some a :: interpolate_desde a 0 l'
  end.

(** [serie.fillna(method='bfill')]: a null takes the next valid value. *)
Fixpoint bfill (l : list (option Q)) : list (option Q) :=
  match l with
  | [] => []
  | Some a :: l' => Some a :: bfill l'
  | None :: l' => let r := bfill l' in mjoin (head r) :: r
  end.

(** [serie.fillna(method='ffill')]: a null takes the previous valid
    value. *)
Fixpoint ffill_desde (prev : option Q) (l : list (option Q))
  : list (option Q) :=
  match l with
  | [] => []
  | Some a :: l' => Some a :: ffill_desde (Some a) l'
  | None :: l' => prev :: ffill_desde prev l'
  end.

Definition ffill (l : list (option Q)) : list (option Q) :=
  ffill_desde None l.

(** The columns of the loop at line 33 and of lines 38 and 42. *)
Definition columnas_reparables : list string :=
  ["tavg"; "tmin"; "tmax"; "prcp"; "wspd"; "pres"; "wdir"].

Definition columnas_criticas : list string := ["tavg"; "prcp"; "pres"].

(** Lines 34-35, for one column. *)
Definition reparar_columna (df : DataFrame) (c : string) : DataFrame :=
  if tiene_columna c df && (0 <? nulos_columna c (filas df))%nat then
    mkDataFrame (columns df)
      (asignar_columna c
         (ffill (bfill (interpolate (columna c (filas df)))))
         (filas df))
  else df.

(** Lines 33-35. *)
Definition reparar (df : DataFrame) : DataFrame :=
  foldl reparar_columna df columnas_reparables.

(** [df[cs]] raises KeyError when a name of [cs] is not a column. *)
Definition exigir_columnas (cs : list string) (df : DataFrame)
  : Efecto unit :=
  match filter (fun c => tiene_columna c df = false) cs with
  | [] => mret tt
  | c :: _ => raise (KeyError c)
  end.

(** [df[cs].isnull().sum().sum()]. *)
Definition nulos_en (cs : list string) (rows : list Fila) : nat :=
  foldr Nat.add 0%nat (map (fun c => nulos_columna c rows) cs).

(** A row that [dropna(subset=cs)] keeps. *)
Definition fila_completa (cs : list string) (r : Fila) : bool :=
  forallb (fun c => negb (es_nulo (celda c r))) cs.

(** [df.dropna(subset=cs)]. *)
Definition dropna (cs : list string) (df : DataFrame) : DataFrame :=
  mkDataFrame (columns df)
    (filter (fun r => fila_completa cs r = true) (filas df)).

(** Lines 37-44, on the table [df] that the repair of lines 33-35
    left. *)
Definition eliminar_nulos_restantes (df : DataFrame) : Efecto DataFrame :=
  _ ← exigir_columnas columnas_criticas df;
  let nulos_restantes := nulos_en columnas_criticas (filas df) in
  df' ← (if (0 <? nulos_restantes)%nat then
           _ ← print (MsgQuedanNulos nulos_restantes);
           _ ← print MsgSeEliminaran;
           mret (dropna columnas_criticas df)
         else mret df);
  _ ← print (MsgDatosListos (length (filas df')));
  mret df'.

(** Lines 27-46, once the file is read and its dates are parsed. *)
Definition limpiar (df : DataFrame) : Efecto DataFrame :=
  let nulos := map (fun c => (c, nulos_columna c (filas df))) (columns df) in
  if (0 <? nulos_totales df)%nat then
    _ ← print (MsgAdvertenciaNulos (nulos_totales df));
    _ ← print (MsgNulosPorColumna
                 (filter (fun cn => (0 < snd cn)%nat) nulos));
    eliminar_nulos_restantes (reparar df)
  else mret df.

(** [cargar_datos_historicos(ruta_archivo)].  [lectura] is the outcome
    of lines 24-25 ([pd.read_csv] and [pd.to_datetime]): the table, or
    the exception they raised.  The result None is the unavailable
    sentinel. *)
Definition cargar_datos_historicos (lectura : excepcion + DataFrame)
  : Efecto (option DataFrame) :=
  try_except
    (df ← (([], lectura) : Efecto DataFrame);
     df' ← limpiar df;
     mret (Some df'))
    (fun e =>
       match e with
       | FileNotFoundError =>
           _ ← print MsgArchivoNoEncontrado; mret None
       | _ => _ ← print (MsgErrorCarga e); mret None
       end).

(* ===================================================================== *)
(** ** Interpretation: [interpretar_probabilidad] *)
(* ===================================================================== *)

Definition interpretar_probabilidad (probabilidad : option Q) : string :=
  match probabilidad with
  | None => "No se pudo determinar"
  | Some p =>
      if Qltb p 20 then "Muy baja"
      else if Qltb p 40 then "Baja"
      else if Qltb p 60 then "Moderada"
      else if Qltb p 80 then "Alta"
      else "Muy alta"
  end.

(** Line 87: [(fecha.month % 12 + 3) // 3]. *)
Definition season (mes : Z) : Z := ((mes mod 12 + 3) / 3)%Z.

(* ===================================================================== *)
(** ** Monthly report: lines 236-252 and 334-351 *)
(* ===================================================================== *)

(** The loop at lines 241-242: one table line per result.  Formatting an
    absent probability with [:.2f] raises TypeError. *)
Fixpoint imprimir_filas (resultados : list Resultado) : Efecto unit :=
  match resultados with
  | [] => mret tt
  | r :: rs =>
      _ ← (match r_probabilidad r with
           | Some p => print (MsgFila r p)
           | None => raise TypeError
           end);
      imprimir_filas rs
  end.

(** [a / b] on numbers. *)
Definition dividir (a b : Q) : Efecto Q :=
  if Qeq_bool b 0 then raise ZeroDivisionError else mret (a / b)%Q.

(** [sum(probabilidades)]: adding None raises TypeError. *)
Definition sumar (l : list (option Q)) : Efecto (list Q) :=
  match mapM id l with
  | Some xs => mret xs
  | None => raise TypeError
  end.

Definition maximo (l : list Q) : Efecto Q :=
  match l with
  | [] => raise ValueError
  | x :: l' => mret (Qmax_lista x l')
  end.

Definition minimo (l : list Q) : Efecto Q :=
  match l with
  | [] => raise ValueError
  | x :: l' => mret (Qmin_lista x l')
  end.

Definition Qnat (n : nat) : Q := inject_Z (Z.of_nat n).

(** [sum(1 for r in resultados if r['prediccion'] == 'Lluvia')]. *)
Definition contar_lluvia (resultados : list Resultado) : nat :=
  length (filter (fun r => r_prediccion r = "Lluvia") resultados).

(** Lines 244-252 (and 343-351). *)
Definition resumen_mensual (resultados : list Resultado) : Efecto unit :=
  let probabilidades := map r_probabilidad resultados in
  let dias_lluvia := contar_lluvia resultados in
  _ ← print MsgResumen;
  fraccion ← dividir (Qnat dias_lluvia) (Qnat (length resultados));
  _ ← print (MsgDiasLluvia dias_lluvia (length resultados)
               (fraccion * 100)%Q);
  xs ← sumar probabilidades;
  prob_media ← dividir (Qsum xs) (Qnat (length probabilidades));
  _ ← print (MsgProbMedia prob_media);
  prob_max ← maximo xs;
  _ ← print (MsgProbMaxima prob_max);
  prob_min ← minimo xs;
  print (MsgProbMinima prob_min).

(** Lines 236-252: the table, then the summary. *)
Definition informe_mensual (resultados : list Resultado) : Efecto unit :=
  _ ← print MsgEncabezado;
  _ ← imprimir_filas resultados;
  resumen_mensual resultados.

(* ===================================================================== *)
(** ** Analogue feature synthesis: [preparar_datos_fecha] *)
(* ===================================================================== *)

(** The synthesized one-row table, by feature name. *)
Abbreviation Vector := (gmap string (option Q)).

(** Lines 61-62: same month, and day of month in
    [[fecha.day-1, fecha.day, fecha.day+1]]. *)
Definition es_similar (fecha : Fecha) (r : Fila) : bool :=
  match date r with
  | Some f =>
      (month f =? month fecha)%Z
      && existsb (Z.eqb (day f))
           [(day fecha - 1)%Z; day fecha; (day fecha + 1)%Z]
  | None => false
  end.

(** Line 67: same month. *)
Definition es_mismo_mes (fecha : Fecha) (r : Fila) : bool :=
  match date r with
  | Some f => (month f =? month fecha)%Z
  | None => false
  end.

(** Lines 60-63. *)
Definition analogos_primarios (df_historico : DataFrame) (fecha : Fecha)
  : list Fila :=
  filter (fun r => es_similar fecha r = true) (filas df_historico).

(** Line 67. *)
Definition analogos_mes (df_historico : DataFrame) (fecha : Fecha)
  : list Fila :=
  filter (fun r => es_mismo_mes fecha r = true) (filas df_historico).

(** Lines 60-67: the candidate rows. *)
Definition datos_similares (df_historico : DataFrame) (fecha : Fecha)
  : list Fila :=
  if (length (analogos_primarios df_historico fecha) =? 0)%nat
  then analogos_mes df_historico fecha
  else analogos_primarios df_historico fecha.

(** Lines 76-77, for one column. *)
Definition rellenar_columna (rows : list Fila) (c : string) : list Fila :=
  if (0 <? nulos_columna c rows)%nat && negb (String.eqb c "date") then
    asignar_columna c (fillna (media (columna c rows)) (columna c rows)) rows
  else rows.

(** Lines 74-77. *)
Definition rellenar_nulos (df : DataFrame) : DataFrame :=
  if (0 <? nulos_totales df)%nat then
    mkDataFrame (columns df) (foldl rellenar_columna (filas df) (columns df))
  else df.

(** Line 80: [datos_similares.mean().to_dict()], on the numeric columns.
    The entry that recent versions of pandas add for the date column is
    not a number and no feature reads it; it is left out. *)
Definition promedios (df : DataFrame) : Vector :=
  list_to_map
    (map (fun c => (c, media (columna c (filas df))))
         (filter (fun c => c ≠ "date") (columns df))).

(** [df_prediccion[c]]: KeyError when [c] is not a column. *)
Definition leer_columna (c : string) (v : Vector) : Efecto (option Q) :=
  match v !! c with
  | Some x => mret x
  | None => raise (KeyError c)
  end.

(** [df_datos[caracteristicas]]: the values in the order of the list. *)
Fixpoint seleccionar (caracteristicas : list string) (v : Vector)
  : Efecto (list (option Q)) :=
  match caracteristicas with
  | [] => mret []
  | c :: cs =>
      x ← leer_columna c v;
      xs ← seleccionar cs v;
      mret (x :: xs)
  end.

(** [a[i]] on a sequence: IndexError out of range. *)
Definition indice {A} (i : nat) (l : list A) : Efecto A :=
  match l !! i with
  | Some x => mret x
  | None => raise IndexError
  end.

(** [proba[:, 1]]: column 1 of every row. *)
Fixpoint columna_1 (proba : list (list Q)) : Efecto (list Q) :=
  match proba with
  | [] => mret []
  | fila :: resto =>
      x ← indice 1 fila;
      xs ← columna_1 resto;
      mret (x :: xs)
  end.

(** A Python int that fits a C [int] (32 bits). *)
Definition cabe_en_int (z : Z) : bool :=
  ((-2147483648 <=? z) && (z <=? 2147483647))%Z.

(** [pd.Timestamp(year=y, month=m, day=d)] builds a [datetime] from its
    arguments.  The constructor first converts the three arguments to C
    ints: OverflowError for one that does not fit, whatever the others
    are.  Then it checks the ranges: ValueError unless it is a date of
    the calendar. *)
Definition Timestamp (y m d : Z) : Efecto Fecha :=
  if negb (cabe_en_int y && cabe_en_int m && cabe_en_int d)
  then raise (OtraExcepcion "OverflowError")
  else if ((1 <=? y) && (y <=? 9999) && (1 <=? m) && (m <=? 12)
           && (1 <=? d) && (d <=? days_in_month y m))%Z
  then mret (ymd2ord y m d)
  else raise ValueError.

(* ===================================================================== *)
(** ** Reference predicates and sample data *)
(* ===================================================================== *)

(** The primary analogue window in the words of the specification: the
    row is dated, its month is [m] and its day of month lies in the
    inclusive range from [d-1] to [d+1]. *)
Definition en_ventana (m d : Z) (r : Fila) : Prop :=
  ∃ f, date r = Some f ∧ month f = m ∧ (d - 1 ≤ day f ≤ d + 1)%Z.

(** The fallback set in the words of the specification: same month. *)
Definition en_mes (m : Z) (r : Fila) : Prop :=
  ∃ f, date r = Some f ∧ month f = m.

#[global] Instance en_ventana_dec m d r : Decision (en_ventana m d r).
Proof.
  unfold en_ventana. destruct (date r) as [f|].
  - destruct (decide (month f = m ∧ (d - 1 ≤ day f ≤ d + 1)%Z)) as [H|H].
    + left. exists f. tauto.
    + right. intros (f' & Hf & H1 & H2). inversion Hf; subst. tauto.
  - right. intros (f' & Hf & _). discriminate.
Defined.

#[global] Instance en_mes_dec m r : Decision (en_mes m r).
Proof.
  unfold en_mes. destruct (date r) as [f|].
  - destruct (decide (month f = m)) as [H|H].
    + left. exists f. tauto.
    + right. intros (f' & Hf & H1). inversion Hf; subst. tauto.
  - right. intros (f' & Hf & _). discriminate.
Defined.

(** The schema of the data model: the historical table has the columns
    [tavg] and [prcp] that line 91 and line 94 read. *)
Definition esquema_minimo (df : DataFrame) : Prop :=
  "tavg" ∈ columns df ∧ "prcp" ∈ columns df.

(** A small historical table. *)
Definition fila_ejemplo (y m d : Z) (tavg prcp pres wdir : option Q)
  : Fila :=
  mkFila (Some (ymd2ord y m d))
    (<["tavg" := tavg]> (<["prcp" := prcp]> (<["pres" := pres]>
       (<["wdir" := wdir]> ∅)))).

Definition tabla_ejemplo : DataFrame :=
  mkDataFrame ["date"; "tavg"; "prcp"; "pres"; "wdir"]
    [ fila_ejemplo 2020 1 1 (Some 10%Q) (Some 0%Q) (Some 1010%Q) (Some 90%Q);
      fila_ejemplo 2021 1 2 (Some 12%Q) (Some 5%Q) (Some 1012%Q) (Some 180%Q);
      fila_ejemplo 2020 1 31 (Some 8%Q) (Some 1%Q) (Some 1008%Q) (Some 0%Q);
      fila_ejemplo 2019 3 15 (Some 15%Q) (Some 2%Q) (Some 1005%Q) (Some 270%Q) ].

(** The same table as read from a file with gaps. *)
Definition tabla_con_nulos : DataFrame :=
  mkDataFrame ["date"; "tavg"; "prcp"; "pres"; "wdir"]
    [ fila_ejemplo 2020 1 1 (Some 10%Q) None (Some 1010%Q) (Some 90%Q);
      fila_ejemplo 2020 1 2 None (Some 5%Q) None (Some 180%Q);
      fila_ejemplo 2020 1 3 (Some 14%Q) (Some 1%Q) None None ].

(** A table whose pressure column is empty throughout. *)
Definition tabla_sin_presion : DataFrame :=
  mkDataFrame ["date"; "tavg"; "prcp"; "pres"]
    [ fila_ejemplo 2020 1 1 (Some 10%Q) (Some 0%Q) None None;
      fila_ejemplo 2020 1 2 None (Some 5%Q) None None ].

(** Sample collaborators, used to run the model on the sample tables:
    wind components that are constant, a scaler that is the identity, a
    classifier that answers "rain" with probability 3/4, a scaler that
    raises, and a float product that is the exact product (as it is for
    3/4 and 100, whose product 75 is a float). *)
Definition seno_ejemplo (x : Q) : Q := 0%Q.
Definition coseno_ejemplo (x : Q) : Q := 1%Q.

Definition escalador_ejemplo (X : list (option Q))
  : excepcion + list (option Q) := inr X.

Definition escalador_que_falla (X : list (option Q))
  : excepcion + list (option Q) := inl ValueError.

Definition proba_ejemplo (X : list (option Q))
  : excepcion + list (list Q) := inr [[(1#4)%Q; (3#4)%Q]].

Definition predict_ejemplo (X : list (option Q)) : excepcion + list Z :=
  inr [1%Z].

Definition float_mul_ejemplo (x y : Q) : Q := (x * y)%Q.

(* ===================================================================== *)
(** ** Reference definitions for the further properties *)
(* ===================================================================== *)

(** What line 35 leaves in column [c] of [df]: the three fills if the
    column exists and has a null (line 34), the column as it is
    otherwise. *)
Definition columna_reparada (df : DataFrame) (c : string)
  : list (option Q) :=
  if tiene_columna c df && (0 <? nulos_columna c (filas df))%nat
  then ffill (bfill (interpolate (columna c (filas df))))
  else columna c (filas df).

(** The rank of a band, from "Muy baja" (0) to "Muy alta" (4); any other
    text, "No se pudo determinar" included, has rank 5. *)
Definition nivel_banda (s : string) : nat :=
  if String.eqb s "Muy baja" then 0
  else if String.eqb s "Baja" then 1
  else if String.eqb s "Moderada" then 2
  else if String.eqb s "Alta" then 3
  else if String.eqb s "Muy alta" then 4
  else 5.

(** A result row as the range loop builds it: one of the two labels, the
    interpretation of its own probability, and a probability whenever
    the label is "Lluvia". *)
Definition resultado_coherente (r : Resultado) : Prop :=
  (r_prediccion r = "Lluvia" \/ r_prediccion r = "No lluvia") /\
  r_interpretacion r = interpretar_probabilidad (r_probabilidad r) /\
  (r_prediccion r = "Lluvia" -> is_Some (r_probabilidad r)).

(* ===================================================================== *)
(** ** The front ends: model loading, command line and menu *)
(* ===================================================================== *)

(** What the front ends print besides the messages of the core. *)
Inductive mensaje_interfaz : Type :=
| MsgModeloNoEncontrado                        (* lines 17-18 *)
| MsgPrediccionPara (fecha : string)           (* lines 200 and 289 *)
| MsgResultado (etiqueta : string)             (* lines 201 and 290 *)
| MsgProbabilidad (p : Q)                      (* lines 202 and 292 *)
| MsgProbabilidadNoDisponible                  (* line 294 *)
| MsgInterpretacion (texto : string)           (* lines 203 and 295 *)
| MsgErrorFormatoFecha                         (* lines 205, 226, 297, 321 *)
| MsgErrorRango                                (* lines 212 and 307 *)
| MsgEncabezadoRango (inicio fin : string)     (* lines 217-220, 312-315 *)
| MsgTitulo                                    (* line 256 *)
| MsgCargando                                  (* line 258 *)
| MsgCargado                                   (* line 271 *)
| MsgMenu                                      (* lines 274-278 *)
| MsgDespedida                                 (* line 356 *)
| MsgOpcionNoValida.                           (* line 359 *)

(** What a front end does: an event of the core, a message of its own,
    or a call to [input()]. *)
Inductive evento_interfaz : Type :=
| Nucleo (ev : evento)
| Muestra (m : mensaje_interfaz)
| Pide.

(** A computation of a front end. *)
Definition Interfaz (A : Type) : Type :=
  list evento_interfaz * (excepcion + A).

Definition i_ret {A} (a : A) : Interfaz A := ([], inr a).

Definition i_bind {A B} (m : Interfaz A) (k : A -> Interfaz B)
  : Interfaz B :=
  match m with
  | (t, inl e) => (t, inl e)
  | (t, inr a) => let '(t', r) := k a in (t ++ t', r)
  end.

Definition i_raise {A} (e : excepcion) : Interfaz A := ([], inl e).

Definition muestra (m : mensaje_interfaz) : Interfaz unit :=
  ([Muestra m], inr tt).

(** The outcome of an external call that leaves no event. *)
Definition externo {A} (r : excepcion + A) : Interfaz A := ([], r).

(** A computation of the core, run by a front end. *)
Definition nucleo {A} (m : Efecto A) : Interfaz A :=
  (map Nucleo (traza m), salida m).

(** [try: m  except ...: h e]; a handler that does not catch [e]
    raises it again. *)
Definition i_try {A} (m : Interfaz A) (h : excepcion -> Interfaz A)
  : Interfaz A :=
  match m with
  | (t, inl e) => let '(t', r) := h e in (t ++ t', r)
  | (t, inr a) => (t, inr a)
  end.

Notation "x <- m ;; k" := (i_bind m (fun x => k))
  (at level 100, m at next level, right associativity).

(** [except ValueError: print(<the date format error>)]. *)
Definition solo_ValueError (m : mensaje_interfaz) (e : excepcion)
  : Interfaz unit :=
  match e with
  | ValueError => muestra m
  | _ => i_raise e
  end.

(** [cargar_modelo()].  The three arguments are the outcomes of the
    three [joblib.load] of lines 12-14, taken in this order; the result
    None stands for the triple (None, None, None). *)
Definition cargar_modelo {Modelo Escalador : Type}
    (carga_modelo : excepcion + Modelo)
    (carga_escalador : excepcion + Escalador)
    (carga_caracteristicas : excepcion + list string)
  : Interfaz (option (Modelo * Escalador * list string)) :=
  i_try
    (modelo <- externo carga_modelo;;
     escalador <- externo carga_escalador;;
     caracteristicas <- externo carga_caracteristicas;;
     i_ret (Some (modelo, escalador, caracteristicas)))
    (fun e =>
       match e with
       | FileNotFoundError =>
           _ <- muestra MsgModeloNoEncontrado;; i_ret None
       | _ => i_raise e
       end).

(** What the command line asks for: [--fecha] with its text and what
    [parse] makes of it, [--rango] with what [parse] makes of its two
    texts, or [--mes] with its two integers. *)
Inductive argumentos : Type :=
| ArgFecha (texto : string) (parse : excepcion + Fecha)
| ArgRango (parse_inicio parse_fin : excepcion + Fecha)
| ArgMes (anio mes : Z).

(** A line typed at the menu: its text, and what [parse] and [int] make
    of it. *)
Record linea : Type := mkLinea {
  texto : string;
  como_fecha : excepcion + Fecha;
  como_entero : excepcion + Z
}.

(** [input()] when a line is left, and at the end of the script, where
    it raises EOFError. *)
Definition pide : Interfaz unit := ([Pide], inr tt).

Definition fin_de_entrada {A} : Interfaz A :=
  ([Pide], inl (OtraExcepcion "EOFError")).

(** The first exception among the outcomes of the three loads of lines
    12-14, in their order. *)
Definition primera_excepcion {Modelo Escalador : Type}
    (carga_modelo : excepcion + Modelo)
    (carga_escalador : excepcion + Escalador)
    (carga_caracteristicas : excepcion + list string) : option excepcion :=
  match carga_modelo, carga_escalador, carga_caracteristicas with
  | inl e, _, _ => Some e
  | inr _, inl e, _ => Some e
  | inr _, inr _, inl e => Some e
  | inr _, inr _, inr _ => None
  end.

(** More sample data: a table without the [tavg] column, lines typed at
    the menu, and the results of a month. *)
Definition tabla_sin_tavg : DataFrame :=
  mkDataFrame ["date"; "prcp"]
    [ mkFila (Some (ymd2ord 2020 1 1)) (<["prcp" := Some 0%Q]> ∅);
      mkFila (Some (ymd2ord 2021 1 2)) (<["prcp" := Some 5%Q]> ∅) ].

Definition linea_texto (s : string) : linea :=
  mkLinea s (inl ValueError) (inl ValueError).

Definition linea_fecha (s : string) (y m d : Z) : linea :=
  mkLinea s (inr (ymd2ord y m d)) (inl ValueError).

Definition resultados_ejemplo : list Resultado :=
  [ mkResultado "2024-03-01" "Lluvia" (Some 75%Q) "Alta";
    mkResultado "2024-03-02" "No lluvia" (Some 10%Q) "Muy baja";
    mkResultado "2024-03-03" "Lluvia" (Some 90%Q) "Muy alta" ].

Section Pipeline.

(** [np.sin(np.radians(x))] and [np.cos(np.radians(x))]. *)
Variables np_sin_radians np_cos_radians : Q -> Q.

(** The fitted scaler and classifier: what [escalador.transform],
    [modelo.predict_proba] and [modelo.predict] return or raise. *)
Variable Matriz : Type.
Variable escalador_transform : list (option Q) -> excepcion + Matriz.
Variable modelo_predict_proba : Matriz -> excepcion + list (list Q).
Variable modelo_predict : Matriz -> excepcion + list Z.

(** The product of two floats, rounded as the machine does ([x * y] on
    Python floats). *)
Variable float_mul : Q -> Q -> Q.

(** Lines 84-107: the calendar features of the target date, the derived
    fields and the wind components, on top of the means [v]. *)
Definition completar (fecha : Fecha) (v : Vector) : Efecto Vector :=
  let v := <["month" := Some (inject_Z (month fecha))]> v in
  let v := <["day_of_year" := Some (inject_Z (tm_yday fecha))]> v in
  let v := <["day_of_week" := Some (inject_Z (weekday fecha))]> v in
  let v := <["season" := Some (inject_Z (season (month fecha)))]> v in
  tavg ← leer_columna "tavg" v;
  let v := <["tavg_3d_mean" := tavg]> v in
  prcp ← leer_columna "prcp" v;
  let v := <["prcp_3d_sum" := prcp]> v in
  let v := <["pres_diff" := Some 0%Q]> v in
  match v !! "wdir" with
  | Some wdir =>
      let v := <["wdir_sin" := np_sin_radians <$> wdir]> v in
      mret (<["wdir_cos" := np_cos_radians <$> wdir]> v)
  | None =>
      let v := <["wdir_sin" := Some 0%Q]> v in
      mret (<["wdir_cos" := Some 0%Q]> v)
  end.

(** [preparar_datos_fecha(df_historico, fecha)] for a Timestamp [fecha].
    The result None is the "no data" signal of line 71. *)
Definition preparar_datos_fecha (df_historico : DataFrame) (fecha : Fecha)
  : Efecto (option Vector) :=
  let similares := datos_similares df_historico fecha in
  if (length similares =? 0)%nat then
    _ ← print (MsgNoHayDatos (strftime fecha));
    mret None
  else
    let similares :=
      rellenar_nulos (mkDataFrame (columns df_historico) similares) in
    df_prediccion ← completar fecha (promedios similares);
    mret (Some df_prediccion).

(** Line 113: the required names that are not columns of [df_datos]. *)
Definition missing_features (caracteristicas : list string)
    (df_datos : Vector) : list string :=
  filter (fun feat => df_datos !! feat = None) caracteristicas.

(** [predecir_probabilidad_lluvia(modelo, escalador, caracteristicas,
    df_datos)]. *)
Definition predecir_probabilidad_lluvia (caracteristicas : list string)
    (df_datos : Vector) : Efecto (option Z * option Q) :=
  try_except
    (match missing_features caracteristicas df_datos with
     | (_ :: _) as faltantes =>
         _ ← print (MsgFaltan faltantes);
         mret (None, None)
     | [] =>
         X ← seleccionar caracteristicas df_datos;
         X_scaled ← llamar (LlamaTransform X) (escalador_transform X);
         proba ← llamar LlamaPredictProba (modelo_predict_proba X_scaled);
         col ← columna_1 proba;
         probabilidad ← indice 0 col;
         pred ← llamar LlamaPredict (modelo_predict X_scaled);
         prediccion ← indice 0 pred;
         mret (Some prediccion, Some (float_mul probabilidad 100))
     end)
    (fun e =>
       _ ← print (MsgErrorPrediccion e);
       mret (None, None)).

(** What makes the try block raise [e] on the features [X], read off
    lines 118-126 in their order: the scaler raises [e]; or
    [predict_proba] raises it; or its answer cannot be indexed by
    [[:, 1][0]] (a row without column 1, or no row: IndexError at line
    123); or [predict] raises [e]; or its answer is empty (IndexError at
    line 124). *)
Definition fallo_prediccion (X : list (option Q)) (e : excepcion) : Prop :=
  escalador_transform X = inl e \/
  exists X_scaled, escalador_transform X = inr X_scaled /\
    (modelo_predict_proba X_scaled = inl e \/
     exists proba, modelo_predict_proba X_scaled = inr proba /\
       ((e = IndexError /\
         ~ (Forall (fun fila => is_Some (fila !! 1%nat)) proba /\
            proba <> []))
        \/
        (Forall (fun fila => is_Some (fila !! 1%nat)) proba /\
         proba <> [] /\
         (modelo_predict X_scaled = inl e \/
          (modelo_predict X_scaled = inr [] /\ e = IndexError))))).

(** Line 157: ['Lluvia' if prediccion == 1 else 'No lluvia']. *)
Definition etiqueta (prediccion : option Z) : string :=
  match prediccion with
  | Some 1%Z => "Lluvia"
  | _ => "No lluvia"
  end.

(** The loop of lines 151-160; [resultados] is the list being appended
    to. *)
Fixpoint bucle_rango (df_historico : DataFrame)
    (caracteristicas : list string) (fechas : list Fecha)
    (resultados : list Resultado) : Efecto (list Resultado) :=
  match fechas with
  | [] => mret resultados
  | fecha :: resto =>
      df_fecha ← preparar_datos_fecha df_historico fecha;
      match df_fecha with
      | Some v =>
          pp ← predecir_probabilidad_lluvia caracteristicas v;
          bucle_rango df_historico caracteristicas resto
            (resultados ++
             [mkResultado (strftime fecha) (etiqueta (fst pp)) (snd pp)
                (interpretar_probabilidad (snd pp))])
      | None => bucle_rango df_historico caracteristicas resto resultados
      end
  end.

(** [generar_pronostico_rango(df_historico, modelo, escalador,
    caracteristicas, fecha_inicio, fecha_fin)]. *)
Definition generar_pronostico_rango (df_historico : DataFrame)
    (caracteristicas : list string) (fecha_inicio fecha_fin : Fecha)
  : Efecto (list Resultado) :=
  bucle_rango df_historico caracteristicas
    (date_range fecha_inicio fecha_fin) [].

(** [analisis_mensual(df_historico, modelo, escalador, caracteristicas,
    año, mes)]: from the first to the last day of the month. *)
Definition analisis_mensual (df_historico : DataFrame)
    (caracteristicas : list string) (anio mes : Z)
  : Efecto (list Resultado) :=
  primero ← Timestamp anio mes 1;
  let dias_en_mes := days_in_month anio mes in
  fecha_inicio ← Timestamp anio mes 1;
  fecha_fin ← Timestamp anio mes dias_en_mes;
  generar_pronostico_rango df_historico caracteristicas
    fecha_inicio fecha_fin.

(** The [--mes] branch of [interfaz_linea_comandos], lines 227-252. *)
Definition cli_mes (df_historico : DataFrame)
    (caracteristicas : list string) (anio mes : Z) : Efecto unit :=
  if ((mes <? 1) || (12 <? mes))%Z then print MsgErrorMes
  else
    resultados ← analisis_mensual df_historico caracteristicas anio mes;
    informe_mensual resultados.

(** Option 3 of [interfaz_interactiva], lines 322-354, once the two
    numbers are read: only ValueError is caught. *)
Definition interactiva_mes (df_historico : DataFrame)
    (caracteristicas : list string) (anio mes : Z) : Efecto unit :=
  try_except
    (cli_mes df_historico caracteristicas anio mes)
    (fun e =>
       match e with
       | ValueError => print MsgErrorValores
       | _ => raise e
       end).

(** One day of the range loop, lines 152-160: the result appended for
    [fecha], if any. *)
Definition resultado_dia (df_historico : DataFrame)
    (caracteristicas : list string) (fecha : Fecha) : option Resultado :=
  match salida (preparar_datos_fecha df_historico fecha) with
  | inr (Some v) =>
      match salida (predecir_probabilidad_lluvia caracteristicas v) with
      | inr pp =>
          Some (mkResultado (strftime fecha) (etiqueta (fst pp)) (snd pp)
                  (interpretar_probabilidad (snd pp)))
      | inl _ => None
      end
  | _ => None
  end.

(** What one day of the range loop prints and calls. *)
Definition traza_dia (df_historico : DataFrame)
    (caracteristicas : list string) (fecha : Fecha) : list evento :=
  traza (preparar_datos_fecha df_historico fecha) ++
  match salida (preparar_datos_fecha df_historico fecha) with
  | inr (Some v) => traza (predecir_probabilidad_lluvia caracteristicas v)
  | _ => []
  end.

(** Synthesis succeeded for [fecha]: a vector was produced. *)
Definition sintesis_ok (df_historico : DataFrame) (fecha : Fecha) : bool :=
  match salida (preparar_datos_fecha df_historico fecha) with
  | inr (Some _) => true
  | _ => false
  end.

(** The body of the [--fecha] branch, lines 196-203. *)
Definition cli_fecha (df_historico : DataFrame)
    (caracteristicas : list string) (parse : excepcion + Fecha)
  : Interfaz unit :=
  i_try
    (fecha <- externo parse;;
     df_fecha <- nucleo (preparar_datos_fecha df_historico fecha);;
     match df_fecha with
     | Some v =>
         pp <- nucleo (predecir_probabilidad_lluvia caracteristicas v);;
         _ <- muestra (MsgPrediccionPara (strftime fecha));;
         _ <- muestra (MsgResultado (etiqueta (fst pp)));;
         _ <- (match snd pp with
               | Some p => muestra (MsgProbabilidad p)
               | None => i_raise TypeError
               end);;
         muestra (MsgInterpretacion (interpretar_probabilidad (snd pp)))
     | None => i_ret tt
     end)
    (solo_ValueError MsgErrorFormatoFecha).

(** The body of the [--rango] branch, lines 207-226 (and of option 2 of
    the menu, lines 303-321, once its two lines are read). *)
Definition cli_rango (df_historico : DataFrame)
    (caracteristicas : list string)
    (parse_inicio parse_fin : excepcion + Fecha) : Interfaz unit :=
  i_try
    (fecha_inicio <- externo parse_inicio;;
     fecha_fin <- externo parse_fin;;
     if (fecha_fin <? fecha_inicio)%Z then muestra MsgErrorRango
     else
       resultados <- nucleo (generar_pronostico_rango df_historico
                               caracteristicas fecha_inicio fecha_fin);;
       _ <- muestra (MsgEncabezadoRango (strftime fecha_inicio)
                       (strftime fecha_fin));;
       nucleo (imprimir_filas resultados))
    (solo_ValueError MsgErrorFormatoFecha).

(** [interfaz_linea_comandos()], once the arguments are parsed.  The
    loaded classifier and scaler are the collaborators above (the two
    first outcomes only say whether their files could be loaded);
    [lectura] is what reading the file of [--datos] gives. *)
Definition interfaz_linea_comandos
    (carga_modelo carga_escalador : excepcion + unit)
    (carga_caracteristicas : excepcion + list string)
    (lectura : excepcion + DataFrame) (args : argumentos) : Interfaz unit :=
  cargado <- cargar_modelo carga_modelo carga_escalador
               carga_caracteristicas;;
  match cargado with
  | None => i_ret tt
  | Some (_, _, caracteristicas) =>
      df <- nucleo (cargar_datos_historicos lectura);;
      match df with
      | None => i_ret tt
      | Some df_historico =>
          match args with
          | ArgFecha texto parse =>
              if String.eqb texto "" then i_ret tt
              else cli_fecha df_historico caracteristicas parse
          | ArgRango parse_inicio parse_fin =>
              cli_rango df_historico caracteristicas parse_inicio parse_fin
          | ArgMes anio mes =>
              nucleo (cli_mes df_historico caracteristicas anio mes)
          end
      end
  end.

(** Option 1 of the menu, lines 284-297, on the line that was read. *)
Definition menu_fecha (df_historico : DataFrame)
    (caracteristicas : list string) (l : linea) : Interfaz unit :=
  i_try
    (fecha <- externo (como_fecha l);;
     df_fecha <- nucleo (preparar_datos_fecha df_historico fecha);;
     match df_fecha with
     | Some v =>
         pp <- nucleo (predecir_probabilidad_lluvia caracteristicas v);;
         _ <- muestra (MsgPrediccionPara (strftime fecha));;
         _ <- muestra (MsgResultado (etiqueta (fst pp)));;
         _ <- (match snd pp with
               | Some p => muestra (MsgProbabilidad p)
               | None => muestra MsgProbabilidadNoDisponible
               end);;
         muestra (MsgInterpretacion (interpretar_probabilidad (snd pp)))
     | None => i_ret tt
     end)
    (solo_ValueError MsgErrorFormatoFecha).

(** [except ValueError: print(<the numeric values error>)], line 353. *)
Definition error_valores (e : excepcion) : Interfaz unit :=
  match e with
  | ValueError => nucleo (print MsgErrorValores)
  | _ => i_raise e
  end.

(** The loop of lines 273-359 on the lines that are left to read. *)
Fixpoint bucle_menu (df_historico : DataFrame)
    (caracteristicas : list string) (script : list linea) {struct script}
  : Interfaz unit :=
  _ <- muestra MsgMenu;;
  match script with
  | [] => fin_de_entrada
  | opcion :: resto =>
      _ <- pide;;
      if String.eqb (texto opcion) "1" then
        match resto with
        | [] => fin_de_entrada
        | l :: resto' =>
            _ <- pide;;
            _ <- menu_fecha df_historico caracteristicas l;;
            bucle_menu df_historico caracteristicas resto'
        end
      else if String.eqb (texto opcion) "2" then
        match resto with
        | [] => fin_de_entrada
        | a :: resto1 =>
            _ <- pide;;
            match resto1 with
            | [] => fin_de_entrada
            | b :: resto' =>
                _ <- pide;;
                _ <- cli_rango df_historico caracteristicas
                       (como_fecha a) (como_fecha b);;
                bucle_menu df_historico caracteristicas resto'
            end
        end
      else if String.eqb (texto opcion) "3" then
        match resto with
        | [] => fin_de_entrada
        | a :: resto1 =>
            _ <- pide;;
            match como_entero a with
            | inl e =>
                _ <- error_valores e;;
                bucle_menu df_historico caracteristicas resto1
            | inr anio =>
                match resto1 with
                | [] => fin_de_entrada
                | b :: resto' =>
                    _ <- pide;;
                    _ <- (match como_entero b with
                          | inl e => error_valores e
                          | inr mes =>
                              nucleo (interactiva_mes df_historico
                                        caracteristicas anio mes)
                          end);;
                    bucle_menu df_historico caracteristicas resto'
                end
            end
        end
      else if String.eqb (texto opcion) "4" then muestra MsgDespedida
      else
        _ <- muestra MsgOpcionNoValida;;
        bucle_menu df_historico caracteristicas resto
  end.

(** [interfaz_interactiva()] on the lines typed by the user.
    [leer_datos] is what reading a path gives. *)
Definition interfaz_interactiva
    (carga_modelo carga_escalador : excepcion + unit)
    (carga_caracteristicas : excepcion + list string)
    (leer_datos : string -> excepcion + DataFrame) (script : list linea)
  : Interfaz unit :=
  _ <- muestra MsgTitulo;;
  _ <- muestra MsgCargando;;
  cargado <- cargar_modelo carga_modelo carga_escalador
               carga_caracteristicas;;
  match cargado with
  | None => i_ret tt
  | Some (_, _, caracteristicas) =>
      match script with
      | [] => fin_de_entrada
      | l :: resto =>
          _ <- pide;;
          let ruta_datos :=
            if String.eqb (texto l) "" then "datos_procesados.csv"
            else texto l in
          df <- nucleo (cargar_datos_historicos (leer_datos ruta_datos));;
          match df with
          | None => i_ret tt
          | Some df_historico =>
              _ <- muestra MsgCargado;;
              bucle_menu df_historico caracteristicas resto
          end
      end
  end.

(* ===================================================================== *)
(** ** Properties *)
(* ===================================================================== *)

(** *** The effect monad *)

Lemma bind_inr {A B} (k : A -> Efecto B) (t : list evento) (a : A) :
  mbind k ((t, inr a) : Efecto A) = (t ++ traza (k a), salida (k a)).
Proof.
  unfold mbind, Efecto_bind, traza, salida. destruct (k a); reflexivity.
Qed.

Lemma bind_inl {A B} (k : A -> Efecto B) (t : list evento) (e : excepcion) :
  mbind k ((t, inl e) : Efecto A) = (t, inl e).
Proof. reflexivity. Qed.

Lemma bind_raise {A B} (k : A -> Efecto B) (e : excepcion) :
  mbind k (raise e) = ([], inl e).
Proof. reflexivity. Qed.

Lemma bind_print {B} (k : unit -> Efecto B) (m : mensaje) :
  mbind k (print m) = (Imprime m :: traza (k tt), salida (k tt)).
Proof. unfold print. rewrite bind_inr. reflexivity. Qed.

Lemma bind_ret {A B} (k : A -> Efecto B) (a : A) :
  mbind k (mret a) = k a.
Proof.
  unfold mret, Efecto_ret. rewrite bind_inr. simpl.
  unfold traza, salida. destruct (k a); reflexivity.
Qed.

Lemma efecto_eta {A} (m : Efecto A) : m = (traza m, salida m).
Proof. destruct m; reflexivity. Qed.

Lemma try_except_inr {A} (t : list evento) (a : A) h :
  try_except ((t, inr a) : Efecto A) h = (t, inr a).
Proof. reflexivity. Qed.

Lemma try_except_inl {A} (t : list evento) (e : excepcion)
    (h : excepcion -> Efecto A) :
  try_except ((t, inl e) : Efecto A) h = (t ++ traza (h e), salida (h e)).
Proof.
  unfold try_except, traza, salida. destruct (h e); reflexivity.
Qed.

(** *** Numbers *)

Lemma Qltb_true (a b : Q) : Qltb a b = true <-> (a < b)%Q.
Proof.
  unfold Qltb. rewrite negb_true_iff. split.
  - intros H. apply Qnot_le_lt. intros Hle.
    apply Qle_bool_iff in Hle. congruence.
  - intros H. destruct (Qle_bool b a) eqn:E; [|reflexivity].
    apply Qle_bool_iff in E. exfalso. exact (Qlt_not_le _ _ H E).
Qed.

Lemma Qltb_false (a b : Q) : Qltb a b = false <-> (b <= a)%Q.
Proof.
  unfold Qltb. rewrite negb_false_iff. apply Qle_bool_iff.
Qed.

(** *** Interpretation *)

(** C3. [interpretar_probabilidad] is a function of the probability
    alone: an absent probability gives "No se pudo determinar"
    (undetermined), and a probability [p] between 0 and 100 gives
    "Muy baja" (very low) when [p < 20], "Baja" (low) when
    [20 <= p < 40], "Moderada" (moderate) when [40 <= p < 60], "Alta"
    (high) when [60 <= p < 80] and "Muy alta" (very high) when
    [80 <= p]; each of the boundary values 20, 40, 60 and 80 falls into
    the upper band. *)
Theorem interpretar_probabilidad_bandas :
  interpretar_probabilidad None = "No se pudo determinar" /\
  (forall p : Q, (0 <= p)%Q -> (p <= 100)%Q ->
     ((p < 20)%Q -> interpretar_probabilidad (Some p) = "Muy baja") /\
     ((20 <= p)%Q -> (p < 40)%Q ->
        interpretar_probabilidad (Some p) = "Baja") /\
     ((40 <= p)%Q -> (p < 60)%Q ->
        interpretar_probabilidad (Some p) = "Moderada") /\
     ((60 <= p)%Q -> (p < 80)%Q ->
        interpretar_probabilidad (Some p) = "Alta") /\
     ((80 <= p)%Q -> interpretar_probabilidad (Some p) = "Muy alta")) /\
  interpretar_probabilidad (Some 20%Q) = "Baja" /\
  interpretar_probabilidad (Some 40%Q) = "Moderada" /\
  interpretar_probabilidad (Some 60%Q) = "Alta" /\
  interpretar_probabilidad (Some 80%Q) = "Muy alta".
Proof.
  split; [reflexivity|]. split; [|repeat split; reflexivity].
  intros p _ _. unfold interpretar_probabilidad.
  assert (H2040 : (20 <= 40)%Q) by (apply Qle_bool_iff; reflexivity).
  assert (H4060 : (40 <= 60)%Q) by (apply Qle_bool_iff; reflexivity).
  assert (H6080 : (60 <= 80)%Q) by (apply Qle_bool_iff; reflexivity).
  repeat split.
  - intros H. apply Qltb_true in H. rewrite H. reflexivity.
  - intros Hlo Hhi. apply Qltb_false in Hlo. apply Qltb_true in Hhi.
    rewrite Hlo, Hhi. reflexivity.
  - intros Hlo Hhi.
    assert (H20 : (20 <= p)%Q) by (eapply Qle_trans; eassumption).
    apply Qltb_false in Hlo, H20. apply Qltb_true in Hhi.
    rewrite H20, Hlo, Hhi. reflexivity.
  - intros Hlo Hhi.
    assert (H40 : (40 <= p)%Q) by (eapply Qle_trans; eassumption).
    assert (H20 : (20 <= p)%Q) by (eapply Qle_trans; eassumption).
    apply Qltb_false in Hlo, H20, H40. apply Qltb_true in Hhi.
    rewrite H20, H40, Hlo, Hhi. reflexivity.
  - intros Hlo.
    assert (H60 : (60 <= p)%Q) by (eapply Qle_trans; eassumption).
    assert (H40 : (40 <= p)%Q) by (eapply Qle_trans; eassumption).
    assert (H20 : (20 <= p)%Q) by (eapply Qle_trans; eassumption).
    apply Qltb_false in Hlo, H20, H40, H60.
    rewrite H20, H40, H60, Hlo. reflexivity.
Qed.

(** *** Season *)

(** C4, as the code has it.  [(month % 12 + 3) // 3] gives 1 for the
    months 12, 1 and 2, 2 for the months 3, 4 and 5, 3 for the months 6,
    7 and 8, and 4 for the months 9, 10 and 11: the months 1 and 2 share
    their value, the month 3 does not. *)
Theorem season_tabla :
  map season [1; 2; 3; 4; 5; 6; 7; 8; 9; 10; 11; 12]%Z
  = [1; 1; 2; 2; 2; 3; 3; 3; 4; 4; 4; 1]%Z.
Proof. reflexivity. Qed.

(** *** Analogue selection *)

Lemma es_similar_ventana (fecha : Fecha) (r : Fila) :
  es_similar fecha r = true <-> en_ventana (month fecha) (day fecha) r.
Proof.
  unfold es_similar, en_ventana. destruct (date r) as [f|].
  - simpl. rewrite andb_true_iff, !orb_true_iff, !Z.eqb_eq. split.
    + intros [Hm Hd]. exists f. split; [reflexivity|]. split; [exact Hm|].
      destruct Hd as [Hd|[Hd|[Hd|Hd]]]; try lia; discriminate.
    + intros (f' & Hf & Hm & Hd). inversion Hf; subst f'. split; [exact Hm|].
      lia.
  - split; [discriminate|]. intros (f' & Hf & _). discriminate.
Qed.

Lemma es_mismo_mes_en_mes (fecha : Fecha) (r : Fila) :
  es_mismo_mes fecha r = true <-> en_mes (month fecha) r.
Proof.
  unfold es_mismo_mes, en_mes. destruct (date r) as [f|].
  - rewrite Z.eqb_eq. split.
    + intros Hm. exists f. split; [reflexivity|exact Hm].
    + intros (f' & Hf & Hm). inversion Hf; subst f'. exact Hm.
  - split; [discriminate|]. intros (f' & Hf & _). discriminate.
Qed.

(** C1. For a target date with month [m] and day of month [d], the
    primary analogue set is exactly the rows of the historical table (in
    table order) whose date has month [m] and day of month between [d-1]
    and [d+1], whatever their year; the candidate set is the set of all
    rows of month [m] if the primary set is empty, and the primary set
    otherwise. *)
Theorem analogos_seleccion (df_historico : DataFrame) (fecha : Fecha) :
  analogos_primarios df_historico fecha
  = filter (en_ventana (month fecha) (day fecha)) (filas df_historico) /\
  datos_similares df_historico fecha
  = (if decide (analogos_primarios df_historico fecha = [])
     then filter (en_mes (month fecha)) (filas df_historico)
     else analogos_primarios df_historico fecha).
Proof.
  split.
  - unfold analogos_primarios. apply list_filter_iff.
    intros r. apply es_similar_ventana.
  - unfold datos_similares.
    destruct (analogos_primarios df_historico fecha) as [|r rs] eqn:E.
    + simpl. unfold analogos_mes. apply list_filter_iff.
      intros r. apply es_mismo_mes_en_mes.
    + simpl. reflexivity.
Qed.

(** *** Feature synthesis *)

Lemma completar_derivados (fecha : Fecha) (w v : Vector) :
  salida (completar fecha w) = inr v ->
  v !! "pres_diff" = Some (Some 0%Q) /\
  (exists tavg, v !! "tavg" = Some tavg /\ v !! "tavg_3d_mean" = Some tavg) /\
  (exists prcp, v !! "prcp" = Some prcp /\ v !! "prcp_3d_sum" = Some prcp).
Proof.
  unfold completar, leer_columna. cbv zeta.
  match goal with |- context [?m !! "tavg"] =>
    destruct (m !! "tavg") as [tavg|] eqn:Etavg end;
    [|rewrite bind_raise; discriminate].
  rewrite bind_ret.
  match goal with |- context [?m !! "prcp"] =>
    destruct (m !! "prcp") as [prcp|] eqn:Eprcp end;
    [|rewrite bind_raise; discriminate].
  rewrite bind_ret.
  match goal with |- context [?m !! "wdir"] =>
    destruct (m !! "wdir") as [wdir|] eqn:Ewdir end;
    simpl; intros H; inversion H; subst v; clear H.
  all: split; [by simplify_map_eq|].
  all: split; [exists tavg | exists prcp]; split; by simplify_map_eq.
Qed.

(** C2. Every vector that feature synthesis produces has [pres_diff]
    equal to 0, [tavg_3d_mean] equal to its [tavg] and [prcp_3d_sum]
    equal to its [prcp]. *)
Theorem preparar_datos_fecha_derivados
    (df_historico : DataFrame) (fecha : Fecha) (v : Vector) :
  salida (preparar_datos_fecha df_historico fecha) = inr (Some v) ->
  v !! "pres_diff" = Some (Some 0%Q) /\
  (exists tavg, v !! "tavg" = Some tavg /\ v !! "tavg_3d_mean" = Some tavg) /\
  (exists prcp, v !! "prcp" = Some prcp /\ v !! "prcp_3d_sum" = Some prcp).
Proof.
  unfold preparar_datos_fecha.
  destruct (length (datos_similares df_historico fecha) =? 0)%nat.
  - rewrite bind_print. simpl. discriminate.
  - set (w := promedios _).
    rewrite (efecto_eta (completar fecha w)).
    destruct (salida (completar fecha w)) as [e|v'] eqn:E.
    + rewrite bind_inl. discriminate.
    + rewrite bind_inr. simpl. intros H. inversion H; subst v'.
      exact (completar_derivados fecha w v E).
Qed.

(** *** Prediction *)

Lemma missing_features_elem (caracteristicas : list string) (v : Vector)
    (feat : string) :
  feat ∈ missing_features caracteristicas v
  <-> feat ∈ caracteristicas /\ v !! feat = None.
Proof. unfold missing_features. rewrite list_elem_of_filter. tauto. Qed.

Lemma missing_features_nil (caracteristicas : list string) (v : Vector) :
  (forall feat, feat ∈ caracteristicas -> is_Some (v !! feat)) ->
  missing_features caracteristicas v = [].
Proof.
  intros H. destruct (missing_features caracteristicas v) as [|f l] eqn:E;
    [reflexivity|].
  assert (Hf : f ∈ missing_features caracteristicas v)
    by (rewrite E; left).
  apply missing_features_elem in Hf as [Hin Hnone].
  destruct (H f Hin) as [x Hx]. congruence.
Qed.

Lemma seleccionar_presentes (caracteristicas : list string) (v : Vector) :
  (forall feat, feat ∈ caracteristicas -> is_Some (v !! feat)) ->
  seleccionar caracteristicas v
  = mret (map (fun c => mjoin (v !! c)) caracteristicas).
Proof.
  induction caracteristicas as [|c cs IH]; intros H; [reflexivity|].
  simpl. unfold leer_columna.
  destruct (H c) as [x Hx]; [left|]. rewrite Hx, bind_ret.
  rewrite IH by (intros f Hf; apply H; right; exact Hf).
  rewrite bind_ret. reflexivity.
Qed.

Lemma columna_1_traza (proba : list (list Q)) : traza (columna_1 proba) = [].
Proof.
  induction proba as [|fila resto IH]; [reflexivity|].
  simpl. unfold indice. destruct (fila !! 1%nat) as [x|].
  - rewrite bind_ret. rewrite (efecto_eta (columna_1 resto)), IH.
    destruct (salida (columna_1 resto)); reflexivity.
  - reflexivity.
Qed.

Lemma columna_1_cabeza (proba : list (list Q)) (col : list Q) (p : Q) :
  salida (columna_1 proba) = inr col -> col !! 0%nat = Some p ->
  exists fila, proba !! 0%nat = Some fila /\ fila !! 1%nat = Some p.
Proof.
  destruct proba as [|fila resto]; simpl.
  - intros H. inversion H; subst. discriminate.
  - unfold indice. destruct (fila !! 1%nat) as [x|] eqn:Ex.
    + rewrite bind_ret. rewrite (efecto_eta (columna_1 resto)).
      destruct (salida (columna_1 resto)) as [e|xs].
      * rewrite bind_inl. discriminate.
      * rewrite bind_inr. simpl. intros H. inversion H; subst. simpl.
        intros Hp. inversion Hp; subst. exists fila. split; [reflexivity|exact Ex].
    + rewrite bind_raise. discriminate.
Qed.

(** C6. If a required feature name is not a column of the vector, the
    prediction invoker prints the list of the missing names and returns
    (None, None); this print is all it does: the scaler and the
    classifier are not called. *)
Theorem predecir_faltan_caracteristicas
    (caracteristicas : list string) (df_datos : Vector) (feat : string) :
  feat ∈ caracteristicas -> df_datos !! feat = None ->
  predecir_probabilidad_lluvia caracteristicas df_datos
  = ([Imprime (MsgFaltan (missing_features caracteristicas df_datos))],
     inr (None, None)) /\
  feat ∈ missing_features caracteristicas df_datos /\
  (forall ev, ev ∈ traza (predecir_probabilidad_lluvia caracteristicas df_datos) ->
     ev <> LlamaPredictProba /\ ev <> LlamaPredict /\
     forall X, ev <> LlamaTransform X).
Proof.
  intros Hin Hnone.
  assert (Hm : feat ∈ missing_features caracteristicas df_datos)
    by (apply missing_features_elem; split; assumption).
  assert (Heq : predecir_probabilidad_lluvia caracteristicas df_datos
    = ([Imprime (MsgFaltan (missing_features caracteristicas df_datos))],
       inr (None, None))).
  { unfold predecir_probabilidad_lluvia.
    destruct (missing_features caracteristicas df_datos) as [|f l] eqn:E.
    - inversion Hm.
    - rewrite bind_print. reflexivity. }
  split; [exact Heq|]. split; [exact Hm|].
  intros ev. rewrite Heq. simpl. intros Hev.
  apply list_elem_of_singleton in Hev. subst ev.
  repeat split; discriminate.
Qed.

Lemma columna_1_completa (proba : list (list Q)) :
  Forall (fun fila => is_Some (fila !! 1%nat)) proba ->
  columna_1 proba = mret (omap (fun fila => fila !! 1%nat) proba).
Proof.
  induction proba as [|fila resto IH]; intros H; [reflexivity|].
  apply Forall_cons in H as [[x Hx] Hresto].
  simpl. unfold indice. rewrite Hx, bind_ret, (IH Hresto), bind_ret.
  reflexivity.
Qed.

Lemma columna_1_incompleta (proba : list (list Q)) :
  ~ Forall (fun fila => is_Some (fila !! 1%nat)) proba ->
  columna_1 proba = raise IndexError.
Proof.
  induction proba as [|fila resto IH]; intros H.
  - exfalso. apply H. constructor.
  - simpl. unfold indice. destruct (fila !! 1%nat) as [x|] eqn:Ex.
    + rewrite bind_ret, IH, bind_raise; [reflexivity|].
      intros Hresto. apply H. constructor; [eexists; exact Ex|exact Hresto].
    + rewrite bind_raise. reflexivity.
Qed.

(** C7. If every required feature name is a column of the vector, the
    prediction invoker returns, and no exception escapes it.  Let [X] be
    the values of the features in the order of the required list.
    - When the scaler answers [X_scaled] on [X], [predict_proba] answers
      on [X_scaled] rows that all have a column 1, the first of them
      with [p] there, and [predict] answers a sequence whose first
      element is [label], the invoker calls the three, in this order,
      prints nothing and returns [label] with [p * 100], the product of
      the two floats.
    - In every case what it returns is either that pair, for such
      answers, or (None, None); it returns (None, None) after printing
      the exception that the scaler or the classifier raised, or the
      IndexError of an answer that cannot be indexed. *)
Theorem predecir_resultado
    (caracteristicas : list string) (df_datos : Vector) :
  (forall feat, feat ∈ caracteristicas -> is_Some (df_datos !! feat)) ->
  let X := map (fun c => mjoin (df_datos !! c)) caracteristicas in
  (forall X_scaled proba pred fila p label,
     escalador_transform X = inr X_scaled ->
     modelo_predict_proba X_scaled = inr proba ->
     Forall (fun fila => is_Some (fila !! 1%nat)) proba ->
     proba !! 0%nat = Some fila -> fila !! 1%nat = Some p ->
     modelo_predict X_scaled = inr pred ->
     pred !! 0%nat = Some label ->
     predecir_probabilidad_lluvia caracteristicas df_datos
     = ([LlamaTransform X; LlamaPredictProba; LlamaPredict],
        inr (Some label, Some (float_mul p 100)))) /\
  exists r,
    salida (predecir_probabilidad_lluvia caracteristicas df_datos) = inr r /\
    ((exists X_scaled proba pred fila p label,
        escalador_transform X = inr X_scaled /\
        modelo_predict_proba X_scaled = inr proba /\
        modelo_predict X_scaled = inr pred /\
        Forall (fun fila => is_Some (fila !! 1%nat)) proba /\
        proba !! 0%nat = Some fila /\ fila !! 1%nat = Some p /\
        pred !! 0%nat = Some label /\
        r = (Some label, Some (float_mul p 100)))
     \/
     (r = (None, None) /\
      exists e,
        fallo_prediccion X e /\
        last (traza (predecir_probabilidad_lluvia caracteristicas df_datos))
        = Some (Imprime (MsgErrorPrediccion e)))).
Proof.
  intros Hall X. unfold predecir_probabilidad_lluvia.
  rewrite (missing_features_nil _ _ Hall).
  rewrite (seleccionar_presentes _ _ Hall), bind_ret.
  fold X. split.
  - intros X_scaled proba pred fila p label Et Ep Hcols Hfila Hp Epr Hlabel.
    unfold llamar, mbind, Efecto_bind, try_except. rewrite Et. simpl.
    rewrite Ep. simpl. rewrite (columna_1_completa _ Hcols).
    destruct proba as [|fila' resto]; [discriminate|].
    injection Hfila as ->.
    destruct pred as [|label' pred']; [discriminate|].
    injection Hlabel as ->.
    unfold mret, Efecto_ret, indice. simpl. rewrite Hp. simpl.
    rewrite Epr. reflexivity.
  - unfold fallo_prediccion.
    unfold llamar, mbind, Efecto_bind, try_except.
    destruct (escalador_transform X) as [e|X_scaled] eqn:Et; simpl.
    { exists (None, None). split; [reflexivity|]. right.
      split; [reflexivity|]. exists e. split; [|reflexivity].
      left. reflexivity. }
    destruct (modelo_predict_proba X_scaled) as [e|proba] eqn:Ep; simpl.
    { exists (None, None). split; [reflexivity|]. right.
      split; [reflexivity|]. exists e. split; [|reflexivity].
      right. exists X_scaled. split; [reflexivity|]. left. exact Ep. }
    destruct (decide (Forall (fun fila => is_Some (fila !! 1%nat)) proba))
      as [Hcols|Hcols].
    2:{ rewrite (columna_1_incompleta _ Hcols).
        exists (None, None). split; [reflexivity|]. right.
        split; [reflexivity|]. exists IndexError. split; [|reflexivity].
        right. exists X_scaled. split; [reflexivity|]. right.
        exists proba. split; [exact Ep|]. left. split; [reflexivity|].
        intros [H _]. exact (Hcols H). }
    rewrite (columna_1_completa _ Hcols).
    unfold mret, Efecto_ret, indice.
    destruct proba as [|fila resto]; simpl.
    { exists (None, None). split; [reflexivity|]. right.
      split; [reflexivity|]. exists IndexError. split; [|reflexivity].
      right. exists X_scaled. split; [reflexivity|]. right.
      exists []. split; [exact Ep|]. left. split; [reflexivity|].
      intros [_ H]. exact (H eq_refl). }
    pose proof Hcols as Hcols'.
    apply Forall_cons in Hcols' as [[p Hp] _].
    rewrite Hp. simpl.
    destruct (modelo_predict X_scaled) as [e|pred] eqn:Epr; simpl.
    { exists (None, None). split; [reflexivity|]. right.
      split; [reflexivity|]. exists e. split; [|reflexivity].
      right. exists X_scaled. split; [reflexivity|]. right.
      exists (fila :: resto). split; [exact Ep|]. right.
      split; [exact Hcols|]. split; [discriminate|]. left. exact Epr. }
    destruct pred as [|label pred']; simpl.
    { exists (None, None). split; [reflexivity|]. right.
      split; [reflexivity|]. exists IndexError. split; [|reflexivity].
      right. exists X_scaled. split; [reflexivity|]. right.
      exists (fila :: resto). split; [exact Ep|]. right.
      split; [exact Hcols|]. split; [discriminate|]. right.
      split; [exact Epr|reflexivity]. }
    exists (Some label, Some (float_mul p 100)).
    split; [reflexivity|]. left.
    exists X_scaled, (fila :: resto), (label :: pred'), fila, p, label.
    repeat split; try assumption; reflexivity.
Qed.

(** The prediction invoker never lets an exception out. *)
Lemma predecir_no_lanza (caracteristicas : list string) (df_datos : Vector) :
  exists r,
    salida (predecir_probabilidad_lluvia caracteristicas df_datos) = inr r.
Proof.
  unfold predecir_probabilidad_lluvia.
  match goal with |- context [try_except ?m ?h] =>
    rewrite (efecto_eta m); destruct (salida m) as [e|r] end.
  - rewrite try_except_inl, bind_print. simpl. eexists. reflexivity.
  - rewrite try_except_inr. simpl. eexists. reflexivity.
Qed.

(** *** Range aggregation *)

Lemma date_range_length (a b : Fecha) :
  length (date_range a b) = Z.to_nat (b - a + 1).
Proof. unfold date_range. rewrite length_map, length_seq. reflexivity. Qed.

Lemma date_range_lookup (a b : Fecha) (k : nat) :
  (k < length (date_range a b))%nat ->
  date_range a b !! k = Some (a + Z.of_nat k)%Z.
Proof.
  rewrite date_range_length. intros Hk. unfold date_range.
  rewrite list_lookup_fmap, lookup_seq_lt by exact Hk. reflexivity.
Qed.

Lemma date_range_elem (a b f : Fecha) :
  f ∈ date_range a b <-> (a ≤ f ≤ b)%Z.
Proof.
  unfold date_range. rewrite list_elem_of_fmap. split.
  - intros (k & -> & Hk). apply elem_of_seq in Hk. lia.
  - intros H. exists (Z.to_nat (f - a)). split; [lia|].
    apply elem_of_seq. lia.
Qed.

Lemma promedios_lookup (df : DataFrame) (c : string) :
  c ∈ columns df -> c <> "date" -> is_Some (promedios df !! c).
Proof.
  intros Hc Hne. unfold promedios.
  destruct (list_to_map _ !! c) as [x|] eqn:E; [eexists; reflexivity|].
  apply not_elem_of_list_to_map in E. exfalso. apply E.
  rewrite <- list_fmap_compose. apply list_elem_of_fmap.
  exists c. split; [reflexivity|].
  apply list_elem_of_filter. split; assumption.
Qed.

Lemma rellenar_nulos_columns (df : DataFrame) :
  columns (rellenar_nulos df) = columns df.
Proof.
  unfold rellenar_nulos. destruct (0 <? nulos_totales df)%nat; reflexivity.
Qed.

Lemma completar_no_lanza (fecha : Fecha) (w : Vector) :
  is_Some (w !! "tavg") -> is_Some (w !! "prcp") ->
  exists v, completar fecha w = ([], inr v).
Proof.
  intros [tavg Ht] [prcp Hp]. unfold completar, leer_columna. cbv zeta.
  rewrite !lookup_insert_ne by discriminate. rewrite Ht, bind_ret.
  rewrite !lookup_insert_ne by discriminate. rewrite Hp, bind_ret.
  match goal with |- context [match ?x with _ => _ end] => destruct x end;
    eexists; reflexivity.
Qed.

(** Under the schema, synthesis returns a vector or the "no data"
    signal; it does not raise. *)
Lemma preparar_no_lanza (df_historico : DataFrame) (fecha : Fecha) :
  esquema_minimo df_historico ->
  (preparar_datos_fecha df_historico fecha
   = ([Imprime (MsgNoHayDatos (strftime fecha))], inr None) /\
   datos_similares df_historico fecha = []) \/
  (exists v, preparar_datos_fecha df_historico fecha = ([], inr (Some v)) /\
             datos_similares df_historico fecha <> []).
Proof.
  intros [Ht Hp]. unfold preparar_datos_fecha.
  destruct (datos_similares df_historico fecha) as [|r rs] eqn:E.
  - left. simpl. split; reflexivity.
  - right. simpl.
    set (sim := rellenar_nulos _).
    assert (Hcols : columns sim = columns df_historico)
      by (unfold sim; rewrite rellenar_nulos_columns; reflexivity).
    destruct (completar_no_lanza fecha (promedios sim)) as [v Hv].
    + apply promedios_lookup; [rewrite Hcols; exact Ht|discriminate].
    + apply promedios_lookup; [rewrite Hcols; exact Hp|discriminate].
    + exists v. rewrite Hv, bind_inr. split; [reflexivity|discriminate].
Qed.

Lemma bucle_rango_dias (df_historico : DataFrame)
    (caracteristicas : list string) :
  esquema_minimo df_historico ->
  forall (fechas : list Fecha) (resultados : list Resultado),
    bucle_rango df_historico caracteristicas fechas resultados
    = (flat_map (traza_dia df_historico caracteristicas) fechas,
       inr (resultados
            ++ omap (resultado_dia df_historico caracteristicas) fechas)).
Proof.
  intros Hesq. induction fechas as [|fecha resto IH]; intros resultados.
  - simpl. rewrite app_nil_r. reflexivity.
  - simpl. unfold traza_dia, resultado_dia.
    destruct (preparar_no_lanza df_historico fecha Hesq)
      as [[Hprep _]|(v & Hprep & _)]; rewrite Hprep.
    + rewrite bind_inr, IH. simpl. reflexivity.
    + rewrite bind_inr. simpl.
      destruct (predecir_no_lanza caracteristicas v) as [pp Hpp].
      rewrite (efecto_eta (predecir_probabilidad_lluvia caracteristicas v)).
      rewrite Hpp. rewrite bind_inr, IH. simpl.
      rewrite <- app_assoc. reflexivity.
Qed.

Lemma resultado_dia_sintesis (df_historico : DataFrame)
    (caracteristicas : list string) (fecha : Fecha) :
  (sintesis_ok df_historico fecha = true /\
   exists r, resultado_dia df_historico caracteristicas fecha = Some r /\
             r_fecha r = strftime fecha) \/
  (sintesis_ok df_historico fecha = false /\
   resultado_dia df_historico caracteristicas fecha = None).
Proof.
  unfold resultado_dia, sintesis_ok.
  destruct (salida (preparar_datos_fecha df_historico fecha)) as [e|[v|]].
  - right. split; reflexivity.
  - left. split; [reflexivity|].
    destruct (predecir_no_lanza caracteristicas v) as [pp Hpp]. rewrite Hpp.
    eexists. split; reflexivity.
  - right. split; reflexivity.
Qed.

Lemma resultado_dia_fechas (df_historico : DataFrame)
    (caracteristicas : list string) (fechas : list Fecha) :
  map r_fecha (omap (resultado_dia df_historico caracteristicas) fechas)
  = map strftime
      (filter (fun f => sintesis_ok df_historico f = true) fechas).
Proof.
  induction fechas as [|fecha resto IH]; [reflexivity|].
  simpl. rewrite filter_cons.
  destruct (resultado_dia_sintesis df_historico caracteristicas fecha)
    as [[Hok (r & Hr & Hf)]|[Hno Hr]]; rewrite Hr.
  - rewrite decide_True by exact Hok. simpl. f_equal; [exact Hf|exact IH].
  - rewrite decide_False by (rewrite Hno; discriminate). exact IH.
Qed.

Lemma omap_length_le {A B} (f : A -> option B) (l : list A) :
  (length (omap f l) <= length l)%nat.
Proof.
  induction l as [|x l IH]; [simpl; lia|].
  change (omap f (x :: l))
    with (match f x with Some y => y :: omap f l | None => omap f l end).
  destruct (f x); simpl; lia.
Qed.

(** C8. For start <= end, range aggregation goes through the days
    start, start+1, ..., end in this order (the trace is the
    concatenation of what each day prints and calls), and returns one
    result for every day whose synthesis produced a vector, in calendar
    order; the days for which synthesis signals "no data" have no result,
    so the output can be shorter than the interval. *)
Theorem generar_pronostico_rango_dias (df_historico : DataFrame)
    (caracteristicas : list string) (fecha_inicio fecha_fin : Fecha) :
  esquema_minimo df_historico ->
  (fecha_inicio <= fecha_fin)%Z ->
  length (date_range fecha_inicio fecha_fin)
  = Z.to_nat (fecha_fin - fecha_inicio + 1) /\
  (forall k : nat, (k < length (date_range fecha_inicio fecha_fin))%nat ->
     date_range fecha_inicio fecha_fin !! k
     = Some (fecha_inicio + Z.of_nat k)%Z) /\
  generar_pronostico_rango df_historico caracteristicas
    fecha_inicio fecha_fin
  = (flat_map (traza_dia df_historico caracteristicas)
       (date_range fecha_inicio fecha_fin),
     inr (omap (resultado_dia df_historico caracteristicas)
            (date_range fecha_inicio fecha_fin))) /\
  map r_fecha
    (omap (resultado_dia df_historico caracteristicas)
       (date_range fecha_inicio fecha_fin))
  = map strftime
      (filter (fun f => sintesis_ok df_historico f = true)
         (date_range fecha_inicio fecha_fin)) /\
  (length (omap (resultado_dia df_historico caracteristicas)
             (date_range fecha_inicio fecha_fin))
   <= length (date_range fecha_inicio fecha_fin))%nat.
Proof.
  intros Hesq Hle. split; [apply date_range_length|].
  split; [intros k; apply date_range_lookup|].
  split; [unfold generar_pronostico_rango;
          rewrite (bucle_rango_dias _ _ Hesq); reflexivity|].
  split; [apply resultado_dia_fechas|apply omap_length_le].
Qed.

(** C10. A day of the range for which synthesis produces a vector and
    the prediction invoker returns (None, None) is in the output, with
    the label "No lluvia", no probability and the interpretation of an
    absent probability. *)
Theorem generar_pronostico_rango_prediccion_fallida
    (df_historico : DataFrame) (caracteristicas : list string)
    (fecha_inicio fecha_fin fecha : Fecha) (v : Vector) :
  esquema_minimo df_historico ->
  (fecha_inicio <= fecha <= fecha_fin)%Z ->
  salida (preparar_datos_fecha df_historico fecha) = inr (Some v) ->
  salida (predecir_probabilidad_lluvia caracteristicas v)
  = inr (None, None) ->
  exists resultados,
    salida (generar_pronostico_rango df_historico caracteristicas
              fecha_inicio fecha_fin) = inr resultados /\
    mkResultado (strftime fecha) "No lluvia" None "No se pudo determinar"
    ∈ resultados.
Proof.
  intros Hesq Hrango Hprep Hpred.
  unfold generar_pronostico_rango. rewrite (bucle_rango_dias _ _ Hesq).
  eexists. split; [reflexivity|]. simpl.
  apply list_elem_of_omap. exists fecha. split.
  - apply date_range_elem. exact Hrango.
  - unfold resultado_dia. rewrite Hprep, Hpred. reflexivity.
Qed.

(** *** Historical record cleaner *)

Lemma salida_bind {A B} (k : A -> Efecto B) (m : Efecto A) :
  salida (mbind k m)
  = match salida m with
    | inl e => inl e
    | inr a => salida (k a)
    end.
Proof.
  destruct m as [t [e|a]]; [reflexivity|]. rewrite bind_inr. reflexivity.
Qed.

Lemma relleno_length (a b : Q) (hueco : nat) :
  length (relleno a b hueco) = hueco.
Proof. unfold relleno. rewrite length_map, length_seq. reflexivity. Qed.

Lemma interpolate_desde_length (l : list (option Q)) :
  forall (a : Q) (hueco : nat),
    length (interpolate_desde a hueco l) = (hueco + length l)%nat.
Proof.
  induction l as [|[b|] l IH]; intros a hueco; simpl.
  - rewrite repeat_length. lia.
  - rewrite length_app, relleno_length. simpl. rewrite IH. lia.
  - rewrite IH. lia.
Qed.

Lemma interpolate_length (l : list (option Q)) :
  length (interpolate l) = length l.
Proof.
  induction l as [|[a|] l IH]; simpl; [reflexivity| |].
  - rewrite interpolate_desde_length. reflexivity.
  - rewrite IH. reflexivity.
Qed.

Lemma bfill_length (l : list (option Q)) : length (bfill l) = length l.
Proof.
  induction l as [|[a|] l IH]; simpl; [reflexivity| |]; rewrite IH;
    reflexivity.
Qed.

Lemma ffill_desde_length (l : list (option Q)) :
  forall prev, length (ffill_desde prev l) = length l.
Proof.
  induction l as [|[a|] l IH]; intros prev; simpl; [reflexivity| |];
    rewrite IH; reflexivity.
Qed.

Lemma asignar_columna_filas (c : string) (rows : list Fila) :
  forall valores : list (option Q),
    length valores = length rows ->
    length (asignar_columna c valores rows) = length rows /\
    map date (asignar_columna c valores rows) = map date rows.
Proof.
  unfold asignar_columna.
  induction rows as [|r rows IH]; intros [|v valores] Hlen;
    simpl in *; try discriminate; [split; reflexivity|].
  destruct (IH valores) as [H1 H2]; [lia|].
  split; [rewrite H1; reflexivity|rewrite H2; reflexivity].
Qed.

Lemma reparar_columna_filas (df : DataFrame) (c : string) :
  columns (reparar_columna df c) = columns df /\
  length (filas (reparar_columna df c)) = length (filas df) /\
  map date (filas (reparar_columna df c)) = map date (filas df).
Proof.
  unfold reparar_columna.
  destruct (tiene_columna c df && (0 <? nulos_columna c (filas df))%nat);
    [|repeat split; reflexivity].
  simpl. split; [reflexivity|]. apply asignar_columna_filas.
  unfold ffill. rewrite ffill_desde_length, bfill_length, interpolate_length.
  unfold columna. apply length_map.
Qed.

(** The repair of lines 33-35 keeps the columns, the number of rows and
    the date of every row. *)
Lemma reparar_filas (df : DataFrame) :
  columns (reparar df) = columns df /\
  length (filas (reparar df)) = length (filas df) /\
  map date (filas (reparar df)) = map date (filas df).
Proof.
  unfold reparar. generalize columnas_reparables. intros cs. revert df.
  induction cs as [|c cs IH]; intros df; simpl; [repeat split; reflexivity|].
  destruct (IH (reparar_columna df c)) as (H1 & H2 & H3).
  destruct (reparar_columna_filas df c) as (G1 & G2 & G3).
  repeat split; congruence.
Qed.

Lemma suma_cero (l : list nat) :
  foldr Nat.add 0%nat l = 0%nat -> forall n, n ∈ l -> n = 0%nat.
Proof.
  induction l as [|x l IH]; simpl; intros H n Hn; [inversion Hn|].
  apply elem_of_cons in Hn as [->|Hn]; [lia|]. apply IH; [lia|exact Hn].
Qed.

Lemma nulos_columna_cero (c : string) (rows : list Fila) (r : Fila) :
  c <> "date" -> nulos_columna c rows = 0%nat -> r ∈ rows ->
  celda c r <> None.
Proof.
  intros Hne. unfold nulos_columna.
  destruct (String.eqb_spec c "date") as [Heq|_]; [contradiction|].
  intros Hlen Hr Hnull. apply length_zero_iff_nil in Hlen.
  assert (Hin : celda c r ∈ filter (fun x => es_nulo x = true)
                               (columna c rows)).
  { apply list_elem_of_filter. split; [rewrite Hnull; reflexivity|].
    unfold columna. apply list_elem_of_fmap. exists r. split; [reflexivity|exact Hr]. }
  rewrite Hlen in Hin. inversion Hin.
Qed.

Lemma criticas_no_date (c : string) :
  c ∈ columnas_criticas -> c <> "date".
Proof.
  unfold columnas_criticas. intros Hc ->.
  repeat (apply elem_of_cons in Hc as [Hc|Hc]; [discriminate|]).
  inversion Hc.
Qed.

Lemma fila_completa_celda (cs : list string) (r : Fila) (c : string) :
  fila_completa cs r = true -> c ∈ cs -> celda c r <> None.
Proof.
  unfold fila_completa. rewrite forallb_forall. intros H Hc Hnull.
  specialize (H c). rewrite Hnull in H. simpl in H.
  assert (false = true) by (apply H; apply list_elem_of_In; exact Hc).
  discriminate.
Qed.

Lemma exigir_columnas_ok (cs : list string) (df : DataFrame) :
  (exists e, exigir_columnas cs df = ([], inl e)) \/
  (exigir_columnas cs df = ([], inr tt) /\ forall c, c ∈ cs -> c ∈ columns df).
Proof.
  unfold exigir_columnas.
  destruct (filter (fun c => tiene_columna c df = false) cs) as [|c l] eqn:E.
  - right. split; [reflexivity|]. intros c Hc.
    destruct (tiene_columna c df) eqn:Ht.
    + unfold tiene_columna in Ht. apply bool_decide_eq_true in Ht. exact Ht.
    + assert (Hin : c ∈ filter (fun c => tiene_columna c df = false) cs)
        by (apply list_elem_of_filter; split; assumption).
      rewrite E in Hin. inversion Hin.
  - left. eexists. reflexivity.
Qed.

Lemma reparar_sin_nulos (df : DataFrame) :
  nulos_totales df = 0%nat -> reparar df = df.
Proof.
  intros H0. unfold reparar. generalize columnas_reparables.
  induction l as [|c cs IH]; simpl; [reflexivity|].
  assert (Hc : reparar_columna df c = df); [|rewrite Hc; exact IH].
  unfold reparar_columna, tiene_columna.
  destruct (bool_decide (c ∈ columns df)) eqn:Hin; [|reflexivity].
  apply bool_decide_eq_true in Hin.
  assert (Hn : nulos_columna c (filas df) = 0%nat).
  { apply (suma_cero _ H0). apply list_elem_of_fmap. exists c.
    split; [reflexivity|exact Hin]. }
  rewrite Hn. reflexivity.
Qed.

Lemma dropna_columns (cs : list string) (df : DataFrame) :
  columns (dropna cs df) = columns df.
Proof. reflexivity. Qed.

Lemma dropna_filas (cs : list string) (df : DataFrame) :
  filas (dropna cs df)
  = filter (fun r => fila_completa cs r = true) (filas df).
Proof. reflexivity. Qed.

Lemma salida_bind_print {B} (k : unit -> Efecto B) (m : mensaje) :
  salida (mbind k (print m)) = salida (k tt).
Proof. rewrite bind_print. reflexivity. Qed.

Lemma salida_bind_ret {A B} (k : A -> Efecto B) (a : A) :
  salida (mbind k (mret a)) = salida (k a).
Proof. rewrite bind_ret. reflexivity. Qed.

Lemma salida_ret {A} (a : A) : salida (mret a : Efecto A) = inr a.
Proof. reflexivity. Qed.

Lemma salida_try_except {A} (m : Efecto A) (h : excepcion -> Efecto A) :
  salida (try_except m h)
  = match salida m with
    | inl e => salida (h e)
    | inr a => inr a
    end.
Proof.
  destruct m as [t [e|a]]; [|reflexivity]. rewrite try_except_inl.
  reflexivity.
Qed.

Lemma eliminar_nulos_restantes_invariante (df out : DataFrame) :
  salida (eliminar_nulos_restantes df) = inr out ->
  columns out = columns df /\
  (forall c r, c ∈ columnas_criticas -> r ∈ filas out -> celda c r <> None) /\
  (forall c, c ∈ columnas_criticas -> c ∈ columns out) /\
  (filas out = filas df \/
   filas out
   = filter (fun r => fila_completa columnas_criticas r = true) (filas df)).
Proof.
  unfold eliminar_nulos_restantes. cbv zeta.
  destruct (exigir_columnas_ok columnas_criticas df)
    as [[e He]|[He Hcrit]]; rewrite He;
    [rewrite bind_inl; discriminate|].
  change (([], inr tt) : Efecto unit) with (mret tt : Efecto unit).
  rewrite salida_bind_ret.
  destruct (0 <? nulos_en columnas_criticas (filas df))%nat eqn:Hrest.
  - rewrite salida_bind, !salida_bind_print, salida_ret.
    rewrite salida_bind_print, salida_ret.
    intros H. inversion H; subst out.
    split; [apply dropna_columns|]. split; [|split].
    + intros c r Hc Hr. rewrite dropna_filas in Hr.
      apply list_elem_of_filter in Hr as [Hr _].
      exact (fila_completa_celda _ _ _ Hr Hc).
    + intros c Hc. rewrite dropna_columns. exact (Hcrit c Hc).
    + right. apply dropna_filas.
  - rewrite salida_bind_ret, salida_bind_print, salida_ret.
    intros H. inversion H; subst out.
    split; [reflexivity|]. split; [|split].
    + intros c r Hc Hr.
      apply Nat.ltb_ge in Hrest.
      assert (H0 : nulos_en columnas_criticas (filas df) = 0%nat) by lia.
      apply (nulos_columna_cero c (filas df) r);
        [apply criticas_no_date; exact Hc| |exact Hr].
      apply (suma_cero _ H0). apply list_elem_of_fmap. exists c.
      split; [reflexivity|exact Hc].
    + intros c Hc. exact (Hcrit c Hc).
    + left. reflexivity.
Qed.

Lemma limpiar_invariante (df out : DataFrame) :
  salida (limpiar df) = inr out ->
  columns out = columns df /\
  (forall c r, c ∈ columnas_criticas -> c ∈ columns out -> r ∈ filas out ->
     celda c r <> None) /\
  ((0 < nulos_totales df)%nat ->
   forall c, c ∈ columnas_criticas -> c ∈ columns out) /\
  (filas out = filas (reparar df) \/
   filas out
   = filter (fun r => fila_completa columnas_criticas r = true)
       (filas (reparar df))).
Proof.
  unfold limpiar. cbv zeta.
  destruct (0 <? nulos_totales df)%nat eqn:Hn.
  - rewrite !salida_bind_print. intros H.
    destruct (eliminar_nulos_restantes_invariante _ _ H)
      as (H1 & H2 & H3 & H4).
    destruct (reparar_filas df) as (Hcols & _ & _).
    split; [rewrite H1; exact Hcols|]. split; [|split].
    + intros c r Hc _ Hr. exact (H2 c r Hc Hr).
    + intros _. exact H3.
    + exact H4.
  - rewrite salida_ret. intros H. inversion H; subst out.
    apply Nat.ltb_ge in Hn.
    assert (H0 : nulos_totales df = 0%nat) by lia.
    split; [reflexivity|]. split; [|split].
    + intros c r Hc Hcol Hr.
      apply (nulos_columna_cero c (filas df) r);
        [apply criticas_no_date; exact Hc| |exact Hr].
      apply (suma_cero _ H0). apply list_elem_of_fmap. exists c.
      split; [reflexivity|exact Hcol].
    + intros Hpos. lia.
    + left. rewrite (reparar_sin_nulos df H0). reflexivity.
Qed.

(** C9. When the cleaner returns a table, every row of it has a
    non-null [tavg], [prcp] and [pres]; the repair keeps the number of
    rows and their dates, and the returned rows are the repaired rows,
    all of them or those that [dropna] keeps: rows leave the table only
    through the drop of the rows still null in those columns. *)
Theorem cargar_datos_historicos_invariante
    (lectura : excepcion + DataFrame) (out : DataFrame) :
  salida (cargar_datos_historicos lectura) = inr (Some out) ->
  exists df,
    lectura = inr df /\
    columns out = columns df /\
    (forall c r, c ∈ columnas_criticas -> c ∈ columns out ->
       r ∈ filas out -> celda c r <> None) /\
    ((0 < nulos_totales df)%nat ->
     forall c, c ∈ columnas_criticas -> c ∈ columns out) /\
    length (filas (reparar df)) = length (filas df) /\
    map date (filas (reparar df)) = map date (filas df) /\
    (filas out = filas (reparar df) \/
     filas out
     = filter (fun r => fila_completa columnas_criticas r = true)
         (filas (reparar df))).
Proof.
  unfold cargar_datos_historicos. intros H.
  rewrite salida_try_except, salida_bind in H.
  destruct lectura as [e|df]; cbn [salida snd] in H.
  - destruct e; rewrite salida_bind_print, salida_ret in H; discriminate H.
  - rewrite salida_bind in H.
    destruct (salida (limpiar df)) as [e|df'] eqn:El.
    + destruct e; rewrite salida_bind_print, salida_ret in H; discriminate H.
    + rewrite salida_ret in H. inversion H; subst df'.
      destruct (limpiar_invariante df out El) as (H1 & H2 & H3 & H4).
      destruct (reparar_filas df) as (_ & G2 & G3).
      exists df. split; [reflexivity|]. split; [exact H1|].
      split; [exact H2|]. split; [exact H3|]. split; [exact G2|].
      split; [exact G3|exact H4].
Qed.

(** *** Monthly report *)

Lemma imprimir_filas_sin_probabilidad (resultados : list Resultado)
    (r : Resultado) :
  r ∈ resultados -> r_probabilidad r = None ->
  salida (imprimir_filas resultados) = inl TypeError.
Proof.
  induction resultados as [|x rs IH]; intros Hin Hnone; [inversion Hin|].
  simpl. rewrite salida_bind.
  destruct (r_probabilidad x) as [p|] eqn:Ep; [|reflexivity].
  simpl. apply IH; [|exact Hnone].
  apply elem_of_cons in Hin as [->|Hin]; [congruence|exact Hin].
Qed.

(** A month with a result that has no probability: the report raises
    TypeError while it prints the table, before the summary. *)
Lemma informe_mensual_sin_probabilidad (resultados : list Resultado)
    (r : Resultado) :
  r ∈ resultados -> r_probabilidad r = None ->
  salida (informe_mensual resultados) = inl TypeError.
Proof.
  intros Hin Hnone. unfold informe_mensual.
  rewrite !salida_bind. simpl.
  rewrite (imprimir_filas_sin_probabilidad resultados r Hin Hnone).
  reflexivity.
Qed.

Lemma mapM_id_Some (xs : list Q) : mapM id (map Some xs) = Some xs.
Proof.
  apply mapM_Some. induction xs as [|x xs IH]; simpl; constructor;
    [reflexivity|exact IH].
Qed.

Lemma Qnat_S_no_cero (n : nat) : Qeq_bool (Qnat (S n)) 0 = false.
Proof.
  destruct (Qeq_bool (Qnat (S n)) 0) eqn:E; [|reflexivity].
  apply Qeq_bool_eq in E. unfold Qnat, Qeq in E. simpl in E. lia.
Qed.

(** A month whose results all have a probability: the summary is
    computed over the list of results, all of it and nothing else. *)
Lemma resumen_mensual_completo (resultados : list Resultado)
    (x : Q) (xs : list Q) :
  map r_probabilidad resultados = map Some (x :: xs) ->
  resumen_mensual resultados
  = ([Imprime MsgResumen;
      Imprime (MsgDiasLluvia (contar_lluvia resultados) (length resultados)
                 (Qnat (contar_lluvia resultados)
                  / Qnat (length resultados) * 100)%Q);
      Imprime (MsgProbMedia
                 (Qsum (x :: xs) / Qnat (length resultados))%Q);
      Imprime (MsgProbMaxima (Qmax_lista x xs));
      Imprime (MsgProbMinima (Qmin_lista x xs))],
     inr tt).
Proof.
  intros Hp. unfold resumen_mensual. cbv zeta.
  rewrite Hp, length_map.
  assert (Hlen : length resultados = S (length xs)).
  { rewrite <- (length_map r_probabilidad), Hp, length_map. reflexivity. }
  unfold dividir, sumar. rewrite mapM_id_Some.
  rewrite Hlen, Qnat_S_no_cero. reflexivity.
Qed.

(** The season entry of a synthesized vector is [season] of the month of
    the target date. *)
Lemma preparar_datos_fecha_season
    (df_historico : DataFrame) (fecha : Fecha) (v : Vector) :
  salida (preparar_datos_fecha df_historico fecha) = inr (Some v) ->
  v !! "season" = Some (Some (inject_Z (season (month fecha)))) /\
  v !! "month" = Some (Some (inject_Z (month fecha))).
Proof.
  unfold preparar_datos_fecha.
  destruct (length (datos_similares df_historico fecha) =? 0)%nat.
  - rewrite salida_bind_print, salida_ret. discriminate.
  - set (w := promedios _). rewrite salida_bind.
    destruct (salida (completar fecha w)) as [e|v'] eqn:E; [discriminate|].
    rewrite salida_ret. intros H. inversion H; subst v'. clear H.
    revert E. unfold completar, leer_columna. cbv zeta.
    match goal with |- context [?m !! "tavg"] =>
      destruct (m !! "tavg") as [tavg|] eqn:Etavg end;
      [|rewrite bind_raise; discriminate].
    rewrite bind_ret.
    match goal with |- context [?m !! "prcp"] =>
      destruct (m !! "prcp") as [prcp|] eqn:Eprcp end;
      [|rewrite bind_raise; discriminate].
    rewrite bind_ret.
    match goal with |- context [?m !! "wdir"] =>
      destruct (m !! "wdir") as [wdir|] eqn:Ewdir end;
      simpl; intros H; inversion H; subst v; clear H;
      split; by simplify_map_eq.
Qed.

(* ===================================================================== *)
(** ** Further properties *)
(* ===================================================================== *)

(** *** The repair of a column *)

Lemma interpolate_desde_valido (l : list (option Q)) :
  forall (a : Q) (hueco i : nat) (x : Q),
    l !! i = Some (Some x) ->
    interpolate_desde a hueco l !! (hueco + i)%nat = Some (Some x).
Proof.
  induction l as [|[b|] l IH]; intros a hueco i x Hi; [inversion Hi| |].
  - simpl. rewrite lookup_app_r by (rewrite relleno_length; lia).
    rewrite relleno_length.
    replace (hueco + i - hueco)%nat with i by lia.
    destruct i as [|i]; [exact Hi|]. simpl in *.
    exact (IH b 0%nat i x Hi).
  - destruct i as [|i]; [inversion Hi|]. simpl in *.
    replace (hueco + S i)%nat with (S hueco + i)%nat by lia.
    exact (IH a (S hueco) i x Hi).
Qed.

Lemma interpolate_valido (l : list (option Q)) (i : nat) (x : Q) :
  l !! i = Some (Some x) -> interpolate l !! i = Some (Some x).
Proof.
  revert i. induction l as [|[a|] l IH]; intros i Hi; [inversion Hi| |].
  - destruct i as [|i]; [exact Hi|]. simpl in *.
    exact (interpolate_desde_valido l a 0%nat i x Hi).
  - destruct i as [|i]; [inversion Hi|]. simpl in *. exact (IH i Hi).
Qed.

Lemma bfill_valido (l : list (option Q)) (i : nat) (x : Q) :
  l !! i = Some (Some x) -> bfill l !! i = Some (Some x).
Proof.
  revert i. induction l as [|[a|] l IH]; intros i Hi; [inversion Hi| |];
    (destruct i as [|i]; [try exact Hi; inversion Hi|]); simpl in *;
    exact (IH i Hi).
Qed.

Lemma ffill_desde_valido (l : list (option Q)) :
  forall (prev : option Q) (i : nat) (x : Q),
    l !! i = Some (Some x) -> ffill_desde prev l !! i = Some (Some x).
Proof.
  induction l as [|[a|] l IH]; intros prev i x Hi; [inversion Hi| |];
    (destruct i as [|i]; [try exact Hi; inversion Hi|]); simpl in *;
    apply IH; exact Hi.
Qed.

(** The three fills of line 35 keep every valid value where it is. *)
Lemma relleno_completo_valido (l : list (option Q)) (i : nat) (x : Q) :
  l !! i = Some (Some x) ->
  ffill (bfill (interpolate l)) !! i = Some (Some x).
Proof.
  intros Hi. unfold ffill.
  apply ffill_desde_valido, bfill_valido, interpolate_valido. exact Hi.
Qed.

Lemma relleno_completo_length (l : list (option Q)) :
  length (ffill (bfill (interpolate l))) = length l.
Proof.
  unfold ffill.
  rewrite ffill_desde_length, bfill_length, interpolate_length. reflexivity.
Qed.

Lemma ffill_desde_Some (l : list (option Q)) :
  forall a, Forall (fun x => x <> None) (ffill_desde (Some a) l).
Proof.
  induction l as [|[b|] l IH]; intros a; simpl; constructor;
    try discriminate; apply IH.
Qed.

Lemma bfill_cabeza (l : list (option Q)) (i : nat) (x : Q) :
  l !! i = Some (Some x) -> exists a, head (bfill l) = Some (Some a).
Proof.
  revert i. induction l as [|[a|] l IH]; intros i Hi; [inversion Hi| |].
  - exists a. reflexivity.
  - destruct i as [|i]; [inversion Hi|]. simpl in Hi.
    destruct (IH i Hi) as [a Ha]. exists a. simpl. rewrite Ha. reflexivity.
Qed.

(** A column with at least one valid value has no null left after the
    three fills. *)
Lemma relleno_completo_sin_nulos (l : list (option Q)) (i : nat) (x : Q) :
  l !! i = Some (Some x) ->
  Forall (fun y => y <> None) (ffill (bfill (interpolate l))).
Proof.
  intros Hi. apply interpolate_valido in Hi.
  destruct (bfill_cabeza _ _ _ Hi) as [a Ha].
  unfold ffill. destruct (bfill (interpolate l)) as [|y r]; [constructor|].
  simpl in Ha. inversion Ha; subst y. simpl.
  constructor; [discriminate|apply ffill_desde_Some].
Qed.

Lemma interpolate_todo_nulo (l : list (option Q)) :
  Forall (fun y => y = None) l -> interpolate l = l.
Proof.
  induction 1 as [|y l Hy _ IH]; [reflexivity|]. subst y. simpl.
  rewrite IH. reflexivity.
Qed.

Lemma bfill_todo_nulo (l : list (option Q)) :
  Forall (fun y => y = None) l -> bfill l = l.
Proof.
  induction 1 as [|y l Hy Hl IH]; [reflexivity|]. subst y. simpl.
  rewrite IH. destruct Hl as [|z l Hz _]; [reflexivity|]. subst z.
  reflexivity.
Qed.

Lemma ffill_todo_nulo (l : list (option Q)) :
  Forall (fun y => y = None) l -> ffill l = l.
Proof.
  unfold ffill. induction 1 as [|y l Hy _ IH]; [reflexivity|]. subst y.
  simpl. rewrite IH. reflexivity.
Qed.

(** A column without any valid value stays as it is. *)
Lemma relleno_completo_todo_nulo (l : list (option Q)) :
  Forall (fun y => y = None) l -> ffill (bfill (interpolate l)) = l.
Proof.
  intros H. rewrite (interpolate_todo_nulo l H), (bfill_todo_nulo l H).
  exact (ffill_todo_nulo l H).
Qed.

(** *** The repair of the table *)

Lemma columna_asignar_misma (c : string) (rows : list Fila) :
  forall valores : list (option Q),
    length valores = length rows ->
    columna c (asignar_columna c valores rows) = valores.
Proof.
  unfold columna, asignar_columna.
  induction rows as [|r rows IH]; intros [|v valores] Hlen;
    simpl in *; try discriminate; [reflexivity|].
  rewrite IH by lia. unfold celda at 1. simpl.
  rewrite lookup_insert_eq. reflexivity.
Qed.

Lemma columna_asignar_otra (c c' : string) (rows : list Fila) :
  c <> c' ->
  forall valores : list (option Q),
    length valores = length rows ->
    columna c (asignar_columna c' valores rows) = columna c rows.
Proof.
  intros Hne. unfold columna, asignar_columna.
  induction rows as [|r rows IH]; intros [|v valores] Hlen;
    simpl in *; try discriminate; [reflexivity|].
  rewrite IH by lia. unfold celda at 1 3. simpl.
  rewrite lookup_insert_ne by congruence. reflexivity.
Qed.

Lemma nulos_fecha_map (rows : list Fila) :
  nulos_fecha rows
  = length (filter (fun d : option Fecha => d = None) (map date rows)).
Proof.
  unfold nulos_fecha. induction rows as [|r rows IH]; [reflexivity|].
  simpl. rewrite !filter_cons.
  destruct (decide (date r = None)); simpl; rewrite IH; reflexivity.
Qed.

Lemma nulos_columna_ext (c : string) (rows rows' : list Fila) :
  map date rows = map date rows' ->
  columna c rows = columna c rows' ->
  nulos_columna c rows = nulos_columna c rows'.
Proof.
  intros Hd Hc. unfold nulos_columna.
  rewrite !nulos_fecha_map, Hd, Hc. reflexivity.
Qed.

Lemma reparar_columna_columna (df : DataFrame) (c c' : string) :
  columna c (filas (reparar_columna df c'))
  = if decide (c = c') then columna_reparada df c
    else columna c (filas df).
Proof.
  unfold reparar_columna, columna_reparada.
  destruct (decide (c = c')) as [<-|Hne].
  - destruct (tiene_columna c df && (0 <? nulos_columna c (filas df))%nat);
      [|reflexivity].
    simpl. apply columna_asignar_misma.
    rewrite relleno_completo_length. unfold columna. apply length_map.
  - destruct (tiene_columna c' df && (0 <? nulos_columna c' (filas df))%nat);
      [|reflexivity].
    simpl. apply columna_asignar_otra; [exact Hne|].
    rewrite relleno_completo_length. unfold columna. apply length_map.
Qed.

Lemma columna_reparada_ext (df df' : DataFrame) (c : string) :
  columns df' = columns df ->
  map date (filas df') = map date (filas df) ->
  columna c (filas df') = columna c (filas df) ->
  columna_reparada df' c = columna_reparada df c.
Proof.
  intros Hcols Hd Hc. unfold columna_reparada, tiene_columna.
  rewrite Hcols, Hc, (nulos_columna_ext c _ _ Hd Hc). reflexivity.
Qed.

Lemma foldl_reparar_columna (c : string) (cs : list string) :
  NoDup cs ->
  forall df : DataFrame,
    columna c (filas (foldl reparar_columna df cs))
    = if decide (c ∈ cs) then columna_reparada df c
      else columna c (filas df).
Proof.
  induction 1 as [|c' cs Hnotin Hnd IH]; intros df.
  - destruct (decide (c ∈ [])) as [H|_]; [inversion H|reflexivity].
  - change (foldl reparar_columna df (c' :: cs))
      with (foldl reparar_columna (reparar_columna df c') cs).
    rewrite IH.
    destruct (reparar_columna_filas df c') as (Hcols & _ & Hd).
    pose proof (reparar_columna_columna df c c') as Hc.
    destruct (decide (c ∈ cs)) as [Hin|Hnin].
    + rewrite decide_True by (right; exact Hin).
      assert (Hne : c <> c') by (intros ->; contradiction).
      rewrite decide_False in Hc by exact Hne.
      apply columna_reparada_ext; assumption.
    + rewrite Hc. destruct (decide (c = c')) as [<-|Hne].
      * rewrite decide_True by left. reflexivity.
      * rewrite decide_False; [reflexivity|].
        intros H. apply elem_of_cons in H as [H|H]; contradiction.
Qed.

Lemma columnas_reparables_NoDup : NoDup columnas_reparables.
Proof.
  unfold columnas_reparables.
  repeat (constructor;
          [intros H; repeat (apply elem_of_cons in H as [H|H];
                             [discriminate|]); inversion H|]).
  constructor.
Qed.

(** Column by column, the repair of lines 33-35 is the three fills on
    each of the seven listed columns that exists and has a null; every
    other column is left as it is. *)
Lemma reparar_columna_a_columna (df : DataFrame) (c : string) :
  columna c (filas (reparar df))
  = if decide (c ∈ columnas_reparables) then columna_reparada df c
    else columna c (filas df).
Proof.
  unfold reparar. apply foldl_reparar_columna, columnas_reparables_NoDup.
Qed.

Lemma columna_lookup (c : string) (rows : list Fila) (i : nat) (r : Fila) :
  rows !! i = Some r -> columna c rows !! i = Some (celda c r).
Proof.
  intros H. unfold columna. rewrite list_lookup_fmap, H. reflexivity.
Qed.

Lemma columna_reparada_valido (df : DataFrame) (c : string) (i : nat)
    (x : Q) :
  columna c (filas df) !! i = Some (Some x) ->
  columna_reparada df c !! i = Some (Some x).
Proof.
  intros H. unfold columna_reparada.
  destruct (tiene_columna c df && (0 <? nulos_columna c (filas df))%nat);
    [|exact H].
  apply relleno_completo_valido. exact H.
Qed.

Lemma fila_en_posicion (rows rows' : list Fila) (c : string) (i : nat)
    (r : Fila) (x : Q) :
  length rows' = length rows ->
  map date rows' = map date rows ->
  columna c rows' !! i = Some (Some x) ->
  rows !! i = Some r ->
  exists r', rows' !! i = Some r' /\ celda c r' = Some x /\ date r' = date r.
Proof.
  intros Hlen Hdate Hv Hi.
  destruct (lookup_lt_is_Some_2 rows' i) as [r' Hr'].
  { rewrite Hlen. apply lookup_lt_is_Some_1. eexists. exact Hi. }
  exists r'. split; [exact Hr'|]. split.
  - pose proof (columna_lookup c _ _ _ Hr') as Hc.
    rewrite Hv in Hc. inversion Hc. reflexivity.
  - assert (Hd : map date rows' !! i = map date rows !! i)
      by (rewrite Hdate; reflexivity).
    rewrite !list_lookup_fmap, Hr', Hi in Hd.
    inversion Hd. reflexivity.
Qed.

Lemma reparar_columna_valido (df : DataFrame) (c : string) (i : nat)
    (x : Q) :
  columna c (filas df) !! i = Some (Some x) ->
  columna c (filas (reparar df)) !! i = Some (Some x).
Proof.
  intros H. rewrite reparar_columna_a_columna.
  destruct (decide (c ∈ columnas_reparables)); [|exact H].
  apply columna_reparada_valido. exact H.
Qed.

(** X1. The repair never alters an observation: a cell that holds a
    value before the repair holds the same value after it, in the same
    row, and the row keeps its date. *)
Theorem reparar_conserva_observaciones (df : DataFrame) (c : string)
    (i : nat) (r : Fila) (x : Q) :
  filas df !! i = Some r -> celda c r = Some x ->
  exists r', filas (reparar df) !! i = Some r' /\
             celda c r' = Some x /\ date r' = date r.
Proof.
  intros Hi Hx.
  destruct (reparar_filas df) as (_ & Hlen & Hdate).
  apply (fila_en_posicion (filas df) (filas (reparar df)) c i r x Hlen Hdate);
    [|exact Hi].
  apply reparar_columna_valido.
  rewrite (columna_lookup c _ _ _ Hi), Hx. reflexivity.
Qed.

Lemma sin_nulos_cero (l : list (option Q)) :
  Forall (fun y => y <> None) l ->
  length (filter (fun x => es_nulo x = true) l) = 0%nat.
Proof.
  induction 1 as [|y l Hy _ IH]; [reflexivity|].
  rewrite filter_cons. destruct y as [q|]; [|contradiction].
  rewrite decide_False by discriminate. exact IH.
Qed.

Lemma cero_sin_nulos (l : list (option Q)) :
  length (filter (fun x => es_nulo x = true) l) = 0%nat ->
  Forall (fun y => y <> None) l.
Proof.
  induction l as [|y l IH]; [constructor|].
  rewrite filter_cons. destruct y as [q|].
  - rewrite decide_False by discriminate. intros H.
    constructor; [discriminate|exact (IH H)].
  - rewrite decide_True by reflexivity. discriminate.
Qed.

Lemma columna_reparada_sin_nulos (df : DataFrame) (c : string) (r : Fila) :
  c <> "date" -> c ∈ columns df -> r ∈ filas df -> celda c r <> None ->
  Forall (fun y => y <> None) (columna_reparada df c).
Proof.
  intros Hne Hcol Hr Hv. unfold columna_reparada, tiene_columna.
  rewrite bool_decide_eq_true_2 by exact Hcol. simpl.
  destruct (0 <? nulos_columna c (filas df))%nat eqn:Hn.
  - apply list_elem_of_lookup in Hr as [i Hi].
    destruct (celda c r) as [x|] eqn:Hx; [|contradiction].
    apply (relleno_completo_sin_nulos _ i x).
    rewrite (columna_lookup c _ _ _ Hi), Hx. reflexivity.
  - apply Nat.ltb_ge in Hn. apply cero_sin_nulos.
    unfold nulos_columna in Hn.
    destruct (String.eqb_spec c "date") as [Heq|_]; [contradiction|]. lia.
Qed.

Lemma criticas_reparables (c : string) :
  c ∈ columnas_criticas -> c ∈ columnas_reparables.
Proof.
  unfold columnas_criticas, columnas_reparables. intros H.
  repeat (apply elem_of_cons in H as [->|H];
          [repeat (first [apply list_elem_of_here
                         |apply list_elem_of_further])|]).
  inversion H.
Qed.

Lemma nulos_columna_no_date (c : string) (rows : list Fila) :
  c <> "date" ->
  nulos_columna c rows
  = length (filter (fun x => es_nulo x = true) (columna c rows)).
Proof.
  intros Hne. unfold nulos_columna.
  destruct (String.eqb_spec c "date") as [Heq|_]; [contradiction|].
  reflexivity.
Qed.

Lemma nulos_en_cero (cs : list string) (rows : list Fila) :
  (forall c, c ∈ cs -> nulos_columna c rows = 0%nat) ->
  nulos_en cs rows = 0%nat.
Proof.
  unfold nulos_en. induction cs as [|c cs IH]; intros H; [reflexivity|].
  simpl. rewrite (H c) by left. rewrite IH; [reflexivity|].
  intros c' Hc'. apply H. right. exact Hc'.
Qed.

Lemma suma_mayor (l : list nat) (n : nat) :
  n ∈ l -> (n <= foldr Nat.add 0 l)%nat.
Proof.
  induction l as [|x l IH]; intros H; [inversion H|].
  apply elem_of_cons in H as [->|H]; simpl; [lia|].
  specialize (IH H). lia.
Qed.

Lemma eliminar_nulos_restantes_salida (df : DataFrame) :
  (forall c, c ∈ columnas_criticas -> c ∈ columns df) ->
  salida (eliminar_nulos_restantes df)
  = inr (if (0 <? nulos_en columnas_criticas (filas df))%nat
         then dropna columnas_criticas df else df).
Proof.
  intros Hcrit. unfold eliminar_nulos_restantes. cbv zeta.
  destruct (exigir_columnas_ok columnas_criticas df) as [[e He]|[He _]].
  - exfalso. unfold exigir_columnas in He.
    destruct (filter (fun c => tiene_columna c df = false)
                columnas_criticas) as [|c l] eqn:E; [discriminate|].
    assert (Hin : c ∈ filter (fun c => tiene_columna c df = false)
                        columnas_criticas) by (rewrite E; left).
    apply list_elem_of_filter in Hin as [Hf Hc].
    unfold tiene_columna in Hf. apply bool_decide_eq_false in Hf.
    apply Hf. apply Hcrit. exact Hc.
  - rewrite He.
    change (([], inr tt) : Efecto unit) with (mret tt : Efecto unit).
    rewrite salida_bind_ret.
    destruct (0 <? nulos_en columnas_criticas (filas df))%nat.
    + rewrite salida_bind, !salida_bind_print, salida_ret.
      rewrite salida_bind_print, !salida_ret. reflexivity.
    + rewrite salida_bind_ret, salida_bind_print, !salida_ret. reflexivity.
Qed.

Lemma limpiar_con_nulos (df : DataFrame) :
  (0 < nulos_totales df)%nat ->
  salida (limpiar df) = salida (eliminar_nulos_restantes (reparar df)).
Proof.
  intros Hn. apply Nat.ltb_lt in Hn. unfold limpiar. cbv zeta.
  rewrite Hn, !salida_bind_print. reflexivity.
Qed.

Lemma limpiar_sin_nulos (df : DataFrame) :
  nulos_totales df = 0%nat -> limpiar df = mret df.
Proof.
  intros Hn. unfold limpiar. cbv zeta. rewrite Hn. reflexivity.
Qed.

Lemma cargar_salida (df : DataFrame) :
  salida (cargar_datos_historicos (inr df))
  = match salida (limpiar df) with
    | inr df' => inr (Some df')
    | inl _ => inr None
    end.
Proof.
  unfold cargar_datos_historicos.
  rewrite salida_try_except, salida_bind. cbn [salida snd].
  rewrite salida_bind.
  destruct (salida (limpiar df)) as [e|df']; [|reflexivity].
  destruct e; rewrite salida_bind_print; reflexivity.
Qed.

(** What the cleaner does to a table that has a null, in terms of the
    repaired table. *)
Lemma cargar_con_nulos (df : DataFrame) :
  (0 < nulos_totales df)%nat ->
  (forall c, c ∈ columnas_criticas -> c ∈ columns df) ->
  salida (cargar_datos_historicos (inr df))
  = inr (Some (if (0 <? nulos_en columnas_criticas (filas (reparar df)))%nat
               then dropna columnas_criticas (reparar df)
               else reparar df)).
Proof.
  intros Hn Hcrit.
  rewrite cargar_salida, (limpiar_con_nulos df Hn).
  rewrite eliminar_nulos_restantes_salida; [reflexivity|].
  intros c Hc. destruct (reparar_filas df) as (Hcols & _ & _).
  rewrite Hcols. apply Hcrit. exact Hc.
Qed.

Lemma cargar_sin_nulos (df : DataFrame) :
  nulos_totales df = 0%nat ->
  salida (cargar_datos_historicos (inr df)) = inr (Some df).
Proof.
  intros Hn. rewrite cargar_salida, (limpiar_sin_nulos df Hn). reflexivity.
Qed.

(** The facts about the repaired table that the cleaner's properties
    use. *)
Lemma reparar_resumen (df : DataFrame) :
  exists df1,
    columns df1 = columns df /\
    length (filas df1) = length (filas df) /\
    map date (filas df1) = map date (filas df) /\
    (forall c, columna c (filas df1)
               = if decide (c ∈ columnas_reparables)
                 then columna_reparada df c else columna c (filas df)) /\
    (nulos_totales df = 0%nat -> df1 = df) /\
    ((0 < nulos_totales df)%nat ->
     (forall c, c ∈ columnas_criticas -> c ∈ columns df) ->
     salida (cargar_datos_historicos (inr df))
     = inr (Some (if (0 <? nulos_en columnas_criticas (filas df1))%nat
                  then dropna columnas_criticas df1 else df1))).
Proof.
  exists (reparar df).
  destruct (reparar_filas df) as (H1 & H2 & H3).
  split; [exact H1|]. split; [exact H2|]. split; [exact H3|].
  split; [exact (reparar_columna_a_columna df)|].
  split; [exact (reparar_sin_nulos df)|exact (cargar_con_nulos df)].
Qed.

(** X2. If every critical column is a column of the table and has at
    least one value, the cleaner returns a table with all the rows of
    the input, in their order and with their dates: nothing is
    dropped. *)
Theorem cargar_datos_historicos_sin_perdida (df : DataFrame) :
  (forall c, c ∈ columnas_criticas -> c ∈ columns df) ->
  (forall c, c ∈ columnas_criticas ->
     exists r, r ∈ filas df /\ celda c r <> None) ->
  exists out,
    salida (cargar_datos_historicos (inr df)) = inr (Some out) /\
    length (filas out) = length (filas df) /\
    map date (filas out) = map date (filas df) /\
    forall c r, c ∈ columnas_criticas -> r ∈ filas out -> celda c r <> None.
Proof.
  intros Hcrit Hval.
  destruct (reparar_resumen df)
    as (df1 & Hcols & Hlen & Hdate & Hcol & Hsin & Hcon).
  assert (Hcero : nulos_en columnas_criticas (filas df1) = 0%nat).
  { apply nulos_en_cero. intros c Hc.
    rewrite nulos_columna_no_date by (apply criticas_no_date; exact Hc).
    apply sin_nulos_cero. rewrite Hcol.
    rewrite decide_True by (apply criticas_reparables; exact Hc).
    destruct (Hval c Hc) as (r & Hr & Hv).
    apply (columna_reparada_sin_nulos df c r);
      [apply criticas_no_date; exact Hc|apply Hcrit; exact Hc|exact Hr
      |exact Hv]. }
  assert (Hnn : forall c r, c ∈ columnas_criticas ->
                  r ∈ filas df1 -> celda c r <> None).
  { intros c r Hc Hr.
    apply (nulos_columna_cero c (filas df1) r);
      [apply criticas_no_date; exact Hc| |exact Hr].
    apply (suma_cero _ Hcero). apply list_elem_of_fmap. exists c.
    split; [reflexivity|exact Hc]. }
  destruct (Nat.eq_dec (nulos_totales df) 0) as [H0|Hpos].
  - exists df. rewrite (cargar_sin_nulos df H0).
    rewrite (Hsin H0) in Hnn.
    split; [reflexivity|]. split; [reflexivity|]. split; [reflexivity|].
    exact Hnn.
  - exists df1.
    rewrite Hcon by (lia || exact Hcrit).
    rewrite Hcero, Nat.ltb_irrefl.
    split; [reflexivity|]. split; [exact Hlen|]. split; [exact Hdate|].
    exact Hnn.
Qed.

(** X3. If the table has rows and one of its critical columns has no
    value at all, the cleaner returns a table without rows: every row is
    dropped. *)
Theorem cargar_datos_historicos_columna_vacia (df : DataFrame)
    (c : string) :
  (forall c', c' ∈ columnas_criticas -> c' ∈ columns df) ->
  c ∈ columnas_criticas ->
  filas df <> [] ->
  (forall r, r ∈ filas df -> celda c r = None) ->
  exists out,
    salida (cargar_datos_historicos (inr df)) = inr (Some out) /\
    filas out = [] /\ columns out = columns df.
Proof.
  intros Hcrit Hc Hne Hnul.
  destruct (reparar_resumen df)
    as (df1 & Hcols & Hlen & Hdate & Hcol & Hsin & Hcon).
  assert (Hcol0 : Forall (fun y => y = None) (columna c (filas df))).
  { unfold columna. apply Forall_fmap, Forall_forall. exact Hnul. }
  assert (Hcnt : forall l : list (option Q), Forall (fun y => y = None) l ->
            length (filter (fun x => es_nulo x = true) l) = length l).
  { induction 1 as [|y l Hy _ IH]; [reflexivity|]. subst y.
    rewrite filter_cons, decide_True by reflexivity. simpl. rewrite IH.
    reflexivity. }
  assert (Hnc : nulos_columna c (filas df) = length (filas df)).
  { rewrite nulos_columna_no_date by (apply criticas_no_date; exact Hc).
    rewrite (Hcnt _ Hcol0). unfold columna. apply length_map. }
  assert (Hlenpos : (0 < length (filas df))%nat).
  { destruct (filas df); [contradiction|simpl; lia]. }
  assert (Hpos : (0 < nulos_totales df)%nat).
  { assert (nulos_columna c (filas df) <= nulos_totales df)%nat; [|lia].
    apply suma_mayor. apply list_elem_of_fmap. exists c.
    split; [reflexivity|apply Hcrit; exact Hc]. }
  assert (Hrep : columna c (filas df1) = columna c (filas df)).
  { rewrite Hcol.
    rewrite decide_True by (apply criticas_reparables; exact Hc).
    unfold columna_reparada.
    destruct (tiene_columna c df && (0 <? nulos_columna c (filas df))%nat);
      [|reflexivity].
    apply relleno_completo_todo_nulo. exact Hcol0. }
  assert (Hnul' : forall r, r ∈ filas df1 -> celda c r = None).
  { intros r Hr. apply list_elem_of_lookup in Hr as [i Hi].
    pose proof (columna_lookup c _ _ _ Hi) as Hci. rewrite Hrep in Hci.
    exact (proj1 (Forall_lookup _ _) Hcol0 i _ Hci). }
  assert (Hrest : (0 < nulos_en columnas_criticas (filas df1))%nat).
  { assert (nulos_columna c (filas df1)
            <= nulos_en columnas_criticas (filas df1))%nat.
    { apply suma_mayor. apply list_elem_of_fmap. exists c.
      split; [reflexivity|exact Hc]. }
    assert (nulos_columna c (filas df1) = length (filas df)); [|lia].
    rewrite nulos_columna_no_date by (apply criticas_no_date; exact Hc).
    rewrite Hrep, (Hcnt _ Hcol0). unfold columna. apply length_map. }
  exists (dropna columnas_criticas df1).
  rewrite (Hcon Hpos Hcrit).
  apply Nat.ltb_lt in Hrest. rewrite Hrest.
  split; [reflexivity|]. split; [|rewrite dropna_columns; exact Hcols].
  rewrite dropna_filas.
  clear Hrest Hrep Hlen Hdate Hcol Hsin Hcon Hcols.
  induction (filas df1) as [|r rows' IH]; [reflexivity|].
  rewrite filter_cons.
  assert (Hf : fila_completa columnas_criticas r = false).
  { destruct (fila_completa columnas_criticas r) eqn:E; [|reflexivity].
    exfalso. apply (fila_completa_celda _ _ _ E Hc). apply Hnul'. left. }
  rewrite decide_False by (rewrite Hf; discriminate).
  apply IH. intros r0 Hr0. apply Hnul'. right. exact Hr0.
Qed.

Lemma exigir_columnas_falla (cs : list string) (df : DataFrame) (e : excepcion) :
  salida (exigir_columnas cs df) = inl e ->
  exists c, c ∈ cs /\ c ∉ columns df.
Proof.
  unfold exigir_columnas.
  destruct (filter (fun c => tiene_columna c df = false) cs) as [|c l] eqn:E;
    [discriminate|].
  intros _. exists c.
  assert (Hin : c ∈ filter (fun c => tiene_columna c df = false) cs)
    by (rewrite E; left).
  apply list_elem_of_filter in Hin as [Hf Hc].
  unfold tiene_columna in Hf. apply bool_decide_eq_false in Hf.
  split; assumption.
Qed.

Lemma eliminar_nulos_restantes_falla (df : DataFrame) (e : excepcion) :
  salida (eliminar_nulos_restantes df) = inl e ->
  exists c, c ∈ columnas_criticas /\ c ∉ columns df.
Proof.
  unfold eliminar_nulos_restantes. cbv zeta. rewrite salida_bind.
  destruct (salida (exigir_columnas columnas_criticas df)) as [e'|[]] eqn:E.
  - intros _. exact (exigir_columnas_falla _ _ _ E).
  - rewrite salida_bind.
    destruct (0 <? nulos_en columnas_criticas (filas df))%nat.
    + rewrite !salida_bind_print, salida_ret, salida_bind_print, salida_ret.
      discriminate.
    + rewrite salida_ret, salida_bind_print, salida_ret. discriminate.
Qed.

(** X4. The cleaner never raises.  It returns the unavailable sentinel
    exactly when reading the file raised, or when the table has a null
    somewhere and lacks one of the critical columns. *)
Theorem cargar_datos_historicos_no_disponible
    (lectura : excepcion + DataFrame) :
  exists o,
    salida (cargar_datos_historicos lectura) = inr o /\
    (o = None <->
     (exists e, lectura = inl e) \/
     (exists df c, lectura = inr df /\ (0 < nulos_totales df)%nat /\
                   c ∈ columnas_criticas /\ c ∉ columns df)).
Proof.
  destruct lectura as [e|df].
  - exists None. split.
    + unfold cargar_datos_historicos.
      rewrite salida_try_except, salida_bind. cbn [salida snd].
      destruct e; rewrite salida_bind_print; reflexivity.
    + split; [intros _; left; exists e; reflexivity|reflexivity].
  - rewrite cargar_salida.
    destruct (Nat.eq_dec (nulos_totales df) 0) as [H0|Hpos].
    + rewrite (limpiar_sin_nulos df H0). exists (Some df).
      split; [reflexivity|]. split; [discriminate|].
      intros [[e He]|(df' & c & Hdf & Hn & _)]; [discriminate|].
      inversion Hdf; subst df'. lia.
    + rewrite (limpiar_con_nulos df) by lia.
      destruct (reparar_filas df) as (Hcols & _ & _).
      destruct (salida (eliminar_nulos_restantes (reparar df)))
        as [e|out] eqn:E.
      * exists None. split; [reflexivity|].
        split; [|reflexivity]. intros _. right.
        destruct (eliminar_nulos_restantes_falla _ _ E) as (c & Hc & Hnc).
        exists df, c. rewrite Hcols in Hnc.
        split; [reflexivity|]. split; [lia|]. split; assumption.
      * exists (Some out). split; [reflexivity|]. split; [discriminate|].
        intros [[e He]|(df' & c & Hdf & _ & Hc & Hnc)]; [discriminate|].
        inversion Hdf; subst df'. exfalso.
        destruct (eliminar_nulos_restantes_invariante _ _ E)
          as (Hco & _ & Hall & _).
        apply Hnc. rewrite <- Hcols, <- Hco. apply Hall. exact Hc.
Qed.

(** *** More on feature synthesis *)

Lemma primarios_en_mes (df : DataFrame) (fecha : Fecha) (r : Fila) :
  r ∈ analogos_primarios df fecha -> r ∈ analogos_mes df fecha.
Proof.
  unfold analogos_primarios, analogos_mes. rewrite !list_elem_of_filter.
  intros [Hs Hr]. split; [|exact Hr].
  unfold es_similar in Hs. unfold es_mismo_mes.
  destruct (date r) as [f|]; [|discriminate].
  apply andb_true_iff in Hs as [Hm _]. exact Hm.
Qed.

Lemma datos_similares_vacio (df : DataFrame) (fecha : Fecha) :
  datos_similares df fecha = [] <-> analogos_mes df fecha = [].
Proof.
  unfold datos_similares.
  destruct (analogos_primarios df fecha) as [|r rs] eqn:E; simpl.
  - reflexivity.
  - split; [discriminate|]. intros Hm. exfalso.
    assert (Hin : r ∈ analogos_mes df fecha)
      by (apply primarios_en_mes; rewrite E; left).
    rewrite Hm in Hin. inversion Hin.
Qed.


Lemma completar_traza (fecha : Fecha) (w : Vector) :
  traza (completar fecha w) = [].
Proof.
  unfold completar, leer_columna. cbv zeta.
  match goal with |- context [?m !! "tavg"] =>
    destruct (m !! "tavg") as [tavg|] end; [|reflexivity].
  rewrite bind_ret.
  match goal with |- context [?m !! "prcp"] =>
    destruct (m !! "prcp") as [prcp|] end; [|reflexivity].
  rewrite bind_ret.
  match goal with |- context [?m !! "wdir"] =>
    destruct (m !! "wdir") as [wdir|] end; reflexivity.
Qed.

(** When synthesis gives the "no data" signal, and what it prints. *)
Lemma preparar_sin_datos (df : DataFrame) (fecha : Fecha) :
  (salida (preparar_datos_fecha df fecha) = inr None <->
   Forall (fun r => ~ en_mes (month fecha) r) (filas df)) /\
  traza (preparar_datos_fecha df fecha)
  = match salida (preparar_datos_fecha df fecha) with
    | inr None => [Imprime (MsgNoHayDatos (strftime fecha))]
    | _ => []
    end.
Proof.
  assert (Hvac : analogos_mes df fecha = [] <->
                 Forall (fun r => ~ en_mes (month fecha) r) (filas df)).
  { unfold analogos_mes. rewrite Forall_forall. split.
    - intros Hnil r Hr Hen. apply es_mismo_mes_en_mes in Hen.
      assert (Hin : r ∈ filter (fun r => es_mismo_mes fecha r = true)
                          (filas df))
        by (apply list_elem_of_filter; split; assumption).
      rewrite Hnil in Hin. inversion Hin.
    - intros Hall.
      destruct (filter (fun r => es_mismo_mes fecha r = true) (filas df))
        as [|r l] eqn:E; [reflexivity|]. exfalso.
      assert (Hin : r ∈ filter (fun r => es_mismo_mes fecha r = true)
                          (filas df)) by (rewrite E; left).
      apply list_elem_of_filter in Hin as [Hm Hr].
      apply (Hall r Hr). apply es_mismo_mes_en_mes. exact Hm. }
  rewrite <- Hvac, <- datos_similares_vacio.
  unfold preparar_datos_fecha.
  destruct (datos_similares df fecha) as [|r rs] eqn:E.
  - simpl. split; [split; reflexivity|reflexivity].
  - cbn [length Nat.eqb]. set (w := promedios _).
    rewrite (efecto_eta (completar fecha w)), completar_traza.
    destruct (salida (completar fecha w)) as [e|v].
    + rewrite bind_inl. cbn [salida traza fst snd].
      split; [split; discriminate|reflexivity].
    + rewrite bind_inr. cbn [salida traza fst snd mret Efecto_ret].
      split; [split; discriminate|reflexivity].
Qed.

(** X6. Synthesis gives the "no data" signal exactly when no row of the
    historical table is dated in the month of the target date; it then
    prints the one message of line 70.  In every other case it prints
    nothing. *)
Theorem preparar_datos_fecha_sin_datos (df : DataFrame) (fecha : Fecha) :
  (salida (preparar_datos_fecha df fecha) = inr None <->
   Forall (fun r => ~ en_mes (month fecha) r) (filas df)) /\
  traza (preparar_datos_fecha df fecha)
  = match salida (preparar_datos_fecha df fecha) with
    | inr None => [Imprime (MsgNoHayDatos (strftime fecha))]
    | _ => []
    end.
Proof.
  exact (preparar_sin_datos df fecha).
Qed.

Lemma promedios_lookup_None (df : DataFrame) (c : string) :
  c ∉ columns df -> promedios df !! c = None.
Proof.
  intros Hc. unfold promedios. apply not_elem_of_list_to_map.
  rewrite <- list_fmap_compose. intros H.
  apply list_elem_of_fmap in H as (c' & -> & H).
  apply list_elem_of_filter in H as [_ H]. exact (Hc H).
Qed.

(** Synthesis on a table without a column that line 91 or 94 reads. *)
Lemma preparar_sin_columna (df : DataFrame) (fecha : Fecha) :
  analogos_mes df fecha <> [] ->
  ("tavg" ∉ columns df ->
   preparar_datos_fecha df fecha = ([], inl (KeyError "tavg"))) /\
  ("tavg" ∈ columns df -> "prcp" ∉ columns df ->
   preparar_datos_fecha df fecha = ([], inl (KeyError "prcp"))).
Proof.
  intros Hmes.
  assert (Hsim : datos_similares df fecha <> [])
    by (rewrite datos_similares_vacio; exact Hmes).
  unfold preparar_datos_fecha.
  destruct (datos_similares df fecha) as [|r rs] eqn:E; [contradiction|].
  cbn [length Nat.eqb]. set (sim := rellenar_nulos _).
  assert (Hcols : columns sim = columns df)
    by (unfold sim; rewrite rellenar_nulos_columns; reflexivity).
  split.
  - intros Ht. unfold completar, leer_columna. cbv zeta.
    rewrite !lookup_insert_ne by discriminate.
    rewrite promedios_lookup_None by (rewrite Hcols; exact Ht).
    reflexivity.
  - intros Ht Hp. unfold completar, leer_columna. cbv zeta.
    rewrite !lookup_insert_ne by discriminate.
    destruct (promedios_lookup sim "tavg") as [x Hx];
      [rewrite Hcols; exact Ht|discriminate|].
    rewrite Hx, bind_ret.
    rewrite !lookup_insert_ne by discriminate.
    rewrite promedios_lookup_None by (rewrite Hcols; exact Hp).
    reflexivity.
Qed.

(** X7. When the historical table has rows in the month of the target
    date but no [tavg] column, synthesis raises KeyError for [tavg]; when
    it has [tavg] but no [prcp] column, it raises KeyError for [prcp].
    Nothing is printed. *)
Theorem preparar_datos_fecha_sin_columna (df : DataFrame) (fecha : Fecha) :
  analogos_mes df fecha <> [] ->
  ("tavg" ∉ columns df ->
   preparar_datos_fecha df fecha = ([], inl (KeyError "tavg"))) /\
  ("tavg" ∈ columns df -> "prcp" ∉ columns df ->
   preparar_datos_fecha df fecha = ([], inl (KeyError "prcp"))).
Proof.
  exact (preparar_sin_columna df fecha).
Qed.

Lemma bucle_rango_sin_tavg (df : DataFrame) (caracteristicas : list string) :
  "tavg" ∉ columns df ->
  forall (fechas : list Fecha) (resultados : list Resultado),
    (exists f, f ∈ fechas /\ analogos_mes df f <> []) ->
    salida (bucle_rango df caracteristicas fechas resultados)
    = inl (KeyError "tavg").
Proof.
  intros Ht. induction fechas as [|fecha resto IH]; intros resultados Hex.
  - destruct Hex as (f & Hf & _). inversion Hf.
  - cbn [bucle_rango]. rewrite salida_bind.
    destruct (analogos_mes df fecha) as [|r rs] eqn:Em.
    + assert (Hnone : salida (preparar_datos_fecha df fecha) = inr None).
      { apply (proj1 (preparar_sin_datos df fecha)).
        unfold analogos_mes in Em. rewrite Forall_forall. intros r Hr Hen.
        apply es_mismo_mes_en_mes in Hen.
        assert (Hin : r ∈ filter (fun r => es_mismo_mes fecha r = true)
                            (filas df))
          by (apply list_elem_of_filter; split; assumption).
        rewrite Em in Hin. inversion Hin. }
      rewrite Hnone. apply IH.
      destruct Hex as (f & Hf & Hne). exists f. split; [|exact Hne].
      apply elem_of_cons in Hf as [->|Hf]; [|exact Hf].
      rewrite Em in Hne. contradiction.
    + destruct (preparar_sin_columna df fecha) as [Hk _].
      { rewrite Em. discriminate. }
      rewrite (Hk Ht). reflexivity.
Qed.

(** X8. A missing [tavg] column aborts range aggregation: if some day of
    the range has rows of its month in the historical table, the
    KeyError of synthesis escapes and no result is returned, also for
    the days processed before. *)
Theorem generar_pronostico_rango_sin_tavg (df : DataFrame)
    (caracteristicas : list string) (fecha_inicio fecha_fin fecha : Fecha) :
  "tavg" ∉ columns df ->
  (fecha_inicio <= fecha <= fecha_fin)%Z ->
  analogos_mes df fecha <> [] ->
  salida (generar_pronostico_rango df caracteristicas fecha_inicio fecha_fin)
  = inl (KeyError "tavg").
Proof.
  intros Ht Hr Hm. unfold generar_pronostico_rango.
  apply bucle_rango_sin_tavg; [exact Ht|].
  exists fecha. split; [apply date_range_elem; exact Hr|exact Hm].
Qed.

(** X9. In every synthesized vector the calendar features are those of
    the target date: its month, its day of the year, its weekday (0 is
    Monday) and [(month % 12 + 3) // 3].  The wind components are the
    sine and cosine of the mean wind direction when the historical table
    has a [wdir] column (null when that mean is null), and both 0 when
    it has none. *)
Theorem preparar_datos_fecha_calendario (df : DataFrame) (fecha : Fecha)
    (v : Vector) :
  salida (preparar_datos_fecha df fecha) = inr (Some v) ->
  v !! "month" = Some (Some (inject_Z (month fecha))) /\
  v !! "day_of_year" = Some (Some (inject_Z (tm_yday fecha))) /\
  v !! "day_of_week" = Some (Some (inject_Z (weekday fecha))) /\
  v !! "season" = Some (Some (inject_Z (season (month fecha)))) /\
  (if decide ("wdir" ∈ columns df)
   then exists wdir, v !! "wdir" = Some wdir /\
                     v !! "wdir_sin" = Some (np_sin_radians <$> wdir) /\
                     v !! "wdir_cos" = Some (np_cos_radians <$> wdir)
   else v !! "wdir" = None /\
        v !! "wdir_sin" = Some (Some 0%Q) /\
        v !! "wdir_cos" = Some (Some 0%Q)).
Proof.
  unfold preparar_datos_fecha.
  destruct (length (datos_similares df fecha) =? 0)%nat.
  - rewrite salida_bind_print, salida_ret. discriminate.
  - set (sim := rellenar_nulos _).
    assert (Hcols : columns sim = columns df)
      by (unfold sim; rewrite rellenar_nulos_columns; reflexivity).
    assert (Hw : if decide ("wdir" ∈ columns df)
                 then is_Some (promedios sim !! "wdir")
                 else promedios sim !! "wdir" = None).
    { destruct (decide ("wdir" ∈ columns df)) as [Hin|Hnin].
      - apply promedios_lookup; [rewrite Hcols; exact Hin|discriminate].
      - apply promedios_lookup_None. rewrite Hcols. exact Hnin. }
    set (w := promedios sim) in *. clearbody w. clear sim Hcols.
    rewrite salida_bind.
    destruct (salida (completar fecha w)) as [e|v'] eqn:E; [discriminate|].
    rewrite salida_ret. intros H. inversion H; subst v'. clear H.
    revert E. unfold completar, leer_columna. cbv zeta.
    match goal with |- context [?m !! "tavg"] =>
      destruct (m !! "tavg") as [tavg|] eqn:Etavg end;
      [|rewrite bind_raise; discriminate].
    rewrite bind_ret.
    match goal with |- context [?m !! "prcp"] =>
      destruct (m !! "prcp") as [prcp|] eqn:Eprcp end;
      [|rewrite bind_raise; discriminate].
    rewrite bind_ret.
    rewrite !lookup_insert_ne by discriminate.
    destruct (decide ("wdir" ∈ columns df)) as [Hin|Hnin].
    + destruct Hw as [wdir Hwdir]. rewrite Hwdir.
      simpl. intros H; inversion H; subst v; clear H.
      repeat split; try (by simplify_map_eq).
      exists wdir. repeat split; by simplify_map_eq.
    + rewrite Hw. simpl. intros H; inversion H; subst v; clear H.
      repeat split; by simplify_map_eq.
Qed.

(** *** More on the prediction invoker *)

(** The two results of the prediction invoker go together. *)
Lemma predecir_forma (caracteristicas : list string) (df_datos : Vector) :
  exists r,
    salida (predecir_probabilidad_lluvia caracteristicas df_datos) = inr r /\
    (r = (None, None) \/ exists label p, r = (Some label, Some p)).
Proof.
  unfold predecir_probabilidad_lluvia.
  match goal with |- context [try_except ?m ?h] =>
    rewrite (salida_try_except m h); set (cuerpo := m) end.
  destruct (salida cuerpo) as [e|r] eqn:E.
  - rewrite salida_bind_print, salida_ret. eexists.
    split; [reflexivity|]. left. reflexivity.
  - exists r. split; [reflexivity|]. revert E. unfold cuerpo.
    destruct (missing_features caracteristicas df_datos) as [|f l].
    + rewrite !salida_bind.
      repeat (match goal with
              | |- context [match salida ?m with _ => _ end] =>
                  destruct (salida m) as [?|?]; [discriminate|];
                  try rewrite !salida_bind
              end).
      rewrite salida_ret. intros H. inversion H. right. eauto.
    + rewrite salida_bind_print, salida_ret. intros H. inversion H.
      left. reflexivity.
Qed.

(** X10. For every feature list and vector the prediction invoker
    returns, and its two results go together: both are None, or both are
    present. *)
Theorem predecir_par (caracteristicas : list string) (df_datos : Vector) :
  exists r,
    salida (predecir_probabilidad_lluvia caracteristicas df_datos) = inr r /\
    (r = (None, None) \/ exists label p, r = (Some label, Some p)).
Proof.
  exact (predecir_forma caracteristicas df_datos).
Qed.

(** X11. With all required features present, the scaler receives the
    values of the features in the order of the required list.  If the
    scaler raises, the classifier is not called; if [predict_proba]
    raises, or answers rows with fewer than two columns, [predict] is
    not called.  In each of these cases the exception is printed and
    (None, None) is returned. *)
Theorem predecir_orden_de_llamadas
    (caracteristicas : list string) (df_datos : Vector) :
  (forall feat, feat ∈ caracteristicas -> is_Some (df_datos !! feat)) ->
  let X := map (fun c => mjoin (df_datos !! c)) caracteristicas in
  match escalador_transform X with
  | inl e =>
      predecir_probabilidad_lluvia caracteristicas df_datos
      = ([LlamaTransform X; Imprime (MsgErrorPrediccion e)],
         inr (None, None))
  | inr X_scaled =>
      match modelo_predict_proba X_scaled with
      | inl e =>
          predecir_probabilidad_lluvia caracteristicas df_datos
          = ([LlamaTransform X; LlamaPredictProba;
              Imprime (MsgErrorPrediccion e)],
             inr (None, None))
      | inr proba =>
          (Exists (fun fila => (length fila < 2)%nat) proba \/ proba = []) ->
          predecir_probabilidad_lluvia caracteristicas df_datos
          = ([LlamaTransform X; LlamaPredictProba;
              Imprime (MsgErrorPrediccion IndexError)],
             inr (None, None))
      end
  end.
Proof.
  intros Hall X. unfold predecir_probabilidad_lluvia.
  rewrite (missing_features_nil _ _ Hall).
  rewrite (seleccionar_presentes _ _ Hall), bind_ret. fold X.
  unfold llamar.
  destruct (escalador_transform X) as [e|X_scaled]; [reflexivity|].
  rewrite bind_inr.
  destruct (modelo_predict_proba X_scaled) as [e|proba]; [reflexivity|].
  rewrite bind_inr. intros Hcorta.
  assert (Hidx : (exists col, columna_1 proba = ([], inr col) /\ col = [])
                 \/ columna_1 proba = ([], inl IndexError)).
  { destruct Hcorta as [Hex | ->]; [|left; exists []; split; reflexivity].
    right. induction Hex as [fila resto Hlen|fila resto Hex IH].
    - simpl. unfold indice.
      rewrite (lookup_ge_None_2 fila 1) by lia. reflexivity.
    - simpl. unfold indice. destruct (fila !! 1%nat) as [x|]; [|reflexivity].
      rewrite bind_ret, IH. reflexivity. }
  destruct Hidx as [(col & Hc & ->)|Hc]; rewrite Hc.
  - rewrite bind_inr. reflexivity.
  - reflexivity.
Qed.

(** *** More on interpretation *)

Lemma Qltb_mono (p q t : Q) :
  (p <= q)%Q -> Qltb q t = true -> Qltb p t = true.
Proof.
  intros Hle Hq. apply Qltb_true. apply Qltb_true in Hq.
  exact (Qle_lt_trans _ _ _ Hle Hq).
Qed.

(** X12. The band grows with the probability: for any two numbers
    [p <= q], in or out of the range from 0 to 100, the band of [p] is
    not above the band of [q], and neither is the undetermined one. *)
Theorem interpretar_probabilidad_monotona (p q : Q) :
  (p <= q)%Q ->
  (nivel_banda (interpretar_probabilidad (Some p))
   <= nivel_banda (interpretar_probabilidad (Some q)))%nat /\
  (nivel_banda (interpretar_probabilidad (Some q)) <= 4)%nat.
Proof.
  intros Hle. unfold interpretar_probabilidad.
  pose proof (Qltb_mono p q 20 Hle) as H20.
  pose proof (Qltb_mono p q 40 Hle) as H40.
  pose proof (Qltb_mono p q 60 Hle) as H60.
  pose proof (Qltb_mono p q 80 Hle) as H80.
  destruct (Qltb q 20); [rewrite (H20 eq_refl); split; vm_compute; lia|].
  destruct (Qltb q 40);
    [rewrite (H40 eq_refl); destruct (Qltb p 20); split; vm_compute; lia|].
  destruct (Qltb q 60);
    [rewrite (H60 eq_refl); destruct (Qltb p 20), (Qltb p 40);
     split; vm_compute; lia|].
  destruct (Qltb q 80);
    [rewrite (H80 eq_refl); destruct (Qltb p 20), (Qltb p 40), (Qltb p 60);
     split; vm_compute; lia|].
  destruct (Qltb p 20), (Qltb p 40), (Qltb p 60), (Qltb p 80);
    split; vm_compute; lia.
Qed.

(** *** More on range aggregation *)

(** X13. With the end before the start, range aggregation does nothing:
    no day is synthesized, nothing is printed or called, and the result
    is the empty list. *)
Theorem generar_pronostico_rango_invertido (df : DataFrame)
    (caracteristicas : list string) (fecha_inicio fecha_fin : Fecha) :
  (fecha_fin < fecha_inicio)%Z ->
  generar_pronostico_rango df caracteristicas fecha_inicio fecha_fin
  = ([], inr []).
Proof.
  intros Hlt. unfold generar_pronostico_rango, date_range.
  replace (Z.to_nat (fecha_fin - fecha_inicio + 1)) with 0%nat by lia.
  reflexivity.
Qed.

Lemma map_seq_desde {A} (len : nat) :
  forall (f : nat -> A) (start : nat),
    map f (seq start len) = map (fun k => f (start + k)%nat) (seq 0 len).
Proof.
  induction len as [|len IH]; intros f start; [reflexivity|].
  simpl. rewrite Nat.add_0_r. f_equal.
  rewrite (IH f (S start)), (IH (fun k => f (start + k)%nat) 1%nat).
  apply map_ext. intros k. f_equal. lia.
Qed.

Lemma date_range_app (a b c : Fecha) :
  (a <= b + 1)%Z -> (b <= c)%Z ->
  date_range a c = date_range a b ++ date_range (b + 1)%Z c.
Proof.
  intros Hab Hbc. unfold date_range.
  replace (Z.to_nat (c - a + 1))
    with (Z.to_nat (b - a + 1) + Z.to_nat (c - (b + 1) + 1))%nat by lia.
  rewrite seq_app, map_app. f_equal.
  rewrite map_seq_desde. apply map_ext. intros k. lia.
Qed.

(** X14. Range aggregation composes: for a table with the columns of
    the schema, the results of a range are the results of its first part
    followed by those of the rest, and so is the trace. *)
Theorem generar_pronostico_rango_compone (df : DataFrame)
    (caracteristicas : list string) (fecha_inicio medio fecha_fin : Fecha) :
  esquema_minimo df ->
  (fecha_inicio <= medio + 1)%Z -> (medio <= fecha_fin)%Z ->
  exists t1 r1 t2 r2,
    generar_pronostico_rango df caracteristicas fecha_inicio medio
    = (t1, inr r1) /\
    generar_pronostico_rango df caracteristicas (medio + 1)%Z fecha_fin
    = (t2, inr r2) /\
    generar_pronostico_rango df caracteristicas fecha_inicio fecha_fin
    = (t1 ++ t2, inr (r1 ++ r2)).
Proof.
  intros Hesq H1 H2. unfold generar_pronostico_rango.
  rewrite !(bucle_rango_dias _ _ Hesq).
  rewrite (date_range_app fecha_inicio medio fecha_fin H1 H2).
  do 4 eexists. split; [reflexivity|]. split; [reflexivity|].
  rewrite flat_map_app, omap_app. reflexivity.
Qed.

Lemma resultado_dia_coherente (df : DataFrame)
    (caracteristicas : list string) (fecha : Fecha) (r : Resultado) :
  resultado_dia df caracteristicas fecha = Some r ->
  resultado_coherente r /\ r_fecha r = strftime fecha.
Proof.
  unfold resultado_dia.
  destruct (salida (preparar_datos_fecha df fecha)) as [e|[v|]];
    try discriminate.
  destruct (predecir_forma caracteristicas v) as (pp & Hpp & Hforma).
  rewrite Hpp. intros H. inversion H; subst r. clear H.
  unfold resultado_coherente. simpl.
  destruct Hforma as [->|(label & p & ->)]; simpl.
  - repeat split; [right; reflexivity|discriminate].
  - repeat split; [|intros _; eexists; reflexivity].
    unfold etiqueta. destruct label as [|[| |]|]; auto.
Qed.

(** X15. For a table with the columns of the schema, range aggregation
    returns, and every result is coherent: its date is a day of the
    range, its label is "Lluvia" or "No lluvia", its interpretation is
    that of its own probability, and a result labelled "Lluvia" has a
    probability. *)
Theorem generar_pronostico_rango_coherente (df : DataFrame)
    (caracteristicas : list string) (fecha_inicio fecha_fin : Fecha) :
  esquema_minimo df ->
  exists resultados,
    salida (generar_pronostico_rango df caracteristicas
              fecha_inicio fecha_fin) = inr resultados /\
    Forall (fun r =>
              resultado_coherente r /\
              exists f, (fecha_inicio <= f <= fecha_fin)%Z /\
                        r_fecha r = strftime f)
      resultados.
Proof.
  intros Hesq. unfold generar_pronostico_rango.
  rewrite (bucle_rango_dias _ _ Hesq).
  eexists. split; [reflexivity|]. simpl.
  rewrite Forall_forall. intros r Hr.
  apply list_elem_of_omap in Hr as (f & Hf & Hres).
  destruct (resultado_dia_coherente _ _ _ _ Hres) as [Hco Hfe].
  split; [exact Hco|]. exists f. split; [|exact Hfe].
  apply date_range_elem. exact Hf.
Qed.

(** *** More on the monthly analysis *)

Lemma days_in_month_rango (y m : Z) :
  (28 <= days_in_month y m <= 31)%Z.
Proof.
  unfold days_in_month.
  destruct (m =? 2)%Z; [destruct (is_leap y); lia|].
  destruct ((m =? 4) || (m =? 6) || (m =? 9) || (m =? 11))%Z; lia.
Qed.

Lemma cabe_en_int_rango (z : Z) :
  (-2147483648 <= z <= 2147483647)%Z -> cabe_en_int z = true.
Proof.
  intros H. unfold cabe_en_int. apply andb_true_iff.
  split; apply Z.leb_le; lia.
Qed.

Lemma Timestamp_valido (y m d : Z) :
  (1 <= y <= 9999)%Z -> (1 <= m <= 12)%Z ->
  (1 <= d <= days_in_month y m)%Z ->
  Timestamp y m d = mret (ymd2ord y m d).
Proof.
  intros Hy Hm Hd. pose proof (days_in_month_rango y m) as Hdm.
  unfold Timestamp.
  rewrite !cabe_en_int_rango by lia. cbn [andb negb].
  replace (1 <=? y)%Z with true by (symmetry; apply Z.leb_le; lia).
  replace (y <=? 9999)%Z with true by (symmetry; apply Z.leb_le; lia).
  replace (1 <=? m)%Z with true by (symmetry; apply Z.leb_le; lia).
  replace (m <=? 12)%Z with true by (symmetry; apply Z.leb_le; lia).
  replace (1 <=? d)%Z with true by (symmetry; apply Z.leb_le; lia).
  replace (d <=? days_in_month y m)%Z with true
    by (symmetry; apply Z.leb_le; lia).
  reflexivity.
Qed.

Lemma Timestamp_invalido (y m d : Z) :
  cabe_en_int y = true -> cabe_en_int m = true -> cabe_en_int d = true ->
  (y < 1 \/ 9999 < y \/ m < 1 \/ 12 < m)%Z ->
  Timestamp y m d = raise ValueError.
Proof.
  intros Cy Cm Cd H. unfold Timestamp. rewrite Cy, Cm, Cd. cbn [andb negb].
  destruct (1 <=? y)%Z eqn:E1; [|reflexivity].
  destruct (y <=? 9999)%Z eqn:E2; [|reflexivity].
  destruct (1 <=? m)%Z eqn:E3; [|reflexivity].
  destruct (m <=? 12)%Z eqn:E4; [|reflexivity].
  apply Z.leb_le in E1, E2, E3, E4. lia.
Qed.

Lemma Timestamp_desborda (y m d : Z) :
  cabe_en_int y && cabe_en_int m && cabe_en_int d = false ->
  Timestamp y m d = raise (OtraExcepcion "OverflowError").
Proof. intros H. unfold Timestamp. rewrite H. reflexivity. Qed.

(** X16. For a month from 1 to 12 of a year from 1678 to 2261, the
    monthly analysis is range aggregation from the first to the last day
    of the month, and it goes through as many days as the month has: 28
    to 31, and for February 29 in a leap year and 28 otherwise. *)
Theorem analisis_mensual_dias (df : DataFrame)
    (caracteristicas : list string) (anio mes : Z) :
  (1678 <= anio <= 2261)%Z -> (1 <= mes <= 12)%Z ->
  analisis_mensual df caracteristicas anio mes
  = generar_pronostico_rango df caracteristicas
      (ymd2ord anio mes 1) (ymd2ord anio mes (days_in_month anio mes)) /\
  length (date_range (ymd2ord anio mes 1)
            (ymd2ord anio mes (days_in_month anio mes)))
  = Z.to_nat (days_in_month anio mes) /\
  (28 <= days_in_month anio mes <= 31)%Z /\
  days_in_month anio 2 = (if is_leap anio then 29 else 28)%Z.
Proof.
  intros Hy Hm. pose proof (days_in_month_rango anio mes) as Hd.
  split; [|split; [|split; [exact Hd|reflexivity]]].
  - unfold analisis_mensual. cbv zeta.
    rewrite !Timestamp_valido by lia. rewrite !bind_ret. reflexivity.
  - rewrite date_range_length. unfold ymd2ord. f_equal. lia.
Qed.

(** The monthly analysis and its callers on a month outside 1..12. *)
Lemma mes_invalido (df : DataFrame)
    (caracteristicas : list string) (anio mes : Z) :
  (mes < 1 \/ 12 < mes)%Z ->
  analisis_mensual df caracteristicas anio mes
  = ([], inl (if cabe_en_int anio && cabe_en_int mes then ValueError
              else OtraExcepcion "OverflowError")) /\
  cli_mes df caracteristicas anio mes = ([Imprime MsgErrorMes], inr tt) /\
  interactiva_mes df caracteristicas anio mes
  = ([Imprime MsgErrorMes], inr tt).
Proof.
  intros Hm.
  assert (Hg : ((mes <? 1) || (12 <? mes))%Z = true).
  { apply orb_true_iff. destruct Hm; [left; apply Z.ltb_lt|right; apply Z.ltb_lt];
      assumption. }
  split; [|split].
  - unfold analisis_mensual.
    destruct (cabe_en_int anio && cabe_en_int mes) eqn:Hc.
    + apply andb_true_iff in Hc as [Hca Hcm].
      rewrite (Timestamp_invalido anio mes 1 Hca Hcm eq_refl) by lia.
      reflexivity.
    + rewrite (Timestamp_desborda anio mes 1)
        by (rewrite Hc; reflexivity).
      reflexivity.
  - unfold cli_mes. rewrite Hg. reflexivity.
  - unfold interactiva_mes, cli_mes. rewrite Hg. reflexivity.
Qed.

(** X17. A month number below 1 or above 12 is rejected before any
    synthesis.  Both front ends print the month error and return without
    calling the monthly analysis, whatever the year.  The monthly
    analysis itself raises without doing anything: ValueError when the
    year and the month fit a C int, OverflowError when one of them does
    not. *)
Theorem mes_fuera_de_rango (df : DataFrame)
    (caracteristicas : list string) (anio mes : Z) :
  (mes < 1 \/ 12 < mes)%Z ->
  analisis_mensual df caracteristicas anio mes
  = ([], inl (if cabe_en_int anio && cabe_en_int mes then ValueError
              else OtraExcepcion "OverflowError")) /\
  cli_mes df caracteristicas anio mes = ([Imprime MsgErrorMes], inr tt) /\
  interactiva_mes df caracteristicas anio mes
  = ([Imprime MsgErrorMes], inr tt).
Proof.
  exact (mes_invalido df caracteristicas anio mes).
Qed.

(** X18. A year below 1 or above 9999 with a month from 1 to 12 passes
    the month test and fails when the first day of the month is built;
    no day is synthesized.  When the year fits a C int the failure is a
    ValueError: the command-line branch lets it escape, the menu catches
    it and prints its "numeric values" error.  When the year does not
    fit a C int the failure is an OverflowError, which escapes from the
    command-line branch and from the menu alike (line 353 catches
    ValueError only). *)
Theorem anio_fuera_de_rango (df : DataFrame)
    (caracteristicas : list string) (anio mes : Z) :
  (anio < 1 \/ 9999 < anio)%Z -> (1 <= mes <= 12)%Z ->
  (cabe_en_int anio = true ->
   cli_mes df caracteristicas anio mes = ([], inl ValueError) /\
   interactiva_mes df caracteristicas anio mes
   = ([Imprime MsgErrorValores], inr tt)) /\
  (cabe_en_int anio = false ->
   cli_mes df caracteristicas anio mes
   = ([], inl (OtraExcepcion "OverflowError")) /\
   interactiva_mes df caracteristicas anio mes
   = ([], inl (OtraExcepcion "OverflowError"))).
Proof.
  intros Hy Hm.
  assert (Hg : ((mes <? 1) || (12 <? mes))%Z = false).
  { apply orb_false_iff. split; apply Z.ltb_ge; lia. }
  split; intros Hc.
  - assert (Hcli : cli_mes df caracteristicas anio mes
                   = ([], inl ValueError)).
    { unfold cli_mes. rewrite Hg. unfold analisis_mensual.
      rewrite (Timestamp_invalido anio mes 1 Hc
                 (cabe_en_int_rango mes ltac:(lia)) eq_refl) by lia.
      reflexivity. }
    split; [exact Hcli|]. unfold interactiva_mes. rewrite Hcli. reflexivity.
  - assert (Hcli : cli_mes df caracteristicas anio mes
                   = ([], inl (OtraExcepcion "OverflowError"))).
    { unfold cli_mes. rewrite Hg. unfold analisis_mensual.
      rewrite (Timestamp_desborda anio mes 1)
        by (rewrite Hc; reflexivity).
      reflexivity. }
    split; [exact Hcli|]. unfold interactiva_mes. rewrite Hcli. reflexivity.
Qed.

(** X19. A month for which range aggregation returns no result makes the
    monthly report divide by zero: after the table header and the
    summary title, both front ends end in ZeroDivisionError (line 249
    and line 348); the menu does not catch it. *)
Theorem mes_sin_resultados (df : DataFrame)
    (caracteristicas : list string) (anio mes : Z) :
  salida (analisis_mensual df caracteristicas anio mes) = inr [] ->
  salida (cli_mes df caracteristicas anio mes) = inl ZeroDivisionError /\
  salida (interactiva_mes df caracteristicas anio mes)
  = inl ZeroDivisionError /\
  informe_mensual []
  = ([Imprime MsgEncabezado; Imprime MsgResumen], inl ZeroDivisionError).
Proof.
  intros Hvacio.
  assert (Hg : ((mes <? 1) || (12 <? mes))%Z = false).
  { destruct ((mes <? 1) || (12 <? mes))%Z eqn:E; [|reflexivity].
    apply orb_true_iff in E. exfalso.
    assert (Hm : (mes < 1 \/ 12 < mes)%Z)
      by (destruct E as [E|E]; apply Z.ltb_lt in E; lia).
    destruct (mes_invalido df caracteristicas anio mes Hm) as [Ha _].
    rewrite Ha in Hvacio. discriminate. }
  assert (Hcli : salida (cli_mes df caracteristicas anio mes)
                 = inl ZeroDivisionError).
  { unfold cli_mes. rewrite Hg, salida_bind, Hvacio. reflexivity. }
  split; [exact Hcli|]. split; [|reflexivity].
  unfold interactiva_mes. rewrite salida_try_except, Hcli. reflexivity.
Qed.

Lemma imprimir_filas_completo (resultados : list Resultado) :
  forall xs : list Q,
    map r_probabilidad resultados = map Some xs ->
    imprimir_filas resultados
    = (zip_with (fun r p => Imprime (MsgFila r p)) resultados xs, inr tt).
Proof.
  induction resultados as [|r rs IH]; intros [|x xs] H; simpl in H;
    try discriminate; [reflexivity|].
  inversion H as [[Hr Hrs]]. simpl. rewrite Hr, bind_print.
  rewrite (IH xs Hrs). reflexivity.
Qed.

(** X20. When the results of a month all have a probability (and there
    is at least one), the monthly report prints the header, one line per
    result in order, and a summary computed over exactly these results:
    the count of "Lluvia" labels, its share of the number of results,
    the sum of the probabilities divided by the number of results, and
    their maximum and minimum.  It raises nothing. *)
Theorem informe_mensual_completo (resultados : list Resultado)
    (x : Q) (xs : list Q) :
  map r_probabilidad resultados = map Some (x :: xs) ->
  informe_mensual resultados
  = (Imprime MsgEncabezado
     :: zip_with (fun r p => Imprime (MsgFila r p)) resultados (x :: xs)
     ++ [Imprime MsgResumen;
         Imprime (MsgDiasLluvia (contar_lluvia resultados)
                    (length resultados)
                    (Qnat (contar_lluvia resultados)
                     / Qnat (length resultados) * 100)%Q);
         Imprime (MsgProbMedia
                    (Qsum (x :: xs) / Qnat (length resultados))%Q);
         Imprime (MsgProbMaxima (Qmax_lista x xs));
         Imprime (MsgProbMinima (Qmin_lista x xs))],
     inr tt).
Proof.
  intros Hp. unfold informe_mensual.
  rewrite bind_print, (imprimir_filas_completo _ _ Hp), bind_inr.
  rewrite (resumen_mensual_completo _ _ _ Hp). reflexivity.
Qed.

(** *** The front ends *)

Lemma i_bind_inr {A B} (t : list evento_interfaz) (a : A)
    (k : A -> Interfaz B) :
  i_bind ((t, inr a) : Interfaz A) k = (t ++ fst (k a), snd (k a)).
Proof. unfold i_bind. destruct (k a); reflexivity. Qed.

Lemma i_bind_inl {A B} (t : list evento_interfaz) (e : excepcion)
    (k : A -> Interfaz B) :
  i_bind ((t, inl e) : Interfaz A) k = (t, inl e).
Proof. reflexivity. Qed.

Lemma i_bind_ret {A B} (a : A) (k : A -> Interfaz B) :
  i_bind (i_ret a) k = k a.
Proof. unfold i_ret. rewrite i_bind_inr. destruct (k a); reflexivity. Qed.

Lemma i_bind_muestra {B} (m : mensaje_interfaz) (k : unit -> Interfaz B) :
  i_bind (muestra m) k = (Muestra m :: fst (k tt), snd (k tt)).
Proof. unfold muestra. rewrite i_bind_inr. reflexivity. Qed.

Lemma i_bind_pide {B} (k : unit -> Interfaz B) :
  i_bind pide k = (Pide :: fst (k tt), snd (k tt)).
Proof. unfold pide. rewrite i_bind_inr. reflexivity. Qed.

Lemma snd_i_bind {A B} (m : Interfaz A) (k : A -> Interfaz B) :
  snd (i_bind m k)
  = match snd m with
    | inl e => inl e
    | inr a => snd (k a)
    end.
Proof.
  destruct m as [t [e|a]]; [reflexivity|]. rewrite i_bind_inr. reflexivity.
Qed.

Lemma snd_i_try {A} (m : Interfaz A) (h : excepcion -> Interfaz A) :
  snd (i_try m h)
  = match snd m with
    | inl e => snd (h e)
    | inr a => inr a
    end.
Proof.
  destruct m as [t [e|a]]; [|reflexivity]. simpl. destruct (h e); reflexivity.
Qed.

Lemma i_try_inl {A} (t : list evento_interfaz) (e : excepcion)
    (h : excepcion -> Interfaz A) :
  i_try ((t, inl e) : Interfaz A) h = (t ++ fst (h e), snd (h e)).
Proof. unfold i_try. destruct (h e); reflexivity. Qed.

Lemma i_eta {A} (m : Interfaz A) : m = (fst m, snd m).
Proof. destruct m; reflexivity. Qed.

(** The loader, by the first load that fails. *)
Lemma cargar_modelo_casos {Modelo Escalador : Type}
    (carga_modelo : excepcion + Modelo)
    (carga_escalador : excepcion + Escalador)
    (carga_caracteristicas : excepcion + list string) :
  cargar_modelo carga_modelo carga_escalador carga_caracteristicas
  = match primera_excepcion carga_modelo carga_escalador
            carga_caracteristicas with
    | None =>
        match carga_modelo, carga_escalador, carga_caracteristicas with
        | inr m, inr e, inr c => ([], inr (Some (m, e, c)))
        | _, _, _ => ([], inr None)
        end
    | Some FileNotFoundError => ([Muestra MsgModeloNoEncontrado], inr None)
    | Some e => ([], inl e)
    end.
Proof.
  unfold cargar_modelo, primera_excepcion, externo.
  destruct carga_modelo as [e|m]; [destruct e; reflexivity|].
  destruct carga_escalador as [e|es]; [destruct e; reflexivity|].
  destruct carga_caracteristicas as [e|c]; [destruct e; reflexivity|].
  reflexivity.
Qed.

(** X21. Loading the model: with the three files loaded the triple is
    returned and nothing is printed.  Otherwise the first load that
    fails decides: FileNotFoundError prints the message of lines 17-18
    and gives the (None, None, None) result; any other exception
    escapes. *)
Theorem cargar_modelo_resultado {Modelo Escalador : Type}
    (carga_modelo : excepcion + Modelo)
    (carga_escalador : excepcion + Escalador)
    (carga_caracteristicas : excepcion + list string) :
  cargar_modelo carga_modelo carga_escalador carga_caracteristicas
  = match primera_excepcion carga_modelo carga_escalador
            carga_caracteristicas with
    | None =>
        match carga_modelo, carga_escalador, carga_caracteristicas with
        | inr m, inr e, inr c => ([], inr (Some (m, e, c)))
        | _, _, _ => ([], inr None)
        end
    | Some FileNotFoundError => ([Muestra MsgModeloNoEncontrado], inr None)
    | Some e => ([], inl e)
    end.
Proof.
  exact (cargar_modelo_casos carga_modelo carga_escalador carga_caracteristicas).
Qed.

(** X22. Without the model files the command line stops after the
    message of the loader, and without the historical table it stops
    after what the cleaner printed: whatever was asked, no date is
    synthesized and no prediction is made. *)
Theorem interfaz_linea_comandos_sin_artefactos
    (carga_modelo carga_escalador : excepcion + unit)
    (carga_caracteristicas : excepcion + list string)
    (lectura : excepcion + DataFrame) (args : argumentos) :
  (primera_excepcion carga_modelo carga_escalador carga_caracteristicas
   = Some FileNotFoundError ->
   interfaz_linea_comandos carga_modelo carga_escalador
     carga_caracteristicas lectura args
   = ([Muestra MsgModeloNoEncontrado], inr tt)) /\
  (primera_excepcion carga_modelo carga_escalador carga_caracteristicas
   = None ->
   salida (cargar_datos_historicos lectura) = inr None ->
   interfaz_linea_comandos carga_modelo carga_escalador
     carga_caracteristicas lectura args
   = (map Nucleo (traza (cargar_datos_historicos lectura)), inr tt)).
Proof.
  unfold interfaz_linea_comandos. split.
  - intros Hp. rewrite cargar_modelo_casos, Hp. reflexivity.
  - intros Hp Hdatos. rewrite cargar_modelo_casos, Hp.
    destruct carga_modelo as [|m]; [discriminate|].
    destruct carga_escalador as [|e]; [discriminate|].
    destruct carga_caracteristicas as [|c]; [discriminate|].
    rewrite i_bind_inr. unfold nucleo. rewrite Hdatos, i_bind_inr.
    simpl. rewrite app_nil_r. reflexivity.
Qed.

(** The range branch on an inverted range. *)
Lemma cli_rango_fin_antes (df : DataFrame) (caracteristicas : list string)
    (fecha_inicio fecha_fin : Fecha) :
  (fecha_fin < fecha_inicio)%Z ->
  cli_rango df caracteristicas (inr fecha_inicio) (inr fecha_fin)
  = ([Muestra MsgErrorRango], inr tt).
Proof.
  intros Hlt. unfold cli_rango, externo.
  rewrite !i_bind_inr. apply Z.ltb_lt in Hlt. rewrite Hlt. reflexivity.
Qed.

(** X23. A range whose start is after its end is rejected before any
    synthesis: the range branch prints the range error and returns, and
    its trace has no event of the core. *)
Theorem cli_rango_invertido (df : DataFrame) (caracteristicas : list string)
    (fecha_inicio fecha_fin : Fecha) :
  (fecha_fin < fecha_inicio)%Z ->
  cli_rango df caracteristicas (inr fecha_inicio) (inr fecha_fin)
  = ([Muestra MsgErrorRango], inr tt).
Proof.
  exact (cli_rango_fin_antes df caracteristicas fecha_inicio fecha_fin).
Qed.

(** X24. A date text that [parse] rejects with ValueError gives the date
    format error and a normal return, in the date branch and in the
    range branch (for either of the two texts); no day is synthesized.
    An exception of [parse] that is not a ValueError escapes. *)
Theorem fecha_mal_formada (df : DataFrame) (caracteristicas : list string)
    (otra : excepcion + Fecha) (fecha : Fecha) :
  cli_fecha df caracteristicas (inl ValueError)
  = ([Muestra MsgErrorFormatoFecha], inr tt) /\
  cli_rango df caracteristicas (inl ValueError) otra
  = ([Muestra MsgErrorFormatoFecha], inr tt) /\
  cli_rango df caracteristicas (inr fecha) (inl ValueError)
  = ([Muestra MsgErrorFormatoFecha], inr tt) /\
  cli_fecha df caracteristicas (inl (OtraExcepcion "OverflowError"))
  = ([], inl (OtraExcepcion "OverflowError")).
Proof. repeat split; reflexivity. Qed.

(** X25. A date whose synthesis gives a vector and whose prediction
    fails: the date branch of the command line prints the date and the
    label "No lluvia" and then raises TypeError (line 202 formats the
    absent probability), which nothing catches; option 1 of the menu
    tests for the absent probability (line 291), prints that it is not
    available, prints the interpretation and returns. *)
Theorem fecha_prediccion_fallida (df : DataFrame)
    (caracteristicas : list string) (fecha : Fecha) (v : Vector)
    (l : linea) :
  salida (preparar_datos_fecha df fecha) = inr (Some v) ->
  salida (predecir_probabilidad_lluvia caracteristicas v)
  = inr (None, None) ->
  como_fecha l = inr fecha ->
  cli_fecha df caracteristicas (inr fecha)
  = (map Nucleo (traza (preparar_datos_fecha df fecha))
     ++ map Nucleo (traza (predecir_probabilidad_lluvia caracteristicas v))
     ++ [Muestra (MsgPrediccionPara (strftime fecha));
         Muestra (MsgResultado "No lluvia")],
     inl TypeError) /\
  menu_fecha df caracteristicas l
  = (map Nucleo (traza (preparar_datos_fecha df fecha))
     ++ map Nucleo (traza (predecir_probabilidad_lluvia caracteristicas v))
     ++ [Muestra (MsgPrediccionPara (strftime fecha));
         Muestra (MsgResultado "No lluvia");
         Muestra MsgProbabilidadNoDisponible;
         Muestra (MsgInterpretacion "No se pudo determinar")],
     inr tt).
Proof.
  intros Hprep Hpred Hl. unfold cli_fecha, menu_fecha, externo, nucleo.
  rewrite Hl, !i_bind_inr, Hprep, !i_bind_inr, Hpred, !i_bind_inr.
  cbn [fst snd etiqueta]. rewrite !i_bind_muestra.
  cbn [fst snd i_raise i_bind muestra i_try solo_ValueError app
       interpretar_probabilidad].
  rewrite !app_nil_r. split; reflexivity.
Qed.

Ltac snd_i_bind_paso :=
  match goal with
  | |- context [snd (i_bind ?m ?k)] => rewrite (snd_i_bind m k)
  end.

Lemma imprimir_filas_traza_salida (resultados : list Resultado)
    (r : Resultado) :
  r ∈ resultados -> r_probabilidad r = None ->
  snd (nucleo (imprimir_filas resultados)) = inl TypeError.
Proof.
  intros Hin Hnone. unfold nucleo. cbn [snd].
  exact (imprimir_filas_sin_probabilidad resultados r Hin Hnone).
Qed.

(** X26. A range that has a result without a probability: the range
    branch raises TypeError while it prints the table (line 223), and
    nothing catches it.  At the menu (option 2, line 318) the same
    exception leaves the loop, with the lines still to be read
    unread. *)
Theorem rango_prediccion_fallida (df : DataFrame)
    (caracteristicas : list string) (fecha_inicio fecha_fin : Fecha)
    (resultados : list Resultado) (r : Resultado)
    (opcion a b : linea) (resto : list linea) :
  (fecha_inicio <= fecha_fin)%Z ->
  salida (generar_pronostico_rango df caracteristicas fecha_inicio
            fecha_fin) = inr resultados ->
  r ∈ resultados -> r_probabilidad r = None ->
  texto opcion = "2" ->
  como_fecha a = inr fecha_inicio -> como_fecha b = inr fecha_fin ->
  snd (cli_rango df caracteristicas (inr fecha_inicio) (inr fecha_fin))
  = inl TypeError /\
  snd (bucle_menu df caracteristicas (opcion :: a :: b :: resto))
  = inl TypeError.
Proof.
  intros Hle Hgen Hin Hnone Hop Ha Hb.
  assert (Hcli : snd (cli_rango df caracteristicas (inr fecha_inicio)
                        (inr fecha_fin)) = inl TypeError).
  { unfold cli_rango, externo. rewrite !i_bind_inr.
    replace (fecha_fin <? fecha_inicio)%Z with false
      by (symmetry; apply Z.ltb_ge; lia).
    rewrite snd_i_try. cbn [snd]. rewrite snd_i_bind.
    unfold nucleo at 1. cbn [snd]. rewrite Hgen.
    rewrite snd_i_bind. cbn [snd muestra].
    rewrite (imprimir_filas_traza_salida resultados r Hin Hnone).
    reflexivity. }
  split; [exact Hcli|].
  cbn [bucle_menu]. rewrite Hop. cbn [String.eqb Ascii.eqb Bool.eqb].
  repeat (snd_i_bind_paso; cbn [snd muestra pide]).
  rewrite Ha, Hb, Hcli. reflexivity.
Qed.

(** X27. At the menu, option 4 prints the farewell and ends the loop
    without reading further; a text that is none of 1, 2, 3 and 4 prints
    the invalid-option message and the loop goes on with the next
    line. *)
Theorem bucle_menu_salir_o_seguir (df : DataFrame)
    (caracteristicas : list string) (opcion : linea)
    (resto : list linea) :
  (texto opcion = "4" ->
   bucle_menu df caracteristicas (opcion :: resto)
   = ([Muestra MsgMenu; Pide; Muestra MsgDespedida], inr tt)) /\
  (texto opcion <> "1" -> texto opcion <> "2" -> texto opcion <> "3" ->
   texto opcion <> "4" ->
   bucle_menu df caracteristicas (opcion :: resto)
   = ([Muestra MsgMenu; Pide; Muestra MsgOpcionNoValida]
      ++ fst (bucle_menu df caracteristicas resto),
      snd (bucle_menu df caracteristicas resto))).
Proof.
  split.
  - intros Hop. cbn [bucle_menu]. rewrite Hop. reflexivity.
  - intros H1 H2 H3 H4. cbn [bucle_menu].
    apply String.eqb_neq in H1, H2, H3, H4. rewrite H1, H2, H3, H4.
    rewrite i_bind_muestra, i_bind_pide, i_bind_muestra. reflexivity.
Qed.

Lemma snd_i_bind_inr {A B} (m : Interfaz A) (k : A -> Interfaz B) (b : B) :
  snd (i_bind m k) = inr b ->
  exists a, snd m = inr a /\ snd (k a) = inr b.
Proof.
  rewrite snd_i_bind. destruct (snd m) as [e|a]; [discriminate|].
  intros H. exists a. split; [reflexivity|exact H].
Qed.

Lemma bucle_menu_normal (df : DataFrame) (caracteristicas : list string)
    (n : nat) :
  forall script : list linea,
    (length script <= n)%nat ->
    snd (bucle_menu df caracteristicas script) = inr tt ->
    exists l, l ∈ script /\ texto l = "4".
Proof.
  induction n as [|n IH]; intros script Hlen Hfin.
  - destruct script; [|simpl in Hlen; lia]. discriminate.
  - destruct script as [|opcion resto]; [discriminate|].
    simpl in Hlen. cbn [bucle_menu] in Hfin.
    apply snd_i_bind_inr in Hfin as (_ & _ & Hfin).
    apply snd_i_bind_inr in Hfin as (_ & _ & Hfin).
    destruct (String.eqb_spec (texto opcion) "1") as [_|_].
    { destruct resto as [|l resto']; [discriminate|]. simpl in Hlen.
      apply snd_i_bind_inr in Hfin as (_ & _ & Hfin).
      apply snd_i_bind_inr in Hfin as (_ & _ & Hfin).
      destruct (IH resto') as (x & Hx & Ht); [lia|exact Hfin|].
      exists x. split; [right; right; exact Hx|exact Ht]. }
    destruct (String.eqb_spec (texto opcion) "2") as [_|_].
    { destruct resto as [|a resto1]; [discriminate|]. simpl in Hlen.
      apply snd_i_bind_inr in Hfin as (_ & _ & Hfin).
      destruct resto1 as [|b resto']; [discriminate|]. simpl in Hlen.
      apply snd_i_bind_inr in Hfin as (_ & _ & Hfin).
      apply snd_i_bind_inr in Hfin as (_ & _ & Hfin).
      destruct (IH resto') as (x & Hx & Ht); [lia|exact Hfin|].
      exists x. split; [right; right; right; exact Hx|exact Ht]. }
    destruct (String.eqb_spec (texto opcion) "3") as [_|_].
    { destruct resto as [|a resto1]; [discriminate|]. simpl in Hlen.
      apply snd_i_bind_inr in Hfin as (_ & _ & Hfin).
      destruct (como_entero a) as [e|anio].
      - apply snd_i_bind_inr in Hfin as (_ & _ & Hfin).
        destruct (IH resto1) as (x & Hx & Ht); [lia|exact Hfin|].
        exists x. split; [right; right; exact Hx|exact Ht].
      - destruct resto1 as [|b resto']; [discriminate|]. simpl in Hlen.
        apply snd_i_bind_inr in Hfin as (_ & _ & Hfin).
        apply snd_i_bind_inr in Hfin as (_ & _ & Hfin).
        destruct (IH resto') as (x & Hx & Ht); [lia|exact Hfin|].
        exists x. split; [right; right; right; exact Hx|exact Ht]. }
    destruct (String.eqb_spec (texto opcion) "4") as [H4|_].
    { exists opcion. split; [left|exact H4]. }
    apply snd_i_bind_inr in Hfin as (_ & _ & Hfin).
    destruct (IH resto) as (x & Hx & Ht); [lia|exact Hfin|].
    exists x. split; [right; exact Hx|exact Ht].
Qed.

(** X28. The menu loop returns only through option 4: if it returns,
    one of the lines of the script is "4".  A script that runs out ends
    the loop with the EOFError of [input()]. *)
Theorem bucle_menu_solo_sale_con_4 (df : DataFrame)
    (caracteristicas : list string) (script : list linea) :
  (snd (bucle_menu df caracteristicas script) = inr tt ->
   exists l, l ∈ script /\ texto l = "4") /\
  bucle_menu df caracteristicas []
  = ([Muestra MsgMenu; Pide], inl (OtraExcepcion "EOFError")).
Proof.
  split; [|reflexivity].
  apply (bucle_menu_normal df caracteristicas (length script)). lia.
Qed.

(** X29. At the menu, a range whose start is after its end prints the
    range error, synthesizes nothing, and the loop goes on with the
    next line. *)
Theorem bucle_menu_rango_invertido (df : DataFrame)
    (caracteristicas : list string) (opcion a b : linea)
    (resto : list linea) (fecha_inicio fecha_fin : Fecha) :
  texto opcion = "2" ->
  como_fecha a = inr fecha_inicio -> como_fecha b = inr fecha_fin ->
  (fecha_fin < fecha_inicio)%Z ->
  bucle_menu df caracteristicas (opcion :: a :: b :: resto)
  = ([Muestra MsgMenu; Pide; Pide; Pide; Muestra MsgErrorRango]
     ++ fst (bucle_menu df caracteristicas resto),
     snd (bucle_menu df caracteristicas resto)).
Proof.
  intros Hop Ha Hb Hlt. cbn [bucle_menu]. rewrite Hop.
  cbn [String.eqb Ascii.eqb Bool.eqb]. rewrite Ha, Hb.
  rewrite (cli_rango_fin_antes df caracteristicas _ _ Hlt).
  rewrite i_bind_muestra, !i_bind_pide, i_bind_inr. reflexivity.
Qed.
End Pipeline.

(* ===================================================================== *)
(** ** The properties on the sample data *)
(* ===================================================================== *)

(** *** Calendar *)

Example ymd2ord_2024_01_01 : ymd2ord 2024 1 1 = 738886%Z.
Proof. reflexivity. Qed.

Example ord2ymd_2024_02_29 :
  ord2ymd (ymd2ord 2024 2 29) = (2024, 2, 29)%Z /\
  ord2ymd (ymd2ord 2024 2 29 + 1)%Z = (2024, 3, 1)%Z /\
  ord2ymd (ymd2ord 2023 12 31 + 1)%Z = (2024, 1, 1)%Z.
Proof. repeat split; reflexivity. Qed.

Example strftime_2024_02_29 : strftime (ymd2ord 2024 2 29) = "2024-02-29".
Proof. vm_compute. reflexivity. Qed.

Example weekday_2024_01_01 : weekday (ymd2ord 2024 1 1) = 0%Z.
Proof. reflexivity. Qed.

Example febrero_bisiesto :
  length (date_range (ymd2ord 2024 2 1)
            (ymd2ord 2024 2 (days_in_month 2024 2))) = 29%nat /\
  length (date_range (ymd2ord 2023 2 1)
            (ymd2ord 2023 2 (days_in_month 2023 2))) = 28%nat.
Proof. split; reflexivity. Qed.

(** *** Interpretation *)

Lemma interpretar_probabilidad_bandas_witness :
  (0 <= 20)%Q /\ (20 <= 100)%Q /\ (20 <= 20)%Q /\ (20 < 40)%Q /\
  interpretar_probabilidad (Some 20%Q) = "Baja".
Proof.
  assert (H0 : (0 <= 20)%Q) by (unfold Qle; simpl; lia).
  assert (H100 : (20 <= 100)%Q) by (unfold Qle; simpl; lia).
  assert (Hlo : (20 <= 20)%Q) by (unfold Qle; simpl; lia).
  assert (Hhi : (20 < 40)%Q) by (unfold Qlt; simpl; lia).
  split; [exact H0|]. split; [exact H100|]. split; [exact Hlo|].
  split; [exact Hhi|].
  destruct interpretar_probabilidad_bandas as (_ & H & _).
  destruct (H 20%Q H0 H100) as (_ & Hbaja & _).
  exact (Hbaja Hlo Hhi).
Defined.

(** *** Season *)

(** C4, as the claim has it, fails: the months 1, 2 and 3 do not share
    their season (the month 3 has season 2, the months 1 and 2 have
    season 1). *)
Lemma season_meses_1_2_3_distintas :
  ~ (season 1 = season 2 /\ season 2 = season 3).
Proof. intros [_ H]. vm_compute in H. discriminate. Qed.

(** *** Analogue selection *)

(** The window does not wrap: no row of the sample table of January 31
    is an analogue of a February 1, and the fallback finds no row of
    February either. *)
Example ventana_sin_dia_previo :
  analogos_primarios tabla_ejemplo (ymd2ord 2024 2 1) = [] /\
  datos_similares tabla_ejemplo (ymd2ord 2024 2 1) = [].
Proof. split; reflexivity. Qed.

Example analogos_primarios_enero_1 :
  map date (analogos_primarios tabla_ejemplo (ymd2ord 2024 1 1))
  = [Some (ymd2ord 2020 1 1); Some (ymd2ord 2021 1 2)].
Proof. reflexivity. Qed.

(** With a primary set that is empty, all rows of the month are taken. *)
Example analogos_enero_15 :
  analogos_primarios tabla_ejemplo (ymd2ord 2024 1 15) = [] /\
  map date (datos_similares tabla_ejemplo (ymd2ord 2024 1 15))
  = [Some (ymd2ord 2020 1 1); Some (ymd2ord 2021 1 2);
     Some (ymd2ord 2020 1 31)].
Proof. split; reflexivity. Qed.

(** *** Feature synthesis *)

Lemma preparar_datos_fecha_derivados_witness :
  let r := salida (preparar_datos_fecha seno_ejemplo coseno_ejemplo
                     tabla_ejemplo (ymd2ord 2024 1 1)) in
  let v := match r with inr (Some v) => v | _ => ∅ end in
  r = inr (Some v) /\
  v !! "pres_diff" = Some (Some 0%Q) /\
  (exists tavg, v !! "tavg" = Some tavg /\ v !! "tavg_3d_mean" = Some tavg) /\
  (exists prcp, v !! "prcp" = Some prcp /\ v !! "prcp_3d_sum" = Some prcp).
Proof.
  intros r v.
  assert (H : r = inr (Some v)) by reflexivity.
  split; [exact H|].
  exact (preparar_datos_fecha_derivados seno_ejemplo coseno_ejemplo
           tabla_ejemplo (ymd2ord 2024 1 1) v H).
Defined.

Example preparar_datos_fecha_enero_1 :
  let v := match salida (preparar_datos_fecha seno_ejemplo coseno_ejemplo
                           tabla_ejemplo (ymd2ord 2024 1 1)) with
           | inr (Some v) => v
           | _ => ∅
           end in
  v !! "tavg" = Some (Some (22 # 2)%Q) /\
  v !! "tavg_3d_mean" = Some (Some (22 # 2)%Q) /\
  v !! "prcp_3d_sum" = Some (Some (5 # 2)%Q) /\
  v !! "pres_diff" = Some (Some 0%Q) /\
  v !! "month" = Some (Some 1%Q) /\
  v !! "day_of_year" = Some (Some 1%Q) /\
  v !! "day_of_week" = Some (Some 0%Q) /\
  v !! "season" = Some (Some 1%Q).
Proof. repeat split; reflexivity. Qed.

(** *** Prediction *)

Lemma predecir_faltan_caracteristicas_witness :
  "humedad" ∈ ["tavg"; "humedad"] /\
  ({["tavg" := Some 10%Q]} : Vector) !! "humedad" = None /\
  predecir_probabilidad_lluvia (list (option Q)) escalador_ejemplo
    proba_ejemplo predict_ejemplo float_mul_ejemplo ["tavg"; "humedad"]
    {["tavg" := Some 10%Q]}
  = ([Imprime (MsgFaltan ["humedad"])], inr (None, None)).
Proof.
  assert (Hin : "humedad" ∈ ["tavg"; "humedad"])
    by (apply list_elem_of_further, list_elem_of_here).
  assert (Hnone : ({["tavg" := Some 10%Q]} : Vector) !! "humedad" = None)
    by reflexivity.
  split; [exact Hin|]. split; [exact Hnone|].
  exact (proj1 (predecir_faltan_caracteristicas (list (option Q))
                  escalador_ejemplo proba_ejemplo predict_ejemplo
                  float_mul_ejemplo
                  ["tavg"; "humedad"] {["tavg" := Some 10%Q]} "humedad"
                  Hin Hnone)).
Defined.

Lemma predecir_resultado_witness :
  (forall feat, feat ∈ ["tavg"; "prcp"] ->
     is_Some (({["tavg" := Some 10%Q; "prcp" := Some 2%Q]} : Vector)
              !! feat)) /\
  Forall (fun fila : list Q => is_Some (fila !! 1%nat))
    [[(1#4)%Q; (3#4)%Q]] /\
  predecir_probabilidad_lluvia (list (option Q)) escalador_ejemplo
    proba_ejemplo predict_ejemplo float_mul_ejemplo ["tavg"; "prcp"]
    {["tavg" := Some 10%Q; "prcp" := Some 2%Q]}
  = ([LlamaTransform [Some 10%Q; Some 2%Q]; LlamaPredictProba;
      LlamaPredict],
     inr (Some 1%Z, Some (float_mul_ejemplo (3 # 4) 100))).
Proof.
  assert (Hall : forall feat, feat ∈ ["tavg"; "prcp"] ->
     is_Some (({["tavg" := Some 10%Q; "prcp" := Some 2%Q]} : Vector)
              !! feat)).
  { intros feat Hf. apply list_elem_of_In in Hf. simpl in Hf.
    destruct Hf as [<-|[<-|[]]]; eexists; reflexivity. }
  assert (Hcols : Forall (fun fila : list Q => is_Some (fila !! 1%nat))
                    [[(1#4)%Q; (3#4)%Q]]).
  { constructor; [eexists; reflexivity|constructor]. }
  split; [exact Hall|]. split; [exact Hcols|].
  exact (proj1 (predecir_resultado (list (option Q)) escalador_ejemplo
                  proba_ejemplo predict_ejemplo float_mul_ejemplo
                  ["tavg"; "prcp"]
                  {["tavg" := Some 10%Q; "prcp" := Some 2%Q]} Hall)
           [Some 10%Q; Some 2%Q] [[(1#4)%Q; (3#4)%Q]] [1%Z]
           [(1#4)%Q; (3#4)%Q] (3#4)%Q 1%Z
           eq_refl eq_refl Hcols eq_refl eq_refl eq_refl eq_refl).
Defined.

(** The sample classifier on a vector that has the required features. *)
Example predecir_ejemplo :
  predecir_probabilidad_lluvia (list (option Q)) escalador_ejemplo
    proba_ejemplo predict_ejemplo float_mul_ejemplo ["tavg"; "prcp"]
    {["tavg" := Some 10%Q; "prcp" := Some 2%Q]}
  = ([LlamaTransform [Some 10%Q; Some 2%Q]; LlamaPredictProba; LlamaPredict],
     inr (Some 1%Z, Some ((3 # 4) * 100)%Q)).
Proof. reflexivity. Qed.

(** A scaler that raises: the invoker prints the error and returns
    (None, None). *)
Example predecir_escalador_falla :
  predecir_probabilidad_lluvia (list (option Q)) escalador_que_falla
    proba_ejemplo predict_ejemplo
    float_mul_ejemplo ["tavg"] {["tavg" := Some 10%Q]}
  = ([LlamaTransform [Some 10%Q]; Imprime (MsgErrorPrediccion ValueError)],
     inr (None, None)).
Proof. reflexivity. Qed.

(** *** Range aggregation *)

Lemma generar_pronostico_rango_dias_witness :
  esquema_minimo tabla_ejemplo /\
  (ymd2ord 2024 1 30 <= ymd2ord 2024 2 2)%Z /\
  length (date_range (ymd2ord 2024 1 30) (ymd2ord 2024 2 2)) = 4%nat /\
  map r_fecha
    (omap (resultado_dia seno_ejemplo coseno_ejemplo (list (option Q))
             escalador_ejemplo proba_ejemplo predict_ejemplo float_mul_ejemplo
             tabla_ejemplo ["tavg"; "prcp"])
       (date_range (ymd2ord 2024 1 30) (ymd2ord 2024 2 2)))
  = map strftime
      (filter (fun f => sintesis_ok seno_ejemplo coseno_ejemplo
                          tabla_ejemplo f = true)
         (date_range (ymd2ord 2024 1 30) (ymd2ord 2024 2 2))).
Proof.
  assert (Hesq : esquema_minimo tabla_ejemplo).
  { split; [apply list_elem_of_further, list_elem_of_here|].
    apply list_elem_of_further, list_elem_of_further, list_elem_of_here. }
  assert (Hle : (ymd2ord 2024 1 30 <= ymd2ord 2024 2 2)%Z)
    by (vm_compute; discriminate).
  destruct (generar_pronostico_rango_dias seno_ejemplo coseno_ejemplo
              (list (option Q)) escalador_ejemplo proba_ejemplo
              predict_ejemplo float_mul_ejemplo tabla_ejemplo ["tavg"; "prcp"]
              (ymd2ord 2024 1 30) (ymd2ord 2024 2 2) Hesq Hle)
    as (Hlen & _ & _ & Hfechas & _).
  split; [exact Hesq|]. split; [exact Hle|]. split; [exact Hlen|].
  exact Hfechas.
Defined.

(** From 2024-01-30 to 2024-02-02 on the sample table: the two days of
    January have a result, the two days of February have no data. *)
Example generar_pronostico_rango_ejemplo :
  generar_pronostico_rango seno_ejemplo coseno_ejemplo (list (option Q))
    escalador_ejemplo proba_ejemplo predict_ejemplo
    float_mul_ejemplo tabla_ejemplo
    ["tavg"; "prcp"] (ymd2ord 2024 1 30) (ymd2ord 2024 2 2)
  = ([LlamaTransform [Some 8%Q; Some 1%Q]; LlamaPredictProba; LlamaPredict;
      LlamaTransform [Some 8%Q; Some 1%Q]; LlamaPredictProba; LlamaPredict;
      Imprime (MsgNoHayDatos "2024-02-01");
      Imprime (MsgNoHayDatos "2024-02-02")],
     inr [mkResultado "2024-01-30" "Lluvia" (Some ((3 # 4) * 100)%Q) "Alta";
          mkResultado "2024-01-31" "Lluvia" (Some ((3 # 4) * 100)%Q) "Alta"]).
Proof. vm_compute. reflexivity. Qed.

(** From 2024-01-01 to 2024-01-03 on the sample table: three results,
    in calendar order. *)
Example generar_pronostico_rango_tres_dias :
  map r_fecha
    match salida (generar_pronostico_rango seno_ejemplo coseno_ejemplo
                    (list (option Q)) escalador_ejemplo proba_ejemplo
                    predict_ejemplo
                    float_mul_ejemplo tabla_ejemplo ["tavg"; "prcp"]
                    (ymd2ord 2024 1 1) (ymd2ord 2024 1 3)) with
    | inr resultados => resultados
    | inl _ => []
    end
  = ["2024-01-01"; "2024-01-02"; "2024-01-03"].
Proof. vm_compute. reflexivity. Qed.

Lemma generar_pronostico_rango_prediccion_fallida_witness :
  let r := salida (preparar_datos_fecha seno_ejemplo coseno_ejemplo
                     tabla_ejemplo (ymd2ord 2024 1 30)) in
  let v := match r with inr (Some v) => v | _ => ∅ end in
  esquema_minimo tabla_ejemplo /\
  (ymd2ord 2024 1 30 <= ymd2ord 2024 1 30 <= ymd2ord 2024 2 2)%Z /\
  r = inr (Some v) /\
  salida (predecir_probabilidad_lluvia (list (option Q)) escalador_ejemplo
            proba_ejemplo predict_ejemplo
            float_mul_ejemplo ["tavg"; "humedad"] v)
  = inr (None, None) /\
  exists resultados,
    salida (generar_pronostico_rango seno_ejemplo coseno_ejemplo
              (list (option Q)) escalador_ejemplo proba_ejemplo
              predict_ejemplo
              float_mul_ejemplo tabla_ejemplo ["tavg"; "humedad"]
              (ymd2ord 2024 1 30) (ymd2ord 2024 2 2)) = inr resultados /\
    mkResultado (strftime (ymd2ord 2024 1 30)) "No lluvia" None
      "No se pudo determinar" ∈ resultados.
Proof.
  intros r v.
  assert (Hesq : esquema_minimo tabla_ejemplo).
  { split; [apply list_elem_of_further, list_elem_of_here|].
    apply list_elem_of_further, list_elem_of_further, list_elem_of_here. }
  assert (Hrango : (ymd2ord 2024 1 30 <= ymd2ord 2024 1 30
                    <= ymd2ord 2024 2 2)%Z)
    by (split; vm_compute; discriminate).
  assert (Hprep : r = inr (Some v)) by reflexivity.
  assert (Hpred : salida (predecir_probabilidad_lluvia (list (option Q))
                            escalador_ejemplo proba_ejemplo predict_ejemplo
                            float_mul_ejemplo
                            ["tavg"; "humedad"] v) = inr (None, None))
    by reflexivity.
  split; [exact Hesq|]. split; [exact Hrango|]. split; [exact Hprep|].
  split; [exact Hpred|].
  exact (generar_pronostico_rango_prediccion_fallida seno_ejemplo
           coseno_ejemplo (list (option Q)) escalador_ejemplo proba_ejemplo
           predict_ejemplo float_mul_ejemplo tabla_ejemplo ["tavg"; "humedad"]
           (ymd2ord 2024 1 30) (ymd2ord 2024 2 2) (ymd2ord 2024 1 30) v
           Hesq Hrango Hprep Hpred).
Defined.

(** *** Historical record cleaner *)

Lemma cargar_datos_historicos_invariante_witness :
  let r := salida (cargar_datos_historicos (inr tabla_con_nulos)) in
  let out := match r with
             | inr (Some d) => d
             | _ => mkDataFrame [] []
             end in
  r = inr (Some out) /\
  exists df,
    (inr tabla_con_nulos : excepcion + DataFrame) = inr df /\
    columns out = columns df /\
    (forall c r, c ∈ columnas_criticas -> c ∈ columns out ->
       r ∈ filas out -> celda c r <> None) /\
    ((0 < nulos_totales df)%nat ->
     forall c, c ∈ columnas_criticas -> c ∈ columns out) /\
    length (filas (reparar df)) = length (filas df) /\
    map date (filas (reparar df)) = map date (filas df) /\
    (filas out = filas (reparar df) \/
     filas out
     = filter (fun r => fila_completa columnas_criticas r = true)
         (filas (reparar df))).
Proof.
  intros r out.
  assert (H : r = inr (Some out)) by reflexivity.
  split; [exact H|].
  exact (cargar_datos_historicos_invariante (inr tabla_con_nulos) out H).
Defined.

(** The sample table with gaps: every gap is repaired, the three rows
    stay. *)
Example cargar_tabla_con_nulos :
  match salida (cargar_datos_historicos (inr tabla_con_nulos)) with
  | inr (Some out) =>
      map (fun r => (date r, celda "tavg" r, celda "prcp" r, celda "pres" r))
        (filas out)
      = [(Some (ymd2ord 2020 1 1), Some 10%Q, Some 5%Q, Some 1010%Q);
         (Some (ymd2ord 2020 1 2), Some (24 # 2)%Q, Some 5%Q, Some 1010%Q);
         (Some (ymd2ord 2020 1 3), Some 14%Q, Some 1%Q, Some 1010%Q)]
  | _ => False
  end.
Proof. vm_compute. reflexivity. Qed.

(** A pressure column that is empty throughout cannot be repaired: its
    rows are dropped. *)
Example cargar_tabla_sin_presion :
  traza (cargar_datos_historicos (inr tabla_sin_presion))
  = [Imprime (MsgAdvertenciaNulos 3);
     Imprime (MsgNulosPorColumna [("tavg", 1%nat); ("pres", 2%nat)]);
     Imprime (MsgQuedanNulos 2); Imprime MsgSeEliminaran;
     Imprime (MsgDatosListos 0)] /\
  match salida (cargar_datos_historicos (inr tabla_sin_presion)) with
  | inr (Some out) => filas out = []
  | _ => False
  end.
Proof. split; vm_compute; reflexivity. Qed.

(** A file that is not there: the unavailable sentinel. *)
Example cargar_archivo_ausente :
  cargar_datos_historicos (inl FileNotFoundError)
  = ([Imprime MsgArchivoNoEncontrado], inr None).
Proof. reflexivity. Qed.

Example interpolate_ejemplo :
  interpolate [None; Some 1%Q; None; None; Some 4%Q; None]
  = [None; Some 1%Q; Some (1 + (4 - 1) * (1 / 3))%Q;
     Some (1 + (4 - 1) * (2 / 3))%Q; Some 4%Q; Some 4%Q].
Proof. reflexivity. Qed.

(** *** Monthly report *)

(** C5, at a month whose predictions fail.  On the sample table with a
    scaler that raises, March 2024 has 31 results, none of them with a
    probability; the monthly branch of the command line and that of the
    menu both end in TypeError, raised while the table is printed: no
    statistic is computed. *)
Theorem cli_mes_prediccion_fallida :
  (exists resultados,
     salida (analisis_mensual seno_ejemplo coseno_ejemplo (list (option Q))
               escalador_que_falla proba_ejemplo predict_ejemplo
               float_mul_ejemplo
               tabla_ejemplo ["tavg"] 2024 3) = inr resultados /\
     length resultados = 31%nat /\
     map r_probabilidad resultados = replicate 31 None) /\
  salida (cli_mes seno_ejemplo coseno_ejemplo (list (option Q))
            escalador_que_falla proba_ejemplo predict_ejemplo float_mul_ejemplo
            tabla_ejemplo ["tavg"] 2024 3) = inl TypeError /\
  salida (interactiva_mes seno_ejemplo coseno_ejemplo (list (option Q))
            escalador_que_falla proba_ejemplo predict_ejemplo float_mul_ejemplo
            tabla_ejemplo ["tavg"] 2024 3) = inl TypeError /\
  forallb (fun ev => match ev with
                     | Imprime (MsgDiasLluvia _ _ _)
                     | Imprime (MsgProbMedia _)
                     | Imprime (MsgProbMaxima _)
                     | Imprime (MsgProbMinima _) => false
                     | _ => true
                     end)
    (traza (cli_mes seno_ejemplo coseno_ejemplo (list (option Q))
              escalador_que_falla proba_ejemplo predict_ejemplo
              float_mul_ejemplo
              tabla_ejemplo ["tavg"] 2024 3)) = true.
Proof.
  split; [|split; [|split]].
  - eexists. split; [vm_compute; reflexivity|]. split; reflexivity.
  - vm_compute. reflexivity.
  - vm_compute. reflexivity.
  - vm_compute. reflexivity.
Qed.

(** With a classifier that answers, the same month is summarised over
    its 31 results. *)
Example cli_mes_ejemplo :
  salida (cli_mes seno_ejemplo coseno_ejemplo (list (option Q))
            escalador_ejemplo proba_ejemplo predict_ejemplo float_mul_ejemplo
            tabla_ejemplo ["tavg"] 2024 3) = inr tt /\
  Imprime (MsgDiasLluvia 31 31 (Qnat 31 / Qnat 31 * 100)%Q)
  ∈ traza (cli_mes seno_ejemplo coseno_ejemplo (list (option Q))
             escalador_ejemplo proba_ejemplo predict_ejemplo float_mul_ejemplo
             tabla_ejemplo ["tavg"] 2024 3).
Proof.
  split; [vm_compute; reflexivity|].
  vm_compute. apply list_elem_of_In.
  repeat (first [left; reflexivity | right]).
Qed.

(** A month with no result at all: the summary divides by zero. *)
Example cli_mes_sin_resultados :
  salida (cli_mes seno_ejemplo coseno_ejemplo (list (option Q))
            escalador_ejemplo proba_ejemplo predict_ejemplo float_mul_ejemplo
            tabla_ejemplo ["tavg"] 2024 2) = inl ZeroDivisionError.
Proof. vm_compute. reflexivity. Qed.

(* ===================================================================== *)
(** ** The further properties on the sample data *)
(* ===================================================================== *)

Lemma criticas_en_ejemplo (df : DataFrame) :
  columns df = ["date"; "tavg"; "prcp"; "pres"; "wdir"]
  \/ columns df = ["date"; "tavg"; "prcp"; "pres"] ->
  forall c, c ∈ columnas_criticas -> c ∈ columns df.
Proof.
  intros Hcols c Hc. unfold columnas_criticas in Hc.
  apply list_elem_of_In in Hc. simpl in Hc.
  destruct Hc as [<-|[<-|[<-|[]]]]; destruct Hcols as [-> | ->];
    apply list_elem_of_In; simpl; tauto.
Qed.

Lemma reparar_conserva_observaciones_witness :
  let r := fila_ejemplo 2020 1 1 (Some 10%Q) None (Some 1010%Q) (Some 90%Q) in
  filas tabla_con_nulos !! 0%nat = Some r /\
  celda "tavg" r = Some 10%Q /\
  exists r', filas (reparar tabla_con_nulos) !! 0%nat = Some r' /\
             celda "tavg" r' = Some 10%Q /\ date r' = date r.
Proof.
  intros r.
  assert (H1 : filas tabla_con_nulos !! 0%nat = Some r) by reflexivity.
  assert (H2 : celda "tavg" r = Some 10%Q) by reflexivity.
  split; [exact H1|]. split; [exact H2|].
  exact (reparar_conserva_observaciones tabla_con_nulos "tavg" 0 r 10%Q
           H1 H2).
Defined.

Lemma cargar_datos_historicos_sin_perdida_witness :
  (forall c, c ∈ columnas_criticas -> c ∈ columns tabla_con_nulos) /\
  (forall c, c ∈ columnas_criticas ->
     exists r, r ∈ filas tabla_con_nulos /\ celda c r <> None) /\
  exists out,
    salida (cargar_datos_historicos (inr tabla_con_nulos)) = inr (Some out) /\
    length (filas out) = length (filas tabla_con_nulos) /\
    map date (filas out) = map date (filas tabla_con_nulos) /\
    forall c r, c ∈ columnas_criticas -> r ∈ filas out -> celda c r <> None.
Proof.
  assert (H1 : forall c, c ∈ columnas_criticas ->
                 c ∈ columns tabla_con_nulos)
    by (apply criticas_en_ejemplo; left; reflexivity).
  assert (H2 : forall c, c ∈ columnas_criticas ->
     exists r, r ∈ filas tabla_con_nulos /\ celda c r <> None).
  { intros c Hc. unfold columnas_criticas in Hc.
    apply list_elem_of_In in Hc. simpl in Hc.
    destruct Hc as [<-|[<-|[<-|[]]]].
    - eexists. split; [apply list_elem_of_here|]. vm_compute. discriminate.
    - eexists. split; [apply list_elem_of_further, list_elem_of_here|].
      vm_compute. discriminate.
    - eexists. split; [apply list_elem_of_here|]. vm_compute. discriminate. }
  split; [exact H1|]. split; [exact H2|].
  exact (cargar_datos_historicos_sin_perdida tabla_con_nulos H1 H2).
Defined.

Lemma cargar_datos_historicos_columna_vacia_witness :
  (forall c', c' ∈ columnas_criticas -> c' ∈ columns tabla_sin_presion) /\
  "pres" ∈ columnas_criticas /\
  filas tabla_sin_presion <> [] /\
  (forall r, r ∈ filas tabla_sin_presion -> celda "pres" r = None) /\
  exists out,
    salida (cargar_datos_historicos (inr tabla_sin_presion))
    = inr (Some out) /\
    filas out = [] /\ columns out = columns tabla_sin_presion.
Proof.
  assert (H1 : forall c, c ∈ columnas_criticas ->
                 c ∈ columns tabla_sin_presion)
    by (apply criticas_en_ejemplo; right; reflexivity).
  assert (H2 : "pres" ∈ columnas_criticas)
    by (apply list_elem_of_In; simpl; tauto).
  assert (H3 : filas tabla_sin_presion <> []) by discriminate.
  assert (H4 : forall r, r ∈ filas tabla_sin_presion ->
                 celda "pres" r = None).
  { intros r Hr. apply list_elem_of_In in Hr. simpl in Hr.
    destruct Hr as [<-|[<-|[]]]; reflexivity. }
  split; [exact H1|]. split; [exact H2|]. split; [exact H3|].
  split; [exact H4|].
  exact (cargar_datos_historicos_columna_vacia tabla_sin_presion "pres"
           H1 H2 H3 H4).
Defined.


Lemma preparar_datos_fecha_sin_columna_witness :
  analogos_mes tabla_sin_tavg (ymd2ord 2024 1 1) <> [] /\
  ("tavg" ∉ columns tabla_sin_tavg) /\
  preparar_datos_fecha seno_ejemplo coseno_ejemplo tabla_sin_tavg
    (ymd2ord 2024 1 1) = ([], inl (KeyError "tavg")).
Proof.
  assert (H1 : analogos_mes tabla_sin_tavg (ymd2ord 2024 1 1) <> [])
    by (vm_compute; discriminate).
  assert (H2 : "tavg" ∉ columns tabla_sin_tavg).
  { intros H. apply list_elem_of_In in H. simpl in H.
    destruct H as [H|[H|[]]]; discriminate. }
  split; [exact H1|]. split; [exact H2|].
  exact (proj1 (preparar_datos_fecha_sin_columna seno_ejemplo coseno_ejemplo
                  tabla_sin_tavg (ymd2ord 2024 1 1) H1) H2).
Defined.

Lemma generar_pronostico_rango_sin_tavg_witness :
  ("tavg" ∉ columns tabla_sin_tavg) /\
  (ymd2ord 2023 12 30 <= ymd2ord 2024 1 1 <= ymd2ord 2024 1 5)%Z /\
  analogos_mes tabla_sin_tavg (ymd2ord 2024 1 1) <> [] /\
  salida (generar_pronostico_rango seno_ejemplo coseno_ejemplo
            (list (option Q)) escalador_ejemplo proba_ejemplo
            predict_ejemplo float_mul_ejemplo tabla_sin_tavg ["prcp"]
            (ymd2ord 2023 12 30) (ymd2ord 2024 1 5))
  = inl (KeyError "tavg").
Proof.
  assert (H1 : "tavg" ∉ columns tabla_sin_tavg).
  { intros H. apply list_elem_of_In in H. simpl in H.
    destruct H as [H|[H|[]]]; discriminate. }
  assert (H2 : (ymd2ord 2023 12 30 <= ymd2ord 2024 1 1
                <= ymd2ord 2024 1 5)%Z)
    by (split; vm_compute; discriminate).
  assert (H3 : analogos_mes tabla_sin_tavg (ymd2ord 2024 1 1) <> [])
    by (vm_compute; discriminate).
  split; [exact H1|]. split; [exact H2|]. split; [exact H3|].
  exact (generar_pronostico_rango_sin_tavg seno_ejemplo coseno_ejemplo
           (list (option Q)) escalador_ejemplo proba_ejemplo predict_ejemplo
           float_mul_ejemplo
           tabla_sin_tavg ["prcp"] (ymd2ord 2023 12 30) (ymd2ord 2024 1 5)
           (ymd2ord 2024 1 1) H1 H2 H3).
Defined.

Lemma preparar_datos_fecha_calendario_witness :
  let r := salida (preparar_datos_fecha seno_ejemplo coseno_ejemplo
                     tabla_ejemplo (ymd2ord 2024 1 1)) in
  let v := match r with inr (Some v) => v | _ => ∅ end in
  r = inr (Some v) /\
  v !! "month" = Some (Some (inject_Z (month (ymd2ord 2024 1 1)))) /\
  v !! "day_of_year" = Some (Some (inject_Z (tm_yday (ymd2ord 2024 1 1)))) /\
  v !! "day_of_week" = Some (Some (inject_Z (weekday (ymd2ord 2024 1 1)))) /\
  v !! "season"
  = Some (Some (inject_Z (season (month (ymd2ord 2024 1 1))))) /\
  (if decide ("wdir" ∈ columns tabla_ejemplo)
   then exists wdir, v !! "wdir" = Some wdir /\
                     v !! "wdir_sin" = Some (seno_ejemplo <$> wdir) /\
                     v !! "wdir_cos" = Some (coseno_ejemplo <$> wdir)
   else v !! "wdir" = None /\
        v !! "wdir_sin" = Some (Some 0%Q) /\
        v !! "wdir_cos" = Some (Some 0%Q)).
Proof.
  intros r v.
  assert (H : r = inr (Some v)) by reflexivity.
  split; [exact H|].
  exact (preparar_datos_fecha_calendario seno_ejemplo coseno_ejemplo
           tabla_ejemplo (ymd2ord 2024 1 1) v H).
Defined.

Lemma predecir_orden_de_llamadas_witness :
  (forall feat, feat ∈ ["tavg"; "prcp"] ->
     is_Some (({["tavg" := Some 10%Q; "prcp" := Some 2%Q]} : Vector)
              !! feat)) /\
  predecir_probabilidad_lluvia (list (option Q)) escalador_que_falla
    proba_ejemplo predict_ejemplo float_mul_ejemplo ["tavg"; "prcp"]
    {["tavg" := Some 10%Q; "prcp" := Some 2%Q]}
  = ([LlamaTransform [Some 10%Q; Some 2%Q];
      Imprime (MsgErrorPrediccion ValueError)],
     inr (None, None)).
Proof.
  assert (Hall : forall feat, feat ∈ ["tavg"; "prcp"] ->
     is_Some (({["tavg" := Some 10%Q; "prcp" := Some 2%Q]} : Vector)
              !! feat)).
  { intros feat Hf. apply list_elem_of_In in Hf. simpl in Hf.
    destruct Hf as [<-|[<-|[]]]; eexists; reflexivity. }
  split; [exact Hall|].
  exact (predecir_orden_de_llamadas (list (option Q)) escalador_que_falla
           proba_ejemplo predict_ejemplo float_mul_ejemplo ["tavg"; "prcp"]
           {["tavg" := Some 10%Q; "prcp" := Some 2%Q]} Hall).
Defined.

Lemma interpretar_probabilidad_monotona_witness :
  (10 <= 50)%Q /\
  (nivel_banda (interpretar_probabilidad (Some 10%Q))
   <= nivel_banda (interpretar_probabilidad (Some 50%Q)))%nat /\
  (nivel_banda (interpretar_probabilidad (Some 50%Q)) <= 4)%nat.
Proof.
  assert (H : (10 <= 50)%Q) by (unfold Qle; simpl; lia).
  split; [exact H|].
  exact (interpretar_probabilidad_monotona 10%Q 50%Q H).
Defined.

Lemma generar_pronostico_rango_invertido_witness :
  (ymd2ord 2024 1 1 < ymd2ord 2024 1 3)%Z /\
  generar_pronostico_rango seno_ejemplo coseno_ejemplo (list (option Q))
    escalador_ejemplo proba_ejemplo predict_ejemplo
    float_mul_ejemplo tabla_ejemplo
    ["tavg"; "prcp"] (ymd2ord 2024 1 3) (ymd2ord 2024 1 1)
  = ([], inr []).
Proof.
  assert (H : (ymd2ord 2024 1 1 < ymd2ord 2024 1 3)%Z)
    by (vm_compute; reflexivity).
  split; [exact H|].
  exact (generar_pronostico_rango_invertido seno_ejemplo coseno_ejemplo
           (list (option Q)) escalador_ejemplo proba_ejemplo predict_ejemplo
           float_mul_ejemplo
           tabla_ejemplo ["tavg"; "prcp"] (ymd2ord 2024 1 3)
           (ymd2ord 2024 1 1) H).
Defined.

Lemma esquema_minimo_tabla_ejemplo : esquema_minimo tabla_ejemplo.
Proof.
  split; [apply list_elem_of_further, list_elem_of_here|].
  apply list_elem_of_further, list_elem_of_further, list_elem_of_here.
Qed.

Lemma generar_pronostico_rango_compone_witness :
  esquema_minimo tabla_ejemplo /\
  (ymd2ord 2024 1 30 <= ymd2ord 2024 1 31 + 1)%Z /\
  (ymd2ord 2024 1 31 <= ymd2ord 2024 2 2)%Z /\
  exists t1 r1 t2 r2,
    generar_pronostico_rango seno_ejemplo coseno_ejemplo (list (option Q))
      escalador_ejemplo proba_ejemplo predict_ejemplo
      float_mul_ejemplo tabla_ejemplo
      ["tavg"; "prcp"] (ymd2ord 2024 1 30) (ymd2ord 2024 1 31)
    = (t1, inr r1) /\
    generar_pronostico_rango seno_ejemplo coseno_ejemplo (list (option Q))
      escalador_ejemplo proba_ejemplo predict_ejemplo
      float_mul_ejemplo tabla_ejemplo
      ["tavg"; "prcp"] (ymd2ord 2024 1 31 + 1)%Z (ymd2ord 2024 2 2)
    = (t2, inr r2) /\
    generar_pronostico_rango seno_ejemplo coseno_ejemplo (list (option Q))
      escalador_ejemplo proba_ejemplo predict_ejemplo
      float_mul_ejemplo tabla_ejemplo
      ["tavg"; "prcp"] (ymd2ord 2024 1 30) (ymd2ord 2024 2 2)
    = (t1 ++ t2, inr (r1 ++ r2)).
Proof.
  assert (H1 : (ymd2ord 2024 1 30 <= ymd2ord 2024 1 31 + 1)%Z)
    by (vm_compute; discriminate).
  assert (H2 : (ymd2ord 2024 1 31 <= ymd2ord 2024 2 2)%Z)
    by (vm_compute; discriminate).
  split; [exact esquema_minimo_tabla_ejemplo|].
  split; [exact H1|]. split; [exact H2|].
  exact (generar_pronostico_rango_compone seno_ejemplo coseno_ejemplo
           (list (option Q)) escalador_ejemplo proba_ejemplo predict_ejemplo
           float_mul_ejemplo
           tabla_ejemplo ["tavg"; "prcp"] (ymd2ord 2024 1 30)
           (ymd2ord 2024 1 31) (ymd2ord 2024 2 2)
           esquema_minimo_tabla_ejemplo H1 H2).
Defined.

Lemma generar_pronostico_rango_coherente_witness :
  esquema_minimo tabla_ejemplo /\
  exists resultados,
    salida (generar_pronostico_rango seno_ejemplo coseno_ejemplo
              (list (option Q)) escalador_ejemplo proba_ejemplo
              predict_ejemplo float_mul_ejemplo tabla_ejemplo ["tavg"; "prcp"]
              (ymd2ord 2024 1 30) (ymd2ord 2024 2 2)) = inr resultados /\
    Forall (fun r =>
              resultado_coherente r /\
              exists f, (ymd2ord 2024 1 30 <= f <= ymd2ord 2024 2 2)%Z /\
                        r_fecha r = strftime f)
      resultados.
Proof.
  split; [exact esquema_minimo_tabla_ejemplo|].
  exact (generar_pronostico_rango_coherente seno_ejemplo coseno_ejemplo
           (list (option Q)) escalador_ejemplo proba_ejemplo predict_ejemplo
           float_mul_ejemplo
           tabla_ejemplo ["tavg"; "prcp"] (ymd2ord 2024 1 30)
           (ymd2ord 2024 2 2) esquema_minimo_tabla_ejemplo).
Defined.

Lemma analisis_mensual_dias_witness :
  (1678 <= 2024 <= 2261)%Z /\ (1 <= 2 <= 12)%Z /\
  analisis_mensual seno_ejemplo coseno_ejemplo (list (option Q))
    escalador_ejemplo proba_ejemplo predict_ejemplo
    float_mul_ejemplo tabla_ejemplo
    ["tavg"; "prcp"] 2024 2
  = generar_pronostico_rango seno_ejemplo coseno_ejemplo (list (option Q))
      escalador_ejemplo proba_ejemplo predict_ejemplo
      float_mul_ejemplo tabla_ejemplo
      ["tavg"; "prcp"]
      (ymd2ord 2024 2 1) (ymd2ord 2024 2 (days_in_month 2024 2)) /\
  length (date_range (ymd2ord 2024 2 1)
            (ymd2ord 2024 2 (days_in_month 2024 2)))
  = Z.to_nat (days_in_month 2024 2) /\
  (28 <= days_in_month 2024 2 <= 31)%Z /\
  days_in_month 2024 2 = (if is_leap 2024 then 29 else 28)%Z.
Proof.
  assert (H1 : (1678 <= 2024 <= 2261)%Z) by lia.
  assert (H2 : (1 <= 2 <= 12)%Z) by lia.
  split; [exact H1|]. split; [exact H2|].
  exact (analisis_mensual_dias seno_ejemplo coseno_ejemplo
           (list (option Q)) escalador_ejemplo proba_ejemplo predict_ejemplo
           float_mul_ejemplo
           tabla_ejemplo ["tavg"; "prcp"] 2024 2 H1 H2).
Defined.

Lemma mes_fuera_de_rango_witness :
  (13 < 1 \/ 12 < 13)%Z /\
  analisis_mensual seno_ejemplo coseno_ejemplo (list (option Q))
    escalador_ejemplo proba_ejemplo predict_ejemplo float_mul_ejemplo
    tabla_ejemplo ["tavg"] 2024 13 = ([], inl ValueError) /\
  cli_mes seno_ejemplo coseno_ejemplo (list (option Q))
    escalador_ejemplo proba_ejemplo predict_ejemplo float_mul_ejemplo
    tabla_ejemplo ["tavg"] 2024 13 = ([Imprime MsgErrorMes], inr tt) /\
  interactiva_mes seno_ejemplo coseno_ejemplo (list (option Q))
    escalador_ejemplo proba_ejemplo predict_ejemplo float_mul_ejemplo
    tabla_ejemplo ["tavg"] 2024 13 = ([Imprime MsgErrorMes], inr tt) /\
  analisis_mensual seno_ejemplo coseno_ejemplo (list (option Q))
    escalador_ejemplo proba_ejemplo predict_ejemplo float_mul_ejemplo
    tabla_ejemplo ["tavg"] 2147483648 13
  = ([], inl (OtraExcepcion "OverflowError")).
Proof.
  assert (H : (13 < 1 \/ 12 < 13)%Z) by lia.
  split; [exact H|].
  destruct (mes_fuera_de_rango seno_ejemplo coseno_ejemplo (list (option Q))
    escalador_ejemplo proba_ejemplo predict_ejemplo float_mul_ejemplo
    tabla_ejemplo ["tavg"] 2024 13 H) as (Ha & Hc & Hi).
  split; [exact Ha|]. split; [exact Hc|]. split; [exact Hi|].
  exact (proj1 (mes_fuera_de_rango seno_ejemplo coseno_ejemplo (list (option Q))
    escalador_ejemplo proba_ejemplo predict_ejemplo float_mul_ejemplo
    tabla_ejemplo ["tavg"] 2147483648 13 H)).
Defined.

Lemma anio_fuera_de_rango_witness :
  (0 < 1 \/ 9999 < 0)%Z /\
  (2147483648 < 1 \/ 9999 < 2147483648)%Z /\
  (1 <= 3 <= 12)%Z /\
  cabe_en_int 0 = true /\ cabe_en_int 2147483648 = false /\
  cli_mes seno_ejemplo coseno_ejemplo (list (option Q))
    escalador_ejemplo proba_ejemplo predict_ejemplo float_mul_ejemplo
    tabla_ejemplo ["tavg"] 0 3 = ([], inl ValueError) /\
  interactiva_mes seno_ejemplo coseno_ejemplo (list (option Q))
    escalador_ejemplo proba_ejemplo predict_ejemplo float_mul_ejemplo
    tabla_ejemplo ["tavg"] 0 3 = ([Imprime MsgErrorValores], inr tt) /\
  cli_mes seno_ejemplo coseno_ejemplo (list (option Q))
    escalador_ejemplo proba_ejemplo predict_ejemplo float_mul_ejemplo
    tabla_ejemplo ["tavg"] 2147483648 3 = ([], inl (OtraExcepcion "OverflowError")) /\
  interactiva_mes seno_ejemplo coseno_ejemplo (list (option Q))
    escalador_ejemplo proba_ejemplo predict_ejemplo float_mul_ejemplo
    tabla_ejemplo ["tavg"] 2147483648 3
  = ([], inl (OtraExcepcion "OverflowError")).
Proof.
  assert (H1 : (0 < 1 \/ 9999 < 0)%Z) by lia.
  assert (H1' : (2147483648 < 1 \/ 9999 < 2147483648)%Z) by lia.
  assert (H2 : (1 <= 3 <= 12)%Z) by lia.
  split; [exact H1|]. split; [exact H1'|]. split; [exact H2|].
  split; [reflexivity|]. split; [reflexivity|].
  destruct (proj1 (anio_fuera_de_rango seno_ejemplo coseno_ejemplo (list (option Q))
    escalador_ejemplo proba_ejemplo predict_ejemplo float_mul_ejemplo
    tabla_ejemplo ["tavg"] 0 3 H1 H2) eq_refl)
    as [Hc Hi].
  split; [exact Hc|]. split; [exact Hi|].
  exact (proj2 (anio_fuera_de_rango seno_ejemplo coseno_ejemplo (list (option Q))
    escalador_ejemplo proba_ejemplo predict_ejemplo float_mul_ejemplo
    tabla_ejemplo ["tavg"] 2147483648 3 H1' H2) eq_refl).
Defined.

Lemma mes_sin_resultados_witness :
  salida (analisis_mensual seno_ejemplo coseno_ejemplo (list (option Q))
            escalador_ejemplo proba_ejemplo predict_ejemplo
            float_mul_ejemplo tabla_ejemplo
            ["tavg"] 2024 2) = inr [] /\
  salida (cli_mes seno_ejemplo coseno_ejemplo (list (option Q))
            escalador_ejemplo proba_ejemplo predict_ejemplo
            float_mul_ejemplo tabla_ejemplo
            ["tavg"] 2024 2) = inl ZeroDivisionError /\
  salida (interactiva_mes seno_ejemplo coseno_ejemplo (list (option Q))
            escalador_ejemplo proba_ejemplo predict_ejemplo
            float_mul_ejemplo tabla_ejemplo
            ["tavg"] 2024 2) = inl ZeroDivisionError /\
  informe_mensual []
  = ([Imprime MsgEncabezado; Imprime MsgResumen], inl ZeroDivisionError).
Proof.
  assert (H : salida (analisis_mensual seno_ejemplo coseno_ejemplo
                        (list (option Q)) escalador_ejemplo proba_ejemplo
                        predict_ejemplo
                        float_mul_ejemplo tabla_ejemplo ["tavg"] 2024 2)
              = inr []) by (vm_compute; reflexivity).
  split; [exact H|].
  exact (mes_sin_resultados seno_ejemplo coseno_ejemplo
           (list (option Q)) escalador_ejemplo proba_ejemplo predict_ejemplo
           float_mul_ejemplo
           tabla_ejemplo ["tavg"] 2024 2 H).
Defined.

Lemma informe_mensual_completo_witness :
  map r_probabilidad resultados_ejemplo = map Some [75%Q; 10%Q; 90%Q] /\
  informe_mensual resultados_ejemplo
  = (Imprime MsgEncabezado
     :: zip_with (fun r p => Imprime (MsgFila r p)) resultados_ejemplo
          [75%Q; 10%Q; 90%Q]
     ++ [Imprime MsgResumen;
         Imprime (MsgDiasLluvia (contar_lluvia resultados_ejemplo)
                    (length resultados_ejemplo)
                    (Qnat (contar_lluvia resultados_ejemplo)
                     / Qnat (length resultados_ejemplo) * 100)%Q);
         Imprime (MsgProbMedia
                    (Qsum [75%Q; 10%Q; 90%Q]
                     / Qnat (length resultados_ejemplo))%Q);
         Imprime (MsgProbMaxima (Qmax_lista 75%Q [10%Q; 90%Q]));
         Imprime (MsgProbMinima (Qmin_lista 75%Q [10%Q; 90%Q]))],
     inr tt).
Proof.
  assert (H : map r_probabilidad resultados_ejemplo
              = map Some [75%Q; 10%Q; 90%Q]) by reflexivity.
  split; [exact H|].
  exact (informe_mensual_completo resultados_ejemplo 75%Q [10%Q; 90%Q] H).
Defined.

(** The summary of the sample month: two rainy days of three, a maximum
    of 90 and a minimum of 10. *)
Example resumen_mensual_ejemplo :
  contar_lluvia resultados_ejemplo = 2%nat /\
  Qmax_lista 75%Q [10%Q; 90%Q] = 90%Q /\
  Qmin_lista 75%Q [10%Q; 90%Q] = 10%Q /\
  (Qsum [75%Q; 10%Q; 90%Q] / Qnat 3 == 175 # 3)%Q.
Proof. repeat split; vm_compute; reflexivity. Qed.

Lemma interfaz_linea_comandos_sin_artefactos_witness :
  primera_excepcion (inr tt : excepcion + unit)
    (inl FileNotFoundError : excepcion + unit) (inr ["tavg"])
  = Some FileNotFoundError /\
  interfaz_linea_comandos seno_ejemplo coseno_ejemplo (list (option Q))
    escalador_ejemplo proba_ejemplo predict_ejemplo float_mul_ejemplo
    (inr tt) (inl FileNotFoundError) (inr ["tavg"])
    (inr tabla_ejemplo) (ArgMes 2024 3)
  = ([Muestra MsgModeloNoEncontrado], inr tt) /\
  primera_excepcion (inr tt : excepcion + unit)
    (inr tt : excepcion + unit) (inr ["tavg"]) = None /\
  salida (cargar_datos_historicos (inl FileNotFoundError)) = inr None /\
  interfaz_linea_comandos seno_ejemplo coseno_ejemplo (list (option Q))
    escalador_ejemplo proba_ejemplo predict_ejemplo float_mul_ejemplo
    (inr tt) (inr tt) (inr ["tavg"])
    (inl FileNotFoundError) (ArgMes 2024 3)
  = (map Nucleo (traza (cargar_datos_historicos (inl FileNotFoundError))),
     inr tt).
Proof.
  assert (H1 : primera_excepcion (inr tt : excepcion + unit)
                 (inl FileNotFoundError : excepcion + unit) (inr ["tavg"])
               = Some FileNotFoundError) by reflexivity.
  assert (H2 : primera_excepcion (inr tt : excepcion + unit)
                 (inr tt : excepcion + unit) (inr ["tavg"]) = None)
    by reflexivity.
  assert (H3 : salida (cargar_datos_historicos (inl FileNotFoundError))
               = inr None) by reflexivity.
  split; [exact H1|].
  split; [exact (proj1 (interfaz_linea_comandos_sin_artefactos
                          seno_ejemplo coseno_ejemplo (list (option Q))
                          escalador_ejemplo proba_ejemplo predict_ejemplo
                          float_mul_ejemplo
                          (inr tt) (inl FileNotFoundError) (inr ["tavg"])
                          (inr tabla_ejemplo) (ArgMes 2024 3)) H1)|].
  split; [exact H2|]. split; [exact H3|].
  exact (proj2 (interfaz_linea_comandos_sin_artefactos
                  seno_ejemplo coseno_ejemplo (list (option Q))
                  escalador_ejemplo proba_ejemplo predict_ejemplo
                  float_mul_ejemplo
                  (inr tt) (inr tt) (inr ["tavg"])
                  (inl FileNotFoundError) (ArgMes 2024 3)) H2 H3).
Defined.

Lemma cli_rango_invertido_witness :
  (ymd2ord 2024 1 1 < ymd2ord 2024 1 3)%Z /\
  cli_rango seno_ejemplo coseno_ejemplo (list (option Q))
    escalador_ejemplo proba_ejemplo predict_ejemplo
    float_mul_ejemplo tabla_ejemplo
    ["tavg"] (inr (ymd2ord 2024 1 3)) (inr (ymd2ord 2024 1 1))
  = ([Muestra MsgErrorRango], inr tt).
Proof.
  assert (H : (ymd2ord 2024 1 1 < ymd2ord 2024 1 3)%Z)
    by (vm_compute; reflexivity).
  split; [exact H|].
  exact (cli_rango_invertido seno_ejemplo coseno_ejemplo
           (list (option Q)) escalador_ejemplo proba_ejemplo predict_ejemplo
           float_mul_ejemplo
           tabla_ejemplo ["tavg"] (ymd2ord 2024 1 3) (ymd2ord 2024 1 1) H).
Defined.

Lemma fecha_prediccion_fallida_witness :
  let fecha := ymd2ord 2024 1 30 in
  let l := linea_fecha "2024-01-30" 2024 1 30 in
  let r := salida (preparar_datos_fecha seno_ejemplo coseno_ejemplo
                     tabla_ejemplo fecha) in
  let v := match r with inr (Some v) => v | _ => ∅ end in
  r = inr (Some v) /\
  salida (predecir_probabilidad_lluvia (list (option Q)) escalador_que_falla
            proba_ejemplo predict_ejemplo
            float_mul_ejemplo ["tavg"] v) = inr (None, None) /\
  como_fecha l = inr fecha /\
  snd (cli_fecha seno_ejemplo coseno_ejemplo (list (option Q))
         escalador_que_falla proba_ejemplo predict_ejemplo
         float_mul_ejemplo tabla_ejemplo
         ["tavg"] (inr fecha)) = inl TypeError /\
  snd (menu_fecha seno_ejemplo coseno_ejemplo (list (option Q))
         escalador_que_falla proba_ejemplo predict_ejemplo
         float_mul_ejemplo tabla_ejemplo
         ["tavg"] l) = inr tt.
Proof.
  intros fecha l r v.
  assert (H1 : r = inr (Some v)) by reflexivity.
  assert (H2 : salida (predecir_probabilidad_lluvia (list (option Q))
                         escalador_que_falla proba_ejemplo predict_ejemplo
                         float_mul_ejemplo
                         ["tavg"] v) = inr (None, None)) by reflexivity.
  assert (H3 : como_fecha l = inr fecha) by reflexivity.
  split; [exact H1|]. split; [exact H2|]. split; [exact H3|].
  destruct (fecha_prediccion_fallida seno_ejemplo coseno_ejemplo
              (list (option Q)) escalador_que_falla proba_ejemplo
              predict_ejemplo
              float_mul_ejemplo tabla_ejemplo ["tavg"] fecha v l H1 H2 H3)
    as [Hcli Hmenu].
  split; [rewrite Hcli|rewrite Hmenu]; reflexivity.
Defined.

Lemma rango_prediccion_fallida_witness :
  let inicio := ymd2ord 2024 1 30 in
  let fin := ymd2ord 2024 1 31 in
  let r := mkResultado "2024-01-30" "No lluvia" None
             "No se pudo determinar" in
  let resultados := [r; mkResultado "2024-01-31" "No lluvia" None
                          "No se pudo determinar"] in
  (inicio <= fin)%Z /\
  salida (generar_pronostico_rango seno_ejemplo coseno_ejemplo
            (list (option Q)) escalador_que_falla proba_ejemplo
            predict_ejemplo float_mul_ejemplo tabla_ejemplo ["tavg"] inicio fin)
  = inr resultados /\
  r ∈ resultados /\ r_probabilidad r = None /\
  snd (cli_rango seno_ejemplo coseno_ejemplo (list (option Q))
         escalador_que_falla proba_ejemplo predict_ejemplo
         float_mul_ejemplo tabla_ejemplo
         ["tavg"] (inr inicio) (inr fin)) = inl TypeError /\
  snd (bucle_menu seno_ejemplo coseno_ejemplo (list (option Q))
         escalador_que_falla proba_ejemplo predict_ejemplo
         float_mul_ejemplo tabla_ejemplo
         ["tavg"]
         [linea_texto "2"; linea_fecha "2024-01-30" 2024 1 30;
          linea_fecha "2024-01-31" 2024 1 31; linea_texto "4"])
  = inl TypeError.
Proof.
  intros inicio fin r resultados.
  assert (H1 : (inicio <= fin)%Z) by (vm_compute; discriminate).
  assert (H2 : salida (generar_pronostico_rango seno_ejemplo coseno_ejemplo
                         (list (option Q)) escalador_que_falla proba_ejemplo
                         predict_ejemplo
                         float_mul_ejemplo tabla_ejemplo ["tavg"] inicio fin)
               = inr resultados) by (vm_compute; reflexivity).
  assert (H3 : r ∈ resultados) by apply list_elem_of_here.
  assert (H4 : r_probabilidad r = None) by reflexivity.
  split; [exact H1|]. split; [exact H2|]. split; [exact H3|].
  split; [exact H4|].
  exact (rango_prediccion_fallida seno_ejemplo coseno_ejemplo
           (list (option Q)) escalador_que_falla proba_ejemplo
           predict_ejemplo
           float_mul_ejemplo tabla_ejemplo ["tavg"] inicio fin resultados r
           (linea_texto "2") (linea_fecha "2024-01-30" 2024 1 30)
           (linea_fecha "2024-01-31" 2024 1 31) [linea_texto "4"]
           H1 H2 H3 H4 eq_refl eq_refl eq_refl).
Defined.

Lemma bucle_menu_salir_o_seguir_witness :
  texto (linea_texto "4") = "4" /\
  bucle_menu seno_ejemplo coseno_ejemplo (list (option Q))
    escalador_ejemplo proba_ejemplo predict_ejemplo
    float_mul_ejemplo tabla_ejemplo
    ["tavg"] [linea_texto "4"; linea_texto "1"]
  = ([Muestra MsgMenu; Pide; Muestra MsgDespedida], inr tt) /\
  texto (linea_texto "9") <> "1" /\ texto (linea_texto "9") <> "2" /\
  texto (linea_texto "9") <> "3" /\ texto (linea_texto "9") <> "4" /\
  bucle_menu seno_ejemplo coseno_ejemplo (list (option Q))
    escalador_ejemplo proba_ejemplo predict_ejemplo
    float_mul_ejemplo tabla_ejemplo
    ["tavg"] [linea_texto "9"; linea_texto "4"]
  = ([Muestra MsgMenu; Pide; Muestra MsgOpcionNoValida;
      Muestra MsgMenu; Pide; Muestra MsgDespedida], inr tt).
Proof.
  assert (H4 : texto (linea_texto "4") = "4") by reflexivity.
  assert (N1 : texto (linea_texto "9") <> "1") by discriminate.
  assert (N2 : texto (linea_texto "9") <> "2") by discriminate.
  assert (N3 : texto (linea_texto "9") <> "3") by discriminate.
  assert (N4 : texto (linea_texto "9") <> "4") by discriminate.
  split; [exact H4|].
  split; [exact (proj1 (bucle_menu_salir_o_seguir seno_ejemplo
                          coseno_ejemplo (list (option Q)) escalador_ejemplo
                          proba_ejemplo predict_ejemplo
                          float_mul_ejemplo tabla_ejemplo
                          ["tavg"] (linea_texto "4") [linea_texto "1"]) H4)|].
  split; [exact N1|]. split; [exact N2|]. split; [exact N3|].
  split; [exact N4|].
  rewrite (proj2 (bucle_menu_salir_o_seguir seno_ejemplo
                    coseno_ejemplo (list (option Q)) escalador_ejemplo
                    proba_ejemplo predict_ejemplo
                    float_mul_ejemplo tabla_ejemplo
                    ["tavg"] (linea_texto "9") [linea_texto "4"])
             N1 N2 N3 N4).
  reflexivity.
Defined.

Lemma bucle_menu_solo_sale_con_4_witness :
  snd (bucle_menu seno_ejemplo coseno_ejemplo (list (option Q))
         escalador_ejemplo proba_ejemplo predict_ejemplo
         float_mul_ejemplo tabla_ejemplo
         ["tavg"] [linea_texto "9"; linea_texto "4"]) = inr tt /\
  exists l, l ∈ [linea_texto "9"; linea_texto "4"] /\ texto l = "4".
Proof.
  assert (H : snd (bucle_menu seno_ejemplo coseno_ejemplo (list (option Q))
                     escalador_ejemplo proba_ejemplo predict_ejemplo
                     float_mul_ejemplo
                     tabla_ejemplo ["tavg"]
                     [linea_texto "9"; linea_texto "4"]) = inr tt)
    by reflexivity.
  split; [exact H|].
  exact (proj1 (bucle_menu_solo_sale_con_4 seno_ejemplo coseno_ejemplo
                  (list (option Q)) escalador_ejemplo proba_ejemplo
                  predict_ejemplo float_mul_ejemplo tabla_ejemplo ["tavg"]
                  [linea_texto "9"; linea_texto "4"]) H).
Defined.

Lemma bucle_menu_rango_invertido_witness :
  texto (linea_texto "2") = "2" /\
  como_fecha (linea_fecha "2024-01-03" 2024 1 3)
  = inr (ymd2ord 2024 1 3) /\
  como_fecha (linea_fecha "2024-01-01" 2024 1 1)
  = inr (ymd2ord 2024 1 1) /\
  (ymd2ord 2024 1 1 < ymd2ord 2024 1 3)%Z /\
  bucle_menu seno_ejemplo coseno_ejemplo (list (option Q))
    escalador_ejemplo proba_ejemplo predict_ejemplo
    float_mul_ejemplo tabla_ejemplo
    ["tavg"]
    [linea_texto "2"; linea_fecha "2024-01-03" 2024 1 3;
     linea_fecha "2024-01-01" 2024 1 1; linea_texto "4"]
  = ([Muestra MsgMenu; Pide; Pide; Pide; Muestra MsgErrorRango;
      Muestra MsgMenu; Pide; Muestra MsgDespedida], inr tt).
Proof.
  assert (H : (ymd2ord 2024 1 1 < ymd2ord 2024 1 3)%Z)
    by (vm_compute; reflexivity).
  split; [reflexivity|]. split; [reflexivity|]. split; [reflexivity|].
  split; [exact H|].
  rewrite (bucle_menu_rango_invertido seno_ejemplo coseno_ejemplo
             (list (option Q)) escalador_ejemplo proba_ejemplo
             predict_ejemplo float_mul_ejemplo tabla_ejemplo ["tavg"]
             (linea_texto "2") (linea_fecha "2024-01-03" 2024 1 3)
             (linea_fecha "2024-01-01" 2024 1 1) [linea_texto "4"]
             (ymd2ord 2024 1 3) (ymd2ord 2024 1 1)
             eq_refl eq_refl eq_refl H).
  reflexivity.
Defined.

(** A whole session at the menu on the sample table: the data path is
    left empty, an invalid option, then a date, then option 4. *)
Example interfaz_interactiva_ejemplo :
  interfaz_interactiva seno_ejemplo coseno_ejemplo (list (option Q))
    escalador_ejemplo proba_ejemplo predict_ejemplo float_mul_ejemplo
    (inr tt) (inr tt) (inr ["tavg"; "prcp"])
    (fun ruta => if String.eqb ruta "datos_procesados.csv"
                 then inr tabla_ejemplo else inl FileNotFoundError)
    [linea_texto ""; linea_texto "x"; linea_texto "1";
     linea_fecha "2024-01-30" 2024 1 30; linea_texto "4"]
  = ([Muestra MsgTitulo; Muestra MsgCargando; Pide; Muestra MsgCargado;
      Muestra MsgMenu; Pide; Muestra MsgOpcionNoValida;
      Muestra MsgMenu; Pide; Pide;
      Nucleo (LlamaTransform [Some 8%Q; Some 1%Q]);
      Nucleo LlamaPredictProba; Nucleo LlamaPredict;
      Muestra (MsgPrediccionPara "2024-01-30");
      Muestra (MsgResultado "Lluvia");
      Muestra (MsgProbabilidad ((3 # 4) * 100)%Q);
      Muestra (MsgInterpretacion "Alta");
      Muestra MsgMenu; Pide; Muestra MsgDespedida],
     inr tt).
Proof. vm_compute. reflexivity. Qed.

(** The date branch of the command line on the same date. *)
Example interfaz_linea_comandos_ejemplo :
  interfaz_linea_comandos seno_ejemplo coseno_ejemplo (list (option Q))
    escalador_ejemplo proba_ejemplo predict_ejemplo float_mul_ejemplo
    (inr tt) (inr tt) (inr ["tavg"; "prcp"]) (inr tabla_ejemplo)
    (ArgFecha "2024-01-30" (inr (ymd2ord 2024 1 30)))
  = ([Nucleo (LlamaTransform [Some 8%Q; Some 1%Q]);
      Nucleo LlamaPredictProba; Nucleo LlamaPredict;
      Muestra (MsgPrediccionPara "2024-01-30");
      Muestra (MsgResultado "Lluvia");
      Muestra (MsgProbabilidad ((3 # 4) * 100)%Q);
      Muestra (MsgInterpretacion "Alta")],
     inr tt).
Proof. vm_compute. reflexivity. Qed.
